(** * Power-loss recovery checkpointing (pfprs.py): a shallow embedding

    The development follows [src/pfprs.py], class [PowerLossRecovery]:
    the snapshot validator [_verify_state], the delay selector
    [_calculate_optimal_delay], the adaptive interval
    [_optimize_background_interval], the collector
    [_collect_current_state], the scheduler ([_background_task],
    [_save_current_state], the event handlers and the commands) and the
    resume file rewriter [_modify_gcode_file].

    Modelling conventions.
    - Python [float] values are exact rationals ([Q]); [int] values are [Z].
      Order-theoretic facts proved here do not depend on rounding. Where a
      value is rounded to decimals, a binary float that prints as a decimal
      tie lies on one side of it, so that Python's [round] may return the
      other neighbour than the exact rule does; the statements on the
      collected percentage and temperatures therefore bound the rounded
      value and leave the tie open.
    - Python dictionaries are association lists in insertion order.
    - Snapshot dictionaries are heap objects: the history deque holds
      references ([loc]) into a store, so that mutation through an alias is
      visible to every holder of the reference.
    - Logging ([debug_mode]) has no effect on state and is left out. *)

From Stdlib Require Import ZArith QArith Qround Lqa Lia Ascii String List Bool.
From stdpp Require Import base option list gmap strings pretty.

Local Open Scope string_scope.
Local Open Scope list_scope.
Local Open Scope Z_scope.

(** ** Python values *)

Module Py.

#[warnings="-register-all"]
Inductive pyval : Type :=
| PNone
| PBool (b : bool)
| PInt (z : Z)
| PFloat (q : Q)
| PStr (s : string)
| PDict (d : list (string * pyval)).

Definition pydict : Type := list (string * pyval).

(** [key in d] / [d[key]]: first binding of the key. *)
Fixpoint dict_get (k : string) (d : pydict) : option pyval :=
  match d with
  | [] => None
  | (k', v) :: rest => if String.eqb k k' then Some v else dict_get k rest
  end.

(** [d[key] = v]: overwrite in place, or append a new binding at the end. *)
Fixpoint dict_set (k : string) (v : pyval) (d : pydict) : pydict :=
  match d with
  | [] => [(k, v)]
  | (k', v') :: rest =>
      if String.eqb k k' then (k', v) :: rest else (k', v') :: dict_set k v rest
  end.

(** [state[k]] when [state] may be any object: [None] stands for the raised
    [KeyError] / [TypeError]. *)
Definition subscript (o : pyval) (k : string) : option pyval :=
  match o with
  | PDict d => dict_get k d
  | _ => None
  end.

(** The type objects used in [required_fields]. [bool] is a subclass of
    [int] in Python, so [isinstance(True, int)] holds. *)
Inductive pytype : Type := TDict | TInt | TNumber | TStr.

Definition isinstance (v : pyval) (t : pytype) : bool :=
  match t, v with
  | TDict, PDict _ => true
  | TInt, PInt _ => true
  | TInt, PBool _ => true
  | TNumber, PInt _ => true
  | TNumber, PBool _ => true
  | TNumber, PFloat _ => true
  | TStr, PStr _ => true
  | _, _ => false
  end.

(** Numeric value of an [int], [bool] or [float] operand; [None] stands for
    the [TypeError] of arithmetic or ordering on any other operand. *)
Definition as_num (v : pyval) : option Q :=
  match v with
  | PInt z => Some (inject_Z z)
  | PBool b => Some (inject_Z (Z.b2z b))
  | PFloat q => Some q
  | _ => None
  end.

End Py.
Export Py.

(** ** Arithmetic on the rational model of floats *)

Definition Qltb (x y : Q) : bool := negb (Qle_bool y x).
Definition Qleb (x y : Q) : bool := Qle_bool x y.

(** Python's two-argument [min] and [max]: the first argument is kept
    unless the second is strictly smaller (resp. larger). *)
Definition py_min (a b : Q) : Q := if Qltb b a then b else a.
Definition py_max (a b : Q) : Q := if Qltb a b then b else a.

(** [int(x)] on a float: truncation toward zero. *)
Definition py_int (x : Q) : Z := Z.quot (Qnum x) (Zpos (Qden x)).

(** [a / b]: [None] stands for [ZeroDivisionError]. *)
Definition py_div (a b : Q) : option Q :=
  if Qeq_bool b 0 then None else Some (a / b)%Q.

(** Nearest integer, ties to even. *)
Definition round_half_even (x : Q) : Z :=
  let n := Qnum x in
  let d := Zpos (Qden x) in
  let fl := n / d in
  let r := n mod d in
  if 2 * r <? d then fl
  else if d <? 2 * r then fl + 1
  else if Z.even fl then fl else fl + 1.

(** [round(x, ndigits)] on the rational model: the nearest multiple of
    [10^-ndigits], an exact tie going to the even neighbour. *)
Definition py_round (x : Q) (ndigits : nat) : Q :=
  let p := Pos.pow 10 (Pos.of_nat ndigits) in
  match ndigits with
  | O => inject_Z (round_half_even x)
  | S _ => Qred (Qmake (round_half_even (x * inject_Z (Zpos p))) p)
  end.

(** ** Configuration ([__init__]) *)

Record config : Type := mkConfig {
  save_interval : Q;
  save_on_layer : bool;
  part_cooling_fans : list string;
  extruders : list string;
  chamber_heater_name : string;
  history_size : Z;
  save_delay : Z;
  restart_gcode_lines : list string
}.

(** [self.time_based_enabled = self.save_interval > 0] *)
Definition time_based_enabled (c : config) : bool := Qltb 0 (save_interval c).

(** The bounds [config.getfloat] / [config.getint] enforce at start-up. *)
Definition config_ok (c : config) : Prop :=
  (0 <= save_interval c)%Q /\ (save_interval c <= 300)%Q /\
  2 <= history_size c <= 20 /\
  0 <= save_delay c <= history_size c - 1.

(** ** Snapshot validator ([_verify_state]) *)

Definition required_fields : list (string * (pytype * list (string * pytype))) :=
  [ ("position", (TDict, [("x", TNumber); ("y", TNumber); ("z", TNumber)]));
    ("layer", (TInt, []));
    ("layer_height", (TNumber, []));
    ("file_progress",
      (TDict, [("position", TInt); ("total_size", TInt); ("progress_pct", TNumber)]));
    ("collection_time", (TNumber, []));
    ("save_time", (TNumber, []));
    ("hotend_temp", (TNumber, []));
    ("bed_temp", (TNumber, []));
    ("chamber_temp", (TNumber, []));
    ("active_extruder", (TStr, [])) ].

(** The inner loop over [validation['subfields']]. *)
Fixpoint check_subfields (field : string) (v : pyval)
    (subs : list (string * pytype)) : option string :=
  match subs with
  | [] => None
  | (subfield, subtype) :: rest =>
      match subscript v subfield with
      | None => Some ("Missing subfield " +:+ subfield +:+ " in " +:+ field)
      | Some sv =>
          if isinstance sv subtype then check_subfields field v rest
          else Some ("Subfield " +:+ subfield +:+ " in " +:+ field +:+ " has wrong type")
      end
  end.

(** The outer loop over [required_fields.items()]; returns the first error. *)
Fixpoint check_fields (state : pydict)
    (fields : list (string * (pytype * list (string * pytype)))) : option string :=
  match fields with
  | [] => None
  | (field, (ftype, subs)) :: rest =>
      match dict_get field state with
      | None => Some ("Missing required field: " +:+ field)
      | Some v =>
          if negb (isinstance v ftype) then Some ("Field " +:+ field +:+ " has wrong type")
          else match check_subfields field v subs with
               | Some e => Some e
               | None => check_fields state rest
               end
      end
  end.

(** [lo <= float(state[k]) <= hi] on a field already known to be numeric. *)
Definition in_range (lo hi : Q) (v : option pyval) : bool :=
  match v ≫= as_num with
  | Some q => Qleb lo q && Qleb q hi
  | None => false
  end.

Definition num_field (state : pydict) (f sub : string) : option Q :=
  match dict_get f state with
  | Some v => subscript v sub ≫= as_num
  | None => None
  end.

Definition str_in (s : string) (l : list string) : bool :=
  existsb (String.eqb s) l.

(** [_verify_state]: [None] is [(True, None)], [Some msg] is [(False, msg)]. *)
Definition _verify_state (c : config) (state : pyval) : option string :=
  match state with
  | PDict d =>
      match check_fields d required_fields with
      | Some e => Some e
      | None =>
          if match num_field d "file_progress" "total_size" with
             | Some n => Qltb n 0 | None => true end
          then Some "File size cannot be negative"
          else if negb (match num_field d "file_progress" "progress_pct" with
                        | Some p => Qleb 0 p && Qleb p 100 | None => false end)
          then Some "Progress percentage must be between 0 and 100"
          else if match dict_get "layer" d ≫= as_num with
                  | Some n => Qltb n 0 | None => true end
          then Some "Layer number cannot be negative"
          else if negb (in_range (-27315 # 100) 500 (dict_get "hotend_temp" d))
          then Some "Hotend temperature out of reasonable range"
          else if negb (in_range (-27315 # 100) 200 (dict_get "bed_temp" d))
          then Some "Bed temperature out of reasonable range"
          else if negb (in_range (-27315 # 100) 100 (dict_get "chamber_temp" d))
          then Some "Chamber temperature out of reasonable range"
          else match dict_get "active_extruder" d with
               | Some (PStr e) =>
                   if str_in e (extruders c) then None
                   else Some ("Active extruder " +:+ e +:+
                              " not in configured extruders list")
               | _ => Some "Active extruder not in configured extruders list"
               end
      end
  | _ => Some "State must be a dictionary"
  end.

Definition is_valid (c : config) (state : pyval) : bool :=
  match _verify_state c state with None => true | Some _ => false end.

(** ** Delay selector ([_calculate_optimal_delay])

    [lag] is [Some (print_time, est_print_time)] when the toolhead and the
    MCU answered, [None] when one of the look-ups raised. *)

Definition _calculate_optimal_delay (c : config) (lag : option (Q * Q)) : Z :=
  match lag with
  | None => save_delay c
  | Some (print_time, est_print_time) =>
      let mcu_lag := (print_time - est_print_time)%Q in
      match py_div mcu_lag (save_interval c) with
      | None => save_delay c
      | Some ratio =>
          let needed_intervals := Z.max 1 (py_int ratio + 1) in
          let optimal_delay := needed_intervals in
          Z.min optimal_delay (history_size c - 1)
      end
  end.

(** ** Scheduler state

    The mutable attributes of the [PowerLossRecovery] instance. The history
    deque stores references; the dictionaries live in [heap].
    [resume_meta_info] is the value last written to the variable of that
    name in the durable store ([None] before any write). *)

Definition loc : Type := nat.

Record plr : Type := mkPlr {
  save_variables : bool;
  last_layer : option Z;
  current_z_height : Q;
  is_active : bool;
  resuming_print : bool;
  power_loss_recovery_enabled : bool;
  last_save_time : Q;
  _last_layer_change_time : Q;
  _last_extruder_change_time : Q;
  _consecutive_failures : Z;
  _last_save_attempt : Q;
  state_history : list loc;
  heap : gmap loc pyval;
  resume_meta_info : option pyval
}.

Definition set_last_layer (v : option Z) (s : plr) : plr :=
  mkPlr (s.(save_variables)) v (s.(current_z_height)) (s.(is_active)) (s.(resuming_print)) (s.(power_loss_recovery_enabled)) (s.(last_save_time)) (s.(_last_layer_change_time)) (s.(_last_extruder_change_time)) (s.(_consecutive_failures)) (s.(_last_save_attempt)) (s.(state_history)) (s.(heap)) (s.(resume_meta_info)).
Definition set_current_z_height (v : Q) (s : plr) : plr :=
  mkPlr (s.(save_variables)) (s.(last_layer)) v (s.(is_active)) (s.(resuming_print)) (s.(power_loss_recovery_enabled)) (s.(last_save_time)) (s.(_last_layer_change_time)) (s.(_last_extruder_change_time)) (s.(_consecutive_failures)) (s.(_last_save_attempt)) (s.(state_history)) (s.(heap)) (s.(resume_meta_info)).
Definition set_is_active (v : bool) (s : plr) : plr :=
  mkPlr (s.(save_variables)) (s.(last_layer)) (s.(current_z_height)) v (s.(resuming_print)) (s.(power_loss_recovery_enabled)) (s.(last_save_time)) (s.(_last_layer_change_time)) (s.(_last_extruder_change_time)) (s.(_consecutive_failures)) (s.(_last_save_attempt)) (s.(state_history)) (s.(heap)) (s.(resume_meta_info)).
Definition set_resuming_print (v : bool) (s : plr) : plr :=
  mkPlr (s.(save_variables)) (s.(last_layer)) (s.(current_z_height)) (s.(is_active)) v (s.(power_loss_recovery_enabled)) (s.(last_save_time)) (s.(_last_layer_change_time)) (s.(_last_extruder_change_time)) (s.(_consecutive_failures)) (s.(_last_save_attempt)) (s.(state_history)) (s.(heap)) (s.(resume_meta_info)).
Definition set_power_loss_recovery_enabled (v : bool) (s : plr) : plr :=
  mkPlr (s.(save_variables)) (s.(last_layer)) (s.(current_z_height)) (s.(is_active)) (s.(resuming_print)) v (s.(last_save_time)) (s.(_last_layer_change_time)) (s.(_last_extruder_change_time)) (s.(_consecutive_failures)) (s.(_last_save_attempt)) (s.(state_history)) (s.(heap)) (s.(resume_meta_info)).
Definition set_last_save_time (v : Q) (s : plr) : plr :=
  mkPlr (s.(save_variables)) (s.(last_layer)) (s.(current_z_height)) (s.(is_active)) (s.(resuming_print)) (s.(power_loss_recovery_enabled)) v (s.(_last_layer_change_time)) (s.(_last_extruder_change_time)) (s.(_consecutive_failures)) (s.(_last_save_attempt)) (s.(state_history)) (s.(heap)) (s.(resume_meta_info)).
Definition set_last_layer_change_time (v : Q) (s : plr) : plr :=
  mkPlr (s.(save_variables)) (s.(last_layer)) (s.(current_z_height)) (s.(is_active)) (s.(resuming_print)) (s.(power_loss_recovery_enabled)) (s.(last_save_time)) v (s.(_last_extruder_change_time)) (s.(_consecutive_failures)) (s.(_last_save_attempt)) (s.(state_history)) (s.(heap)) (s.(resume_meta_info)).
Definition set_last_extruder_change_time (v : Q) (s : plr) : plr :=
  mkPlr (s.(save_variables)) (s.(last_layer)) (s.(current_z_height)) (s.(is_active)) (s.(resuming_print)) (s.(power_loss_recovery_enabled)) (s.(last_save_time)) (s.(_last_layer_change_time)) v (s.(_consecutive_failures)) (s.(_last_save_attempt)) (s.(state_history)) (s.(heap)) (s.(resume_meta_info)).
Definition set_consecutive_failures (v : Z) (s : plr) : plr :=
  mkPlr (s.(save_variables)) (s.(last_layer)) (s.(current_z_height)) (s.(is_active)) (s.(resuming_print)) (s.(power_loss_recovery_enabled)) (s.(last_save_time)) (s.(_last_layer_change_time)) (s.(_last_extruder_change_time)) v (s.(_last_save_attempt)) (s.(state_history)) (s.(heap)) (s.(resume_meta_info)).
Definition set_last_save_attempt (v : Q) (s : plr) : plr :=
  mkPlr (s.(save_variables)) (s.(last_layer)) (s.(current_z_height)) (s.(is_active)) (s.(resuming_print)) (s.(power_loss_recovery_enabled)) (s.(last_save_time)) (s.(_last_layer_change_time)) (s.(_last_extruder_change_time)) (s.(_consecutive_failures)) v (s.(state_history)) (s.(heap)) (s.(resume_meta_info)).
Definition set_state_history (v : list loc) (s : plr) : plr :=
  mkPlr (s.(save_variables)) (s.(last_layer)) (s.(current_z_height)) (s.(is_active)) (s.(resuming_print)) (s.(power_loss_recovery_enabled)) (s.(last_save_time)) (s.(_last_layer_change_time)) (s.(_last_extruder_change_time)) (s.(_consecutive_failures)) (s.(_last_save_attempt)) v (s.(heap)) (s.(resume_meta_info)).
Definition set_heap (v : gmap loc pyval) (s : plr) : plr :=
  mkPlr (s.(save_variables)) (s.(last_layer)) (s.(current_z_height)) (s.(is_active)) (s.(resuming_print)) (s.(power_loss_recovery_enabled)) (s.(last_save_time)) (s.(_last_layer_change_time)) (s.(_last_extruder_change_time)) (s.(_consecutive_failures)) (s.(_last_save_attempt)) (s.(state_history)) v (s.(resume_meta_info)).
Definition set_resume_meta_info (v : option pyval) (s : plr) : plr :=
  mkPlr (s.(save_variables)) (s.(last_layer)) (s.(current_z_height)) (s.(is_active)) (s.(resuming_print)) (s.(power_loss_recovery_enabled)) (s.(last_save_time)) (s.(_last_layer_change_time)) (s.(_last_extruder_change_time)) (s.(_consecutive_failures)) (s.(_last_save_attempt)) (s.(state_history)) (s.(heap)) v.

(** The instance as [__init__] leaves it. *)
Definition init_plr : plr :=
  {| save_variables := true;
     last_layer := Some 0;
     current_z_height := 0;
     is_active := false;
     resuming_print := false;
     power_loss_recovery_enabled := false;
     last_save_time := 0;
     _last_layer_change_time := 0;
     _last_extruder_change_time := 0;
     _consecutive_failures := 0;
     _last_save_attempt := 0;
     state_history := [];
     heap := ∅;
     resume_meta_info := None |}.

(** ** What the host answers during one call

    [readings] are the status dictionaries queried by the collector at one
    event time; [probe] gathers every external answer a handler may ask
    for. [monotonic] is the reading of [reactor.monotonic()] during the
    call and [eventtime] the argument the reactor passes to the timer. *)

Record readings : Type := mkReadings {
  r_filename : string;
  r_file_position : Z;
  r_file_size : Z;
  r_toolhead_position : Q * Q * Q;
  r_hotend_temp : Q;
  r_bed_temp : option Q;          (* [None]: no [heater_bed] object *)
  r_chamber_temp : option Q;      (* [None]: no chamber heater object *)
  r_active_extruder : string;
  r_fan_speed : string -> option Q;  (* [None]: that fan's look-up raised *)
  r_gcode_move : option ((Q * Q * Q) * (Q * Q * Q))
                                  (* homing_origin, position_offset *)
}.

Record probe : Type := mkProbe {
  eventtime : Q;
  monotonic : Q;
  print_stats_state : string;
  sensors : option readings;      (* [None]: a status query raised *)
  lag_probe : option (Q * Q);     (* print_time, est_print_time *)
  mcu_moves : option (Z * Q * Q); (* moves_pending, min and max move time *)
  store_accepts : bool            (* SAVE_VARIABLE ran without raising *)
}.

(** ** History buffer ([collections.deque] with [maxlen]) *)

Definition deque_append (maxlen : Z) (h : list loc) (x : loc) : list loc :=
  let h' := h ++ [x] in
  if Z.of_nat (length h') >? maxlen then tail h' else h'.

(** [l[-k]] for [k >= 1]; [None] stands for [IndexError]. *)
Definition index_from_end {A : Type} (l : list A) (k : Z) : option A :=
  if (1 <=? k) && (k <=? Z.of_nat (length l))
  then l !! (Z.to_nat (Z.of_nat (length l) - k))
  else None.

(** ** Snapshot collector ([_collect_current_state]) *)

Definition progress_pct_of (file_position file_size : Z) : pyval :=
  if file_size >? 0
  then PFloat (py_round (inject_Z file_position / inject_Z file_size * 100) 2)
  else PInt 0.

Definition fan_speeds_of (r : readings) (fans : list string) : pydict :=
  omap (fun fan_name =>
          match r_fan_speed r fan_name with
          | Some sp => Some (fan_name, PFloat (py_round sp 3))
          | None => None
          end) fans.

Definition xyz_offsets_of (r : readings) : pyval :=
  match r_gcode_move r with
  | Some ((hx, hy, hz), (px, py, pz)) =>
      PDict [("x", PFloat (py_round (hx + px) 3));
             ("y", PFloat (py_round (hy + py) 3));
             ("z", PFloat (py_round (hz + pz) 3))]
  | None => PDict [("x", PFloat 0); ("y", PFloat 0); ("z", PFloat 0)]
  end.

Definition opt_int (o : option Z) : pyval :=
  match o with Some z => PInt z | None => PNone end.

Definition _collect_current_state (c : config) (st : plr) (env : probe)
  : option pyval :=
  match sensors env with
  | None => None
  | Some r =>
      let eventtime := monotonic env in
      let current_progress :=
        PDict [("position", PInt (r_file_position r));
               ("total_size", PInt (r_file_size r));
               ("progress_pct", progress_pct_of (r_file_position r) (r_file_size r))] in
      let '(cx, cy, cz) := r_toolhead_position r in
      Some (PDict
        [("position", PDict [("x", PFloat (py_round cx 3));
                             ("y", PFloat (py_round cy 3));
                             ("z", PFloat (py_round cz 3))]);
         ("xyz_offsets", xyz_offsets_of r);
         ("fan_speeds", PDict (fan_speeds_of r (part_cooling_fans c)));
         ("layer", opt_int (last_layer st));
         ("layer_height", PFloat (py_round (current_z_height st) 3));
         ("file_progress", current_progress);
         ("active_extruder", PStr (r_active_extruder r));
         ("hotend_temp", PFloat (py_round (r_hotend_temp r) 1));
         ("bed_temp", PFloat (py_round (default 0%Q (r_bed_temp r)) 1));
         ("chamber_temp", PFloat (py_round (default 0%Q (r_chamber_temp r)) 1));
         ("save_time", PFloat eventtime);
         ("current_file", PStr (r_filename r));
         ("collection_time", PFloat eventtime)])
  end.

(** [_get_move_buffer_status]: zeros when the MCU query raised. *)
Definition _get_move_buffer_status (env : probe) : pyval :=
  match mcu_moves env with
  | Some (pending, tmin, tmax) =>
      PDict [("moves_pending", PInt pending);
             ("min_move_time", PFloat tmin);
             ("max_move_time", PFloat tmax)]
  | None =>
      PDict [("moves_pending", PInt 0);
             ("min_move_time", PInt 0);
             ("max_move_time", PInt 0)]
  end.

(** ** Adaptive interval ([_optimize_background_interval]) *)

Definition Qabs' (x : Q) : Q := if Qltb x 0 then (- x)%Q else x.

(** [abs(b[f][axis] - a[f][axis])]; [None] when a look-up or the
    subtraction raises. *)
Definition axis_delta (newer older : pyval) (axis : string) : option Q :=
  pn ← subscript newer "position";
  po ← subscript older "position";
  vn ← subscript pn axis ≫= as_num;
  vo ← subscript po axis ≫= as_num;
  Some (Qabs' (vn - vo)).

Definition temp_delta (newer older : pyval) : option Q :=
  vn ← subscript newer "hotend_temp" ≫= as_num;
  vo ← subscript older "hotend_temp" ≫= as_num;
  Some (Qabs' (vn - vo)).

(** [list(self.state_history)[-2:]] dereferenced, when there are at least
    two entries: (older, newer). *)
Definition last_two (st : plr) : option (option (pyval * pyval)) :=
  let h := state_history st in
  if (2 <=? length h)%nat then
    match index_from_end h 2, index_from_end h 1 with
    | Some l0, Some l1 =>
        match heap st !! l0, heap st !! l1 with
        | Some s0, Some s1 => Some (Some (s0, s1))
        | _, _ => None
        end
    | _, _ => None
    end
  else Some None.

(** The body of the [try]; [None] when something in it raised. *)
Definition optimize_body (c : config) (st : plr) (env : probe) : option Q :=
  let interval := save_interval c in
  let current_time := monotonic env in
  let time_since_extruder_change :=
    (current_time - _last_extruder_change_time st)%Q in
  let reduction_factor := 1%Q in
  let reduction_factor :=
    if Qltb time_since_extruder_change 20 then
      let extruder_factor :=
        ((3 # 10) + (time_since_extruder_change / 20) * (7 # 10))%Q in
      py_min reduction_factor extruder_factor
    else reduction_factor in
  let interval := (interval * reduction_factor)%Q in
  recent ← last_two st;
  interval ←
    match recent with
    | None => Some interval
    | Some (older, newer) =>
        dx ← axis_delta newer older "x";
        dy ← axis_delta newer older "y";
        dz ← axis_delta newer older "z";
        let pos_change := (0 + dx + dy + dz)%Q in
        let interval :=
          if Qltb 10 pos_change then (interval * (3 # 4))%Q else interval in
        temp_change ← temp_delta newer older;
        Some (if Qltb 5 temp_change then (interval * (3 # 4))%Q else interval)
    end;
  let min_interval := if Qltb time_since_extruder_change 5 then 3%Q else 5%Q in
  Some (py_max interval min_interval).

Definition _optimize_background_interval (c : config) (st : plr) (env : probe) : Q :=
  match optimize_body c st env with
  | Some v => v
  | None => save_interval c
  end.

(** ** Saving a checkpoint ([_save_current_state])

    [state_to_save] is the very dictionary the deque refers to
    ([list(self.state_history)] copies references only), so the assignment
    to its ['mcu_status'] key is a write to the shared object at [l].
    Every exception is caught by the handler of the method: the fields
    written before the raising statement keep their new values. *)

Definition _save_current_state (c : config) (st : plr) (env : probe) : plr :=
  if negb (is_active st) then st
  else if resuming_print st then st
  else if negb (power_loss_recovery_enabled st) then st
  else if negb (save_variables st) then st
  else
    let optimal_delay := _calculate_optimal_delay c (lag_probe env) in
    if Z.of_nat (length (state_history st)) >? optimal_delay then
      let history_list := state_history st in
      match index_from_end history_list (save_delay c + 1) with
      | None => st
      | Some l =>
          match heap st !! l with
          | Some (PDict d) =>
              let buffer_status := _get_move_buffer_status env in
              let state_to_save := PDict (dict_set "mcu_status" buffer_status d) in
              let st := set_heap (<[l := state_to_save]> (heap st)) st in
              if negb (is_valid c state_to_save) then st
              else if negb (store_accepts env) then st
              else
                let st := set_resume_meta_info (Some state_to_save) st in
                let st := set_last_save_time (monotonic env) st in
                set_consecutive_failures 0 st
          | _ => st
          end
      end
    else st.

(** ** The periodic tick ([_background_task]) *)

(** Print-state tracking: returns the state and the local
    [consecutive_failures]. *)
Definition tick_activation (st : plr) (env : probe) : plr * Z :=
  let consecutive_failures := _consecutive_failures st in
  let printing := String.eqb (print_stats_state env) "printing" in
  if negb (Bool.eqb printing (is_active st)) then
    let st := set_is_active printing st in
    if printing then (set_state_history [] st, 0)
    else (st, consecutive_failures)
  else (st, consecutive_failures).

(** Collection and validation of the current snapshot. *)
Definition tick_collect (c : config) (st : plr) (consecutive_failures : Z)
    (env : probe) : plr * Z :=
  match _collect_current_state c st env with
  | Some current_state =>
      if is_valid c current_state then
        let l := fresh (dom (heap st)) in
        let st := set_heap (<[l := current_state]> (heap st)) st in
        (set_state_history
           (deque_append (history_size c) (state_history st) l) st, 0)
      else (st, consecutive_failures + 1)
  | None => (st, consecutive_failures)
  end.

(** [backoff = min(30, 2 ** consecutive_failures)] *)
Definition backoff (consecutive_failures : Z) : Z :=
  Z.min 30 (2 ^ consecutive_failures).

(** The final value of the local [should_save]. *)
Definition tick_should_save (c : config) (st : plr) (consecutive_failures : Z)
    (last_save_attempt : Q) (env : probe) : bool :=
  let should_save :=
    if time_based_enabled c then
      let time_since_last := (eventtime env - last_save_time st)%Q in
      let interval := _optimize_background_interval c st env in
      Qleb interval time_since_last
    else false in
  if consecutive_failures >? 0 then
    if Qltb (eventtime env - last_save_attempt)
            (inject_Z (backoff consecutive_failures))
    then false else should_save
  else should_save.

(** Returns the new state and the next wake time. *)
Definition _background_task (c : config) (st : plr) (env : probe) : plr * Q :=
  let last_save_attempt := _last_save_attempt st in
  let printing := String.eqb (print_stats_state env) "printing" in
  let '(st, consecutive_failures) := tick_activation st env in
  if is_active st && negb (power_loss_recovery_enabled st)
  then (st, (eventtime env + 1)%Q)
  else
    let '(st, consecutive_failures) :=
      if is_active st then
        let '(st, consecutive_failures) :=
          tick_collect c st consecutive_failures env in
        if tick_should_save c st consecutive_failures last_save_attempt env
        then (_save_current_state c
                (set_last_save_attempt (eventtime env) st) env,
              consecutive_failures)
        else (st, consecutive_failures)
      else (st, consecutive_failures) in
    let st := set_consecutive_failures consecutive_failures st in
    if negb (time_based_enabled c) || negb printing
    then (st, (eventtime env + 1)%Q)
    else (st, (eventtime env + _optimize_background_interval c st env)%Q).

(** ** Event handlers and commands *)

Definition _handle_layer_change (c : config) (st : plr)
    (layer : option Z) (layer_height : option Q) (env : probe) : plr :=
  if negb (save_on_layer c) || negb (is_active st) then st
  else
    let st := set_last_layer layer st in
    let st := set_last_layer_change_time (monotonic env) st in
    let st := match layer_height with
              | Some h => set_current_z_height h st
              | None => st
              end in
    _save_current_state c st env.

Definition _handle_activate_extruder (c : config) (st : plr) (env : probe) : plr :=
  if negb (is_active st) then st
  else
    let st := set_last_extruder_change_time (monotonic env) st in
    _save_current_state c st env.

Definition cmd_PLR_SAVE_PRINT_STATE (c : config) (st : plr) (env : probe) : plr :=
  _save_current_state c st env.

Definition cmd_PLR_ENABLE (st : plr) : plr :=
  set_power_loss_recovery_enabled true st.

Definition cmd_PLR_DISABLE (st : plr) : plr :=
  set_power_loss_recovery_enabled false st.

Definition _reset_state (st : plr) (env : probe) : plr :=
  if negb (save_variables st) then st
  else if negb (store_accepts env) then st
  else
    let st := set_resume_meta_info (Some (PDict [])) st in
    let st := set_last_layer (Some 0) st in
    set_last_save_time 0 st.

Definition cmd_PLR_RESET_PRINT_DATA (st : plr) (env : probe) : plr :=
  _reset_state st env.

(** The operations the host can invoke on the instance. [CmdResume] stands
    for the effect of [cmd_PLR_RESUME_PRINT] on the instance's attributes
    (it raises [resuming_print]); its file-system side is
    [_modify_gcode_file] below. *)
Inductive operation : Type :=
| Tick (env : probe)
| LayerChange (layer : option Z) (layer_height : option Q) (env : probe)
| ActivateExtruder (env : probe)
| CmdSave (env : probe)
| CmdEnable
| CmdDisable
| CmdReset (env : probe)
| CmdResume.

Definition step (c : config) (st : plr) (op : operation) : plr :=
  match op with
  | Tick env => fst (_background_task c st env)
  | LayerChange layer h env => _handle_layer_change c st layer h env
  | ActivateExtruder env => _handle_activate_extruder c st env
  | CmdSave env => cmd_PLR_SAVE_PRINT_STATE c st env
  | CmdEnable => cmd_PLR_ENABLE st
  | CmdDisable => cmd_PLR_DISABLE st
  | CmdReset env => cmd_PLR_RESET_PRINT_DATA st env
  | CmdResume => set_resuming_print true st
  end.

Definition run (c : config) (st : plr) (ops : list operation) : plr :=
  fold_left (step c) ops st.

(** ** Text formatting used by the rewriter *)

Definition LF : string := String "010" EmptyString.

Fixpoint zeros (k : nat) : string :=
  match k with
  | O => ""
  | S k' => "0" +:+ zeros k'
  end.

Definition zero_pad (width : nat) (s : string) : string :=
  zeros (width - String.length s) +:+ s.

(** [f"{x:.nf}"] on the rational model: [n] fractional digits, ties to even. *)
Definition format_fixed (n : nat) (x : Q) : string :=
  let p := 10 ^ Z.of_nat n in
  let a := Z.abs (round_half_even (x * inject_Z p)) in
  (if Qltb x 0 then "-" else "") +:+ pretty (a / p) +:+ "." +:+
  zero_pad n (pretty (a mod p)).

Fixpoint frac_digits (fuel : nat) (r d : Z) : string :=
  match fuel with
  | O => ""
  | S f =>
      if r =? 0 then ""
      else pretty (10 * r / d) +:+ frac_digits f ((10 * r) mod d) d
  end.

(** [repr] of a float whose decimal expansion terminates (as those of the
    rounded temperatures do): at least one fractional digit, at most 17. *)
Definition py_repr_float (x : Q) : string :=
  let n := Z.abs (Qnum x) in
  let d := Zpos (Qden x) in
  (if Qltb x 0 then "-" else "") +:+ pretty (n / d) +:+ "." +:+
  (if n mod d =? 0 then "0" else frac_digits 17 (n mod d) d).

(** [str(v)] as an f-string field renders it. Dictionaries never reach a
    format field here (the fields formatted are checked to be strings or
    numbers by [_verify_state]). *)
Definition py_str (v : pyval) : string :=
  match v with
  | PNone => "None"
  | PBool b => if b then "True" else "False"
  | PInt z => pretty z
  | PFloat q => py_repr_float q
  | PStr s => s
  | PDict _ => "{...}"
  end.

(** Truth value of an object ([not state_data]). *)
Definition truthy (v : pyval) : bool :=
  match v with
  | PNone => false
  | PBool b => b
  | PInt z => negb (z =? 0)
  | PFloat q => negb (Qeq_bool q 0)
  | PStr s => negb (String.eqb s "")
  | PDict d => match d with [] => false | _ => true end
  end.

(** Iterating a text file: each line keeps its terminating newline; the
    last line may lack one. *)
Fixpoint py_lines (s : string) : list string :=
  match s with
  | EmptyString => []
  | String ch rest =>
      if Ascii.eqb ch "010" then String ch EmptyString :: py_lines rest
      else match py_lines rest with
           | [] => [String ch EmptyString]
           | l :: ls => String ch l :: ls
           end
  end.

Definition join (l : list string) : string := foldr String.append "" l.

Definition len (s : string) : Z := Z.of_nat (String.length s).

(** ** File system with injected faults

    A file system maps path names to contents. Every call the rewriter
    makes to the operating system is labelled by its place in the source
    ([site]); the oracle [fails] decides which calls raise. A raising call
    leaves the file system as it found it. *)

Inductive site : Type :=
| RenameToBackup
| OpenBackup
| OpenOutput
| WritePreamble (i : nat)
| WriteSentinel
| ReadLine (i : nat)
| WriteLine (i : nat)
| RemoveOutput
| RenameBack.

Inductive outcome (A : Type) : Type :=
| Ok (a : A)
| Raise.
Arguments Ok {A} a.
Arguments Raise {A}.

Definition io (A : Type) : Type := gmap string string -> outcome A * gmap string string.

#[global] Instance io_ret : MRet io := fun A a fs => (Ok a, fs).
#[global] Instance io_bind : MBind io := fun A B f m fs =>
  match m fs with
  | (Ok a, fs') => f a fs'
  | (Raise, fs') => (Raise, fs')
  end.

Definition raise {A : Type} : io A := fun fs => (Raise, fs).

Definition PLACEHOLDER : string := ";;;;; PLR_RESUME - PRINT GCODE STARTS ;;;;;".

(** [backup_file = f"{base_name}{ext}.plr"] with
    [base_name, ext = os.path.splitext(input_file)]. *)
Definition backup_of (input_file : string) : string := input_file +:+ ".plr".

Section Rewriter.

Variable fails : site -> bool.

Definition os_rename (s : site) (src dst : string) : io unit := fun fs =>
  if fails s then (Raise, fs)
  else match fs !! src with
       | Some content => (Ok tt, <[dst := content]> (delete src fs))
       | None => (Raise, fs)
       end.

Definition os_remove (s : site) (path : string) : io unit := fun fs =>
  if fails s then (Raise, fs)
  else match fs !! path with
       | Some _ => (Ok tt, delete path fs)
       | None => (Raise, fs)
       end.

Definition os_path_exists (path : string) (fs : gmap string string) : bool :=
  match fs !! path with Some _ => true | None => false end.

(** [open(path, 'r')]: the text that iteration will deliver. *)
Definition open_read (s : site) (path : string) : io string := fun fs =>
  if fails s then (Raise, fs)
  else match fs !! path with
       | Some content => (Ok content, fs)
       | None => (Raise, fs)
       end.

(** [open(path, 'w')]: create or truncate. *)
Definition open_write (s : site) (path : string) : io unit := fun fs =>
  if fails s then (Raise, fs) else (Ok tt, <[path := ""]> fs).

(** [outfile.write(data)] *)
Definition file_write (s : site) (path data : string) : io unit := fun fs =>
  if fails s then (Raise, fs)
  else match fs !! path with
       | Some content => (Ok tt, <[path := content +:+ data]> fs)
       | None => (Raise, fs)
       end.

(** The writes guarded by [if self.restart_gcode_lines:], in order. [None]
    stands for the [TypeError] of comparing or formatting a value that is
    not a number. *)
Definition restart_block (c : config) (active_extruder chamber_temp saved_z : pyval)
  : option (list string) :=
  match restart_gcode_lines c with
  | [] => Some []
  | _ :: _ =>
      let extruder_cmd :=
        "ACTIVATE_EXTRUDER EXTRUDER=" +:+ py_str active_extruder +:+ LF in
      t ← as_num chamber_temp;
      let chamber :=
        if Qltb 0 t && negb (String.eqb (chamber_heater_name c) "") then
          ["SET_HEATER_TEMPERATURE HEATER=" +:+ chamber_heater_name c +:+
           " TARGET=" +:+ py_str chamber_temp +:+ LF]
        else [] in
      z ← as_num saved_z;
      let z_restore_gcode :=
        "G1 Z" +:+ format_fixed 3 z +:+ " F3000 ; Restore Z height" +:+ LF in
      Some ([extruder_cmd] ++ chamber ++ [z_restore_gcode] ++
            map (fun gcode_line => gcode_line +:+ LF) (restart_gcode_lines c))
  end.

Fixpoint write_all (path : string) (i : nat) (chunks : list string) : io unit :=
  match chunks with
  | [] => mret tt
  | chunk :: rest =>
      file_write (WritePreamble i) path chunk ;; write_all path (S i) rest
  end.

(** [for line in infile: ...] *)
Fixpoint copy_lines (path : string) (lines : list string) (i : nat)
    (current_position file_position : Z) : io unit :=
  match lines with
  | [] => mret tt
  | line :: rest =>
      if fails (ReadLine i) then raise
      else
        let current_position := current_position + len line in
        if current_position <? file_position
        then copy_lines path rest (S i) current_position file_position
        else file_write (WriteLine i) path line ;;
             copy_lines path rest (S i) current_position file_position
  end.

(** The [with open(...) as infile, open(...) as outfile:] block. *)
Definition rewrite_body (c : config) (active_extruder chamber_temp saved_z : pyval)
    (input_file backup_file : string) (file_position : Z) : io unit :=
  content ← open_read OpenBackup backup_file;
  open_write OpenOutput input_file ;;
  match restart_block c active_extruder chamber_temp saved_z with
  | Some chunks => write_all input_file 0 chunks
  | None => raise
  end ;;
  file_write WriteSentinel input_file (PLACEHOLDER +:+ LF) ;;
  copy_lines input_file (py_lines content) 0 0 file_position.

(** The handler's clean-up; its own exceptions are swallowed
    ([except: pass]). *)
Definition rollback (input_file backup_file : string)
    (fs : gmap string string) : gmap string string :=
  match (if os_path_exists input_file fs
         then os_remove RemoveOutput input_file else mret tt) fs with
  | (Raise, fs1) => fs1
  | (Ok _, fs1) =>
      if os_path_exists backup_file fs1
      then snd (os_rename RenameBack backup_file input_file fs1)
      else fs1
  end.

(** [_get_saved_state]: [stored] is the value of [resume_meta_info] in the
    variables store, if any. *)
Definition _get_saved_state (c : config) (stored : option pyval) : option pyval :=
  match stored with
  | Some state_data =>
      if negb (truthy state_data) then None
      else if is_valid c state_data then Some state_data else None
  | None => None
  end.

(** Returns the path of the new file, or [None]. *)
Definition _modify_gcode_file (c : config) (stored : option pyval)
    (input_file : string) (file_position : Z) (fs : gmap string string)
  : option string * gmap string string :=
  match _get_saved_state c stored with
  | None => (None, fs)
  | Some saved_state =>
      match subscript saved_state "position" ≫= (fun p => subscript p "z") with
      | None => (None, fs)
      | Some saved_z =>
          let active_extruder :=
            default (PStr "extruder") (subscript saved_state "active_extruder") in
          let chamber_temp :=
            default (PInt 0) (subscript saved_state "chamber_temp") in
          let backup_file := backup_of input_file in
          match os_rename RenameToBackup input_file backup_file fs with
          | (Raise, fs1) => (None, fs1)
          | (Ok _, fs1) =>
              match rewrite_body c active_extruder chamber_temp saved_z
                      input_file backup_file file_position fs1 with
              | (Ok _, fs2) => (Some input_file, fs2)
              | (Raise, fs2) => (None, rollback input_file backup_file fs2)
              end
          end
      end
  end.

End Rewriter.

(** The run in which no call to the operating system raises. *)
Definition no_fault : site -> bool := fun _ => false.

(** ** Notions used in the statements *)

(** The dictionary a save attempt leaves at the selected reference. *)
Definition with_mcu_status (env : probe) (d : pydict) : pyval :=
  PDict (dict_set "mcu_status" (_get_move_buffer_status env) d).

(** [v'] has the same value as [v] under every key but ['mcu_status']. *)
Definition agree_but_mcu_status (v v' : pyval) : Prop :=
  forall k, k <> "mcu_status" -> subscript v' k = subscript v k.

(** Every object of [h] is still in [h'], changed at most under
    ['mcu_status']. *)
Definition heap_preserved (h h' : gmap loc pyval) : Prop :=
  forall l v, h !! l = Some v ->
    exists v', h' !! l = Some v' /\ agree_but_mcu_status v v'.

(** The [k]-th most recent snapshot of the history ([0] is the newest). *)
Definition peek_from_end (st : plr) (k : Z) : option pyval :=
  index_from_end (state_history st) (k + 1) ≫= (fun l => heap st !! l).

(** Every entry of the history refers to a dictionary the validator accepts. *)
Definition history_valid (c : config) (st : plr) : Prop :=
  forall l, In l (state_history st) ->
    exists s, heap st !! l = Some s /\ is_valid c s = true.

Definition is_save_path (op : operation) : bool :=
  match op with
  | Tick _ | LayerChange _ _ _ | ActivateExtruder _ | CmdSave _ => true
  | _ => false
  end.

(** [snapshot['file_progress']['progress_pct']] as a number. *)
Definition snapshot_progress_pct (snapshot : pyval) : option Q :=
  match snapshot with
  | PDict d => num_field d "file_progress" "progress_pct"
  | _ => None
  end.

(** [position / total_size * 100] clamped to the interval [0, 100], and 0
    when [total_size] is 0: the percentage as the data model words it. *)
Definition clamped_progress (file_position file_size : Z) : Q :=
  if file_size =? 0 then 0%Q
  else
    let p := (inject_Z file_position / inject_Z file_size * 100)%Q in
    if Qltb p 0 then 0%Q else if Qltb 100 p then 100%Q else p.

(** *** The rewritten file *)

Definition sentinel_line : string := PLACEHOLDER +:+ LF.

(** The lines the copy loop writes when no call raises. *)
Fixpoint copied_lines (lines : list string)
    (current_position file_position : Z) : list string :=
  match lines with
  | [] => []
  | line :: rest =>
      let current_position := current_position + len line in
      if current_position <? file_position
      then copied_lines rest current_position file_position
      else line :: copied_lines rest current_position file_position
  end.

(** The text from offset [n] to the end. *)
Fixpoint drop_chars (n : nat) (s : string) : string :=
  match n, s with
  | O, _ => s
  | S n', String _ rest => drop_chars n' rest
  | S _, EmptyString => EmptyString
  end.

(** The cumulative offsets at which the lines end, counted from [start]. *)
Fixpoint line_ends (lines : list string) (start : Z) : list Z :=
  match lines with
  | [] => []
  | line :: rest => (start + len line) :: line_ends rest (start + len line)
  end.

(** The line boundaries of a text: offset 0 and the end of every line. *)
Definition line_boundaries (content : string) : list Z :=
  0 :: line_ends (py_lines content) 0.

(** The last of the leading boundaries that lie strictly below [o]
    ([dflt] when the first one does not). *)
Fixpoint last_before (o : Z) (bs : list Z) (dflt : Z) : Z :=
  match bs with
  | [] => dflt
  | b :: rest => if b <? o then last_before o rest b else dflt
  end.

(** The greatest line boundary strictly below [o]; 0 when [o <= 0]. *)
Definition last_boundary_before (o : Z) (content : string) : Z :=
  last_before o (line_ends (py_lines content) 0) 0.

(** The body as the splice property words it: the text from the first
    line boundary whose offset is at least [o] to the end (nothing when
    there is no such boundary). *)
Definition body_as_claimed (content : string) (o : Z) : string :=
  match List.find (fun b => o <=? b) (line_boundaries content) with
  | Some b => drop_chars (Z.to_nat b) content
  | None => ""
  end.

(** The preamble as the rewriter's contract words it, written whether or
    not on-restart lines are configured: tool activation, chamber
    temperature when a heater is configured and the saved temperature is
    positive, the move to the saved Z, the on-restart lines, the sentinel. *)
Definition preamble_as_claimed (c : config) (saved_state : pyval) : option string :=
  saved_z ← subscript saved_state "position" ≫= (fun p => subscript p "z");
  z ← as_num saved_z;
  active_extruder ← subscript saved_state "active_extruder";
  chamber_temp ← subscript saved_state "chamber_temp";
  t ← as_num chamber_temp;
  Some (("ACTIVATE_EXTRUDER EXTRUDER=" +:+ py_str active_extruder +:+ LF) +:+
        (if Qltb 0 t && negb (String.eqb (chamber_heater_name c) "")
         then "SET_HEATER_TEMPERATURE HEATER=" +:+ chamber_heater_name c +:+
              " TARGET=" +:+ py_str chamber_temp +:+ LF
         else "") +:+
        ("G1 Z" +:+ format_fixed 3 z +:+ " F3000 ; Restore Z height" +:+ LF) +:+
        join (map (fun gcode_line => gcode_line +:+ LF) (restart_gcode_lines c)) +:+
        sentinel_line).

(** The computation changes no file other than [path]. *)
Definition touches_only {A : Type} (path : string) (m : io A) : Prop :=
  forall fs p, p <> path -> snd (m fs) !! p = fs !! p.

(** ** Sample inputs *)

Definition sample_config : config :=
  mkConfig 30 true [] ["extruder"] "chamber" 5 2 ["G28 X Y"; "M83"].

Definition sample_readings (pos size : Z) : readings :=
  mkReadings "a.gcode" pos size (1 # 2, 3, 2 # 10)%Q 210 (Some 60%Q)
    (Some 45%Q) "extruder" (fun _ => None) None.

(** A probe at time [t] with the file at [pos] of [size] bytes and a
    measured lag of [lag] seconds. *)
Definition sample_probe (t : Q) (pos size : Z) (lag : Q) : probe :=
  mkProbe t t "printing" (Some (sample_readings pos size))
    (Some (lag, 0)%Q) None true.

(** Recovery enabled, then six ticks with valid snapshots at file
    positions 1..6: the history of capacity 5 retains the last five. *)
Definition sample_state : plr :=
  run sample_config (cmd_PLR_ENABLE init_plr)
    (map (fun i => Tick (sample_probe (inject_Z i) i 100 0)) [1; 2; 3; 4; 5; 6]).

(** The sample state after a tick at time 40 whose save attempt the
    store refused: the attempt is recorded, nothing is persisted. *)
Definition sample_state_attempted : plr :=
  step sample_config sample_state
    (Tick (mkProbe 40 40 "printing" (Some (sample_readings 7 100))
             (Some (0, 0)%Q) None false)).

(** The checkpoint found in the store: the snapshot collected at file
    position 4 of 10. *)
Definition sample_stored : option pyval :=
  _collect_current_state sample_config init_plr (sample_probe 1 4 10 0).

(** The same configuration without on-restart lines. *)
Definition sample_config_bare : config :=
  mkConfig 30 true [] ["extruder"] "chamber" 5 2 [].

Definition sample_gcode : string :=
  "ab" +:+ LF +:+ "cd" +:+ LF +:+ "ef" +:+ LF.

Definition sample_fs : gmap string string := {[ "a.gcode" := sample_gcode ]}.

(** The write of the sentinel raises, and so does the removal of the
    partial file during clean-up. *)
Definition sample_faults (s : site) : bool :=
  match s with
  | WriteSentinel | RemoveOutput => true
  | _ => false
  end.

(** Only the write of the sentinel raises. *)
Definition sample_fault (s : site) : bool :=
  match s with
  | WriteSentinel => true
  | _ => false
  end.

(** A base interval of one second, below both floors of the adaptive
    interval. *)
Definition sample_config_quick : config :=
  mkConfig 1 true [] ["extruder"] "chamber" 5 2 [].

(** A probe at time [t] at which the job is no longer printing. *)
Definition sample_probe_idle (t : Q) : probe :=
  mkProbe t t "complete" (Some (sample_readings 100 100))
    (Some (0, 0)%Q) None true.

(** Two snapshots are collected, then the print ends: the instance is
    inactive and still holds the two snapshots of the finished print. *)
Definition sample_state_stale : plr :=
  run sample_config init_plr
    [CmdEnable; Tick (sample_probe 1 1 100 0); Tick (sample_probe 2 2 100 0);
     Tick (sample_probe_idle 3)].

(** ** Further notions: validator and scheduler *)

(** The keys the validator reads. *)
Definition required_names : list string := map fst required_fields.

(** A temperature reading above -273.15 and at most [hi] degrees. *)
Definition temperature_ok (hi t : Q) : Prop :=
  (-27315 # 100 < t)%Q /\ (t <= hi)%Q.

(** Readings inside the ranges the validator accepts: a file position
    within the file, temperatures above -273.15 and at most 500 (hotend),
    200 (bed) and 100 (chamber) degrees, a configured extruder. *)
Definition readings_in_range (c : config) (r : readings) : Prop :=
  0 <= r_file_size r /\
  (0 < r_file_size r -> 0 <= r_file_position r <= r_file_size r) /\
  temperature_ok 500 (r_hotend_temp r) /\
  temperature_ok 200 (default 0%Q (r_bed_temp r)) /\
  temperature_ok 100 (default 0%Q (r_chamber_temp r)) /\
  In (r_active_extruder r) (extruders c).

(** The persisted checkpoint, when there is one, is the empty dictionary a
    reset writes or a state the validator accepts. *)
Definition persisted_ok (c : config) (st : plr) : Prop :=
  match resume_meta_info st with
  | None => True
  | Some v => v = PDict [] \/ is_valid c v = true
  end.

(** The history fits its capacity. *)
Definition history_bounded (c : config) (st : plr) : Prop :=
  Z.of_nat (length (state_history st)) <= history_size c.

(** The host's answers an operation runs with, when it asks for any. *)
Definition op_probe (op : operation) : option probe :=
  match op with
  | Tick env | LayerChange _ _ env | ActivateExtruder env
  | CmdSave env | CmdReset env => Some env
  | CmdEnable | CmdDisable | CmdResume => None
  end.

(** ** Path names ([os.path], POSIX flavour) *)

(** [s.rfind(ch)]: the last index of [ch], or -1. *)
Fixpoint rfind_from (ch : ascii) (s : string) (i acc : Z) : Z :=
  match s with
  | EmptyString => acc
  | String a rest => rfind_from ch rest (i + 1) (if Ascii.eqb a ch then i else acc)
  end.

Definition rfind (ch : ascii) (s : string) : Z := rfind_from ch s 0 (-1).

(** [s[:n]] *)
Fixpoint take_chars (n : nat) (s : string) : string :=
  match n, s with
  | O, _ => EmptyString
  | S n', String a rest => String a (take_chars n' rest)
  | S _, EmptyString => EmptyString
  end.

Fixpoint all_dots (s : string) : bool :=
  match s with
  | EmptyString => true
  | String a rest => Ascii.eqb a "." && all_dots rest
  end.

(** [os.path.splitext(p)]: the extension starts at the last dot of the
    last component, unless that component has only dots before it. *)
Definition splitext (p : string) : string * string :=
  let sepIndex := rfind "/" p in
  let dotIndex := rfind "." p in
  if (sepIndex <? dotIndex) &&
     negb (all_dots (take_chars (Z.to_nat (dotIndex - (sepIndex + 1)))
                       (drop_chars (Z.to_nat (sepIndex + 1)) p)))
  then (take_chars (Z.to_nat dotIndex) p, drop_chars (Z.to_nat dotIndex) p)
  else (p, EmptyString).

Definition starts_with_sep (s : string) : bool :=
  match s with
  | String a _ => Ascii.eqb a "/"
  | EmptyString => false
  end.

Fixpoint ends_with_sep (s : string) : bool :=
  match s with
  | EmptyString => false
  | String a EmptyString => Ascii.eqb a "/"
  | String _ rest => ends_with_sep rest
  end.

(** [os.path.join(a, b)] *)
Definition os_path_join (a b : string) : string :=
  if starts_with_sep b then b
  else if String.eqb a "" || ends_with_sep a then a +:+ b
  else a +:+ "/" +:+ b.

(** [os.path.basename(p)] *)
Definition os_path_basename (p : string) : string :=
  drop_chars (Z.to_nat (rfind "/" p + 1)) p.

(** ** Restoring the original file ([_restore_original_gcode])

    [gcode_dir] is the directory [_get_gcode_dir] answers with;
    [remove_raises] and [rename_raises] tell whether the method's call of
    [os.remove], resp. [os.rename], raises. The handler of the method
    swallows the exception. *)
Definition _restore_original_gcode (remove_raises rename_raises : bool)
    (gcode_dir filename : string) (fs : gmap string string)
  : gmap string string :=
  let '(base_name, ext) := splitext filename in
  if String.eqb ext ".plr" then fs
  else
    let original_file := os_path_join gcode_dir filename in
    let backup_file := original_file +:+ ".plr" in
    if os_path_exists backup_file fs then
      match (if os_path_exists original_file fs
             then os_remove (fun _ => remove_raises) RemoveOutput original_file
             else mret tt) fs with
      | (Raise, fs1) => fs1
      | (Ok _, fs1) =>
          snd (os_rename (fun _ => rename_raises) RenameBack
                 backup_file original_file fs1)
      end
    else fs.

(** [_handle_print_complete]: [filename] is [None] when there is no
    [print_stats] object or its status query raises. *)
Definition _handle_print_complete (remove_raises rename_raises : bool)
    (gcode_dir : string) (filename : option string) (fs : gmap string string)
  : gmap string string :=
  match filename with
  | Some name =>
      if String.eqb name "" then fs
      else _restore_original_gcode remove_raises rename_raises gcode_dir name fs
  | None => fs
  end.

(** ** The resume command ([cmd_PLR_RESUME_PRINT])

    The texts sent with [gcmd.respond_info], by the place that sends them. *)
Inductive resume_response : Type :=
| NoSavedState                      (* "No valid saved state found" *)
| NoFilename                        (* "No filename found in saved state" *)
| NoFilePosition                    (* "No file position found in saved state" *)
| FileNotFound (input_file : string) (* "Original gcode file not found: ..." *)
| RewriteFailed                     (* "Error creating modified gcode file" *)
| Started (basename : string)       (* "Created and started power loss recovery file: ..." *)
| StartError                        (* "Error starting print: ..." *)
| ProcessingError.                  (* "Error processing PLR resume: ..." *)

Definition DQUOTE : string := String "034" EmptyString.

(** An [int] (or [bool]) operand as an integer. *)
Definition as_int (v : pyval) : option Z :=
  match v with
  | PInt z => Some z
  | PBool b => Some (Z.b2z b)
  | _ => None
  end.

(** [d.get(k)]: [None] (the Python value) when the key is missing. *)
Definition dict_get_or_none (o : pyval) (k : string) : pyval :=
  default PNone (subscript o k).

Record resume_result : Type := mkResume {
  rr_state : plr;
  rr_files : gmap string string;
  rr_scripts : list string;          (* commands given to [run_script_from_command] *)
  rr_response : resume_response
}.

(** [stored] is the value of [resume_meta_info] in the variables store,
    [gcode_dir] the answer of [_get_gcode_dir], [start_raises] tells
    whether the SDCARD_PRINT_FILE script (or the look-up of the virtual
    SD card) raises. A file name that is not a string makes
    [os.path.join] raise, a file position that is not an integer is
    excluded by the validation of the saved state; both end in the
    outermost handler. *)
Definition cmd_PLR_RESUME_PRINT (fails : site -> bool) (start_raises : bool)
    (c : config) (gcode_dir : string) (stored : option pyval)
    (st : plr) (fs : gmap string string) : resume_result :=
  let st := set_resuming_print true st in
  match _get_saved_state c stored with
  | None => mkResume st fs [] NoSavedState
  | Some state_data =>
      let current_file := dict_get_or_none state_data "current_file" in
      if negb (truthy current_file) then mkResume st fs [] NoFilename
      else
        let file_progress :=
          default (PDict []) (subscript state_data "file_progress") in
        match dict_get_or_none file_progress "position" with
        | PNone => mkResume st fs [] NoFilePosition
        | file_position =>
            match current_file, as_int file_position with
            | PStr name, Some pos =>
                let input_file := os_path_join gcode_dir name in
                if negb (os_path_exists input_file fs)
                then mkResume st fs [] (FileNotFound input_file)
                else
                  match _modify_gcode_file fails c stored input_file pos fs with
                  | (None, fs') => mkResume st fs' [] RewriteFailed
                  | (Some output_file, fs') =>
                      if start_raises then mkResume st fs' [] StartError
                      else
                        let basename := os_path_basename output_file in
                        mkResume st fs'
                          ["SDCARD_PRINT_FILE FILENAME=" +:+ DQUOTE +:+ basename
                           +:+ DQUOTE]
                          (Started basename)
                  end
            | _, _ => mkResume st fs [] ProcessingError
            end
        end
  end.

(** ** Reading the configuration

    Text is modelled with one [ascii] per code point below 256. *)

(** [ch.isspace()] *)
Definition is_space (a : ascii) : bool :=
  let n := nat_of_ascii a in
  ((9 <=? n) && (n <=? 13) || (28 <=? n) && (n <=? 32)
   || (n =? 133) || (n =? 160))%nat.

Fixpoint lstrip (s : string) : string :=
  match s with
  | EmptyString => EmptyString
  | String a rest => if is_space a then lstrip rest else s
  end.

Fixpoint rstrip (s : string) : string :=
  match s with
  | EmptyString => EmptyString
  | String a rest =>
      match rstrip rest with
      | EmptyString => if is_space a then EmptyString else String a EmptyString
      | r => String a r
      end
  end.

(** [s.strip()] *)
Definition strip (s : string) : string := rstrip (lstrip s).

(** [s.split(sep)] for a one-character separator. *)
Fixpoint split_on (sep : ascii) (s : string) : list string :=
  match s with
  | EmptyString => [EmptyString]
  | String a rest =>
      if Ascii.eqb a sep then EmptyString :: split_on sep rest
      else match split_on sep rest with
           | [] => [String a EmptyString]
           | x :: xs => String a x :: xs
           end
  end.

(** [[x.strip() for x in s.split(sep) if x.strip()]] *)
Definition split_strip (sep : ascii) (s : string) : list string :=
  omap (fun x => match strip x with
                 | EmptyString => None
                 | y => Some y
                 end) (split_on sep s).

(** [_parse_gcode_config_option]: [raw_value] is what [config.get]
    answers for the option. *)
Definition _parse_gcode_config_option (raw_value : string) : string * list string :=
  (raw_value, split_strip "010" raw_value).

(** The lists [part_cooling_fans] and [extruders] of [__init__]. *)
Definition parse_name_list (names_str : string) : list string :=
  if String.eqb names_str "" then [] else split_strip "," names_str.

(** [sep.join(l)] *)
Fixpoint join_with (sep : string) (l : list string) : string :=
  match l with
  | [] => EmptyString
  | [x] => x
  | x :: rest => x +:+ sep +:+ join_with sep rest
  end.

Fixpoint contains (a : ascii) (s : string) : bool :=
  match s with
  | EmptyString => false
  | String b rest => Ascii.eqb b a || contains a rest
  end.

(** ** Restoring settings after a resume (the helpers of [cmd_PLR_Z_HOME]) *)

(** The command a fan is restored with: [M106 P0 S<speed_byte>] for the
    part-cooling fan of the current extruder, [SET_FAN_SPEED FAN=<name>
    SPEED=<speed>] for any other fan. *)
Inductive fan_command : Type :=
| M106 (speed_byte : Z)
| SetFanSpeed (fan_name : string) (speed : pyval).

(** One turn of the loop over [self.part_cooling_fans]: [None] when the
    fan is skipped ([continue], or an exception caught by the handler
    inside the loop). [fan_exists] tells whether [lookup_object] finds the
    fan. *)
Definition restore_fan (cur_extruder : string) (fan_exists : string -> bool)
    (fan_speeds : pyval) (fan_name : string) : option fan_command :=
  match subscript fan_speeds fan_name with
  | None => None
  | Some speed =>
      if String.eqb fan_name "fan" || String.eqb fan_name (cur_extruder +:+ "_fan")
      then
        match as_num speed with
        | Some sp => Some (M106 (py_int (sp * 255 + (1 # 2))))
        | None => None
        end
      else if fan_exists fan_name then Some (SetFanSpeed fan_name speed)
      else None
  end.

(** [_restore_fan_speeds]: the commands run, in order. [cur_extruder] is
    [None] when the toolhead query raises. *)
Definition _restore_fan_speeds (c : config) (cur_extruder : option string)
    (fan_exists : string -> bool) (state_data : pyval) : list fan_command :=
  if negb (truthy state_data) then []
  else match subscript state_data "fan_speeds" with
       | None => []
       | Some fan_speeds =>
           if negb (truthy fan_speeds) then []
           else match cur_extruder with
                | None => []
                | Some cur =>
                    omap (restore_fan cur fan_exists fan_speeds)
                      (part_cooling_fans c)
                end
       end.

(** [_restore_active_extruder]: the scripts run. *)
Definition _restore_active_extruder (c : config) (state_data : pyval)
  : list string :=
  if negb (truthy state_data) then []
  else match subscript state_data "active_extruder" with
       | None => []
       | Some active_extruder =>
           if negb (truthy active_extruder) then []
           else match active_extruder with
                | PStr name =>
                    if str_in name (extruders c)
                    then ["ACTIVATE_EXTRUDER EXTRUDER=" +:+ name]
                    else []
                | _ => []
                end
       end.

(** * Properties *)

(** ** Order on the rational model *)

Lemma Qltb_lt (x y : Q) : Qltb x y = true <-> (x < y)%Q.
Proof.
  unfold Qltb. rewrite negb_true_iff. split; intros H.
  - apply Qnot_le_lt. intros Hle. apply Qle_bool_iff in Hle. congruence.
  - destruct (Qle_bool y x) eqn:E; [|reflexivity].
    apply Qle_bool_iff in E. exfalso. exact (Qlt_not_le _ _ H E).
Qed.

Lemma Qltb_ge (x y : Q) : Qltb x y = false <-> (y <= x)%Q.
Proof.
  unfold Qltb. rewrite negb_false_iff. apply Qle_bool_iff.
Qed.

Lemma Qleb_le (x y : Q) : Qleb x y = true <-> (x <= y)%Q.
Proof. apply Qle_bool_iff. Qed.

Lemma py_max_lower (a b : Q) : (b <= py_max a b)%Q.
Proof.
  unfold py_max. destruct (Qltb a b) eqn:E.
  - apply Qle_refl.
  - apply Qltb_ge in E. exact E.
Qed.

(** Truncation toward zero is monotone. *)
Lemma py_int_mono (x y : Q) : (x <= y)%Q -> py_int x <= py_int y.
Proof.
  destruct x as [a b], y as [c d]. unfold Qle, py_int. simpl. intros H.
  assert (Hb : 0 < Zpos b) by lia. assert (Hd : 0 < Zpos d) by lia.
  pose proof (Z.quot_rem' a (Zpos b)) as Ha.
  pose proof (Z.quot_rem' c (Zpos d)) as Hc.
  destruct (Z_lt_le_dec a 0) as [Han|Hap];
  destruct (Z_lt_le_dec c 0) as [Hcn|Hcp].
  - pose proof (Z.rem_bound_pos_neg a (Zpos b) Hb ltac:(lia)) as Hr1.
    pose proof (Z.rem_bound_pos_neg c (Zpos d) Hd ltac:(lia)) as Hr2.
    revert Ha Hc Hr1 Hr2.
    generalize (a ÷ Zpos b) (Z.rem a (Zpos b)) (c ÷ Zpos d) (Z.rem c (Zpos d)).
    intros q1 r1 q2 r2 Ha Hc Hr1 Hr2.
    destruct (Z_le_gt_dec q1 q2) as [|Hgt]; [assumption|exfalso].
    assert (Zpos b * q2 < a) by nia.
    assert (c <= Zpos d * q2) by lia.
    assert (Zpos b * q2 * Zpos d < a * Zpos d) by nia.
    assert (c * Zpos b <= Zpos d * q2 * Zpos b) by nia.
    lia.
  - pose proof (Z.quot_pos c (Zpos d) Hcp Hd).
    assert (a ÷ Zpos b <= 0) by (apply Z.quot_le_upper_bound; lia).
    lia.
  - nia.
  - pose proof (Z.rem_bound_pos_pos a (Zpos b) Hb Hap) as Hr1.
    pose proof (Z.rem_bound_pos_pos c (Zpos d) Hd Hcp) as Hr2.
    revert Ha Hc Hr1 Hr2.
    generalize (a ÷ Zpos b) (Z.rem a (Zpos b)) (c ÷ Zpos d) (Z.rem c (Zpos d)).
    intros q1 r1 q2 r2 Ha Hc Hr1 Hr2.
    destruct (Z_le_gt_dec q1 q2) as [|Hgt]; [assumption|exfalso].
    assert (Zpos b * (q2 + 1) <= a) by nia.
    assert (c < Zpos d * (q2 + 1)) by lia.
    assert (Zpos b * (q2 + 1) * Zpos d <= a * Zpos d) by nia.
    assert (c * Zpos b < Zpos d * (q2 + 1) * Zpos b) by nia.
    lia.
Qed.

Lemma py_div_some (a b q : Q) :
  py_div a b = Some q -> ~ (b == 0)%Q /\ q = (a / b)%Q.
Proof.
  unfold py_div. destruct (Qeq_bool b 0) eqn:E; [discriminate|].
  intros [= <-]. split; [|reflexivity].
  intros Hb. apply Qeq_bool_iff in Hb. congruence.
Qed.

Lemma py_div_none (a b : Q) : py_div a b = None -> forall a', py_div a' b = None.
Proof.
  unfold py_div. destruct (Qeq_bool b 0); [reflexivity|discriminate].
Qed.

(** ** Delay selector *)

(** C8. With the same configuration, a larger measured lag never gives a
    smaller delay, and every delay the selector returns is at most
    [history_size - 1]. *)
Theorem delay_monotone_and_capped (c : config)
    (print_time1 est1 print_time2 est2 : Q) :
  config_ok c ->
  (print_time1 - est1 <= print_time2 - est2)%Q ->
  _calculate_optimal_delay c (Some (print_time1, est1))
    <= _calculate_optimal_delay c (Some (print_time2, est2))
  /\ _calculate_optimal_delay c (Some (print_time1, est1)) <= history_size c - 1
  /\ _calculate_optimal_delay c (Some (print_time2, est2)) <= history_size c - 1.
Proof.
  intros (Hi0 & _ & Hh & Hd) Hlag. unfold _calculate_optimal_delay.
  destruct (py_div (print_time1 - est1) (save_interval c)) as [r1|] eqn:E1.
  - destruct (py_div (print_time2 - est2) (save_interval c)) as [r2|] eqn:E2.
    + apply py_div_some in E1 as [Hnz ->]. apply py_div_some in E2 as [_ ->].
      assert (Hpos : (0 < save_interval c)%Q).
      { apply Qle_lteq in Hi0 as [Hlt|Heq]; [exact Hlt|].
        exfalso. apply Hnz. symmetry. exact Heq. }
      assert (Hr : py_int ((print_time1 - est1) / save_interval c)
                   <= py_int ((print_time2 - est2) / save_interval c)).
      { apply py_int_mono. unfold Qdiv. apply Qmult_le_compat_r; [exact Hlag|].
        apply Qlt_le_weak, Qinv_lt_0_compat. exact Hpos. }
      lia.
    + rewrite (py_div_none _ _ E2 (print_time1 - est1)%Q) in E1. discriminate.
  - rewrite (py_div_none _ _ E1 (print_time2 - est2)%Q). lia.
Qed.

Lemma delay_monotone_and_capped_witness :
  _calculate_optimal_delay (mkConfig 30 true [] ["extruder"] "" 5 2 [])
      (Some (10, 9)%Q)
    <= _calculate_optimal_delay (mkConfig 30 true [] ["extruder"] "" 5 2 [])
         (Some (100, 9)%Q)
  /\ _calculate_optimal_delay (mkConfig 30 true [] ["extruder"] "" 5 2 [])
       (Some (10, 9)%Q) <= 5 - 1
  /\ _calculate_optimal_delay (mkConfig 30 true [] ["extruder"] "" 5 2 [])
       (Some (100, 9)%Q) <= 5 - 1.
Proof.
  apply (delay_monotone_and_capped
           (mkConfig 30 true [] ["extruder"] "" 5 2 []) 10 9 100 9).
  - unfold config_ok; simpl. repeat split; try lia; discriminate.
  - discriminate.
Defined.

(** ** Adaptive interval *)

(** What the validator's two loops establish when they report no error. *)
Lemma check_subfields_inv (field : string) (v : pyval)
    (subs : list (string * pytype)) :
  check_subfields field v subs = None ->
  forall sub t, In (sub, t) subs ->
    exists sv, subscript v sub = Some sv /\ isinstance sv t = true.
Proof.
  induction subs as [|[sub' t'] rest IH]; intros Hc sub t Hin; [destruct Hin|].
  cbn [check_subfields] in Hc.
  destruct (subscript v sub') as [sv|] eqn:Es; [|discriminate].
  destruct (isinstance sv t') eqn:Et; [|discriminate].
  destruct Hin as [[= <- <-]|Hin]; [eauto|].
  exact (IH Hc sub t Hin).
Qed.

Lemma check_fields_inv (d : pydict)
    (fields : list (string * (pytype * list (string * pytype)))) :
  check_fields d fields = None ->
  forall field ftype subs, In (field, (ftype, subs)) fields ->
    exists v, dict_get field d = Some v /\ isinstance v ftype = true /\
              check_subfields field v subs = None.
Proof.
  induction fields as [|[field' [ftype' subs']] rest IH];
    intros Hc field ftype subs Hin; [destruct Hin|].
  cbn [check_fields] in Hc.
  destruct (dict_get field' d) as [v|] eqn:Ev; [|discriminate].
  destruct (isinstance v ftype') eqn:Et; [|discriminate]. cbn [negb] in Hc.
  destruct (check_subfields field' v subs') eqn:Es; [discriminate|].
  destruct Hin as [[= <- <- <-]|Hin]; [eauto|].
  exact (IH Hc field ftype subs Hin).
Qed.

Lemma is_valid_inv (c : config) (s : pyval) :
  is_valid c s = true ->
  exists d, s = PDict d /\ check_fields d required_fields = None.
Proof.
  unfold is_valid, _verify_state.
  destruct s as [| | | | |d]; try (simpl; discriminate).
  destruct (check_fields d required_fields) eqn:E; [discriminate|].
  intros _. exists d. split; [reflexivity|exact E].
Qed.

Lemma number_as_num (v : pyval) :
  isinstance v TNumber = true -> exists q, as_num v = Some q.
Proof. destruct v; simpl; try discriminate; eauto. Qed.

Lemma int_as_num (v : pyval) :
  isinstance v TInt = true -> exists z, as_num v = Some (inject_Z z).
Proof. destruct v; simpl; try discriminate; eauto. Qed.

(** A dictionary accepted by the validator carries the numeric position
    and hot-end temperature the interval computation reads. *)
Lemma valid_has_motion_fields (c : config) (s : pyval) :
  is_valid c s = true ->
  exists p x y z t,
    subscript s "position" = Some p /\
    subscript p "x" ≫= as_num = Some x /\
    subscript p "y" ≫= as_num = Some y /\
    subscript p "z" ≫= as_num = Some z /\
    subscript s "hotend_temp" ≫= as_num = Some t.
Proof.
  intros Hv. destruct (is_valid_inv c s Hv) as (d & -> & Hc).
  destruct (check_fields_inv d _ Hc "position" TDict
              [("x", TNumber); ("y", TNumber); ("z", TNumber)])
    as (p & Hp & _ & Hsub); [unfold required_fields; simpl; auto|].
  destruct (check_subfields_inv _ _ _ Hsub "x" TNumber) as (vx & Ex & Tx);
    [simpl; auto|].
  destruct (check_subfields_inv _ _ _ Hsub "y" TNumber) as (vy & Ey & Ty);
    [simpl; auto|].
  destruct (check_subfields_inv _ _ _ Hsub "z" TNumber) as (vz & Ez & Tz);
    [simpl; auto|].
  destruct (check_fields_inv d _ Hc "hotend_temp" TNumber [])
    as (vt & Et & Tt & _); [unfold required_fields; simpl; auto 10|].
  destruct (number_as_num _ Tx) as [x Hx]. destruct (number_as_num _ Ty) as [y Hy].
  destruct (number_as_num _ Tz) as [z Hz]. destruct (number_as_num _ Tt) as [t Ht].
  exists p, x, y, z, t. cbn [subscript]. rewrite Hp, Ex, Ey, Ez, Et.
  cbn [mbind option_bind]. auto.
Qed.

Lemma index_from_end_In {A : Type} (l : list A) (k : Z) (x : A) :
  index_from_end l k = Some x -> In x l.
Proof.
  unfold index_from_end.
  destruct ((1 <=? k) && (k <=? Z.of_nat (length l))); [|discriminate].
  intros H. apply list_elem_of_In. eapply list_elem_of_lookup_2. exact H.
Qed.

Lemma index_from_end_is_Some {A : Type} (l : list A) (k : Z) :
  1 <= k <= Z.of_nat (length l) -> exists x, index_from_end l k = Some x.
Proof.
  intros Hk. unfold index_from_end.
  replace ((1 <=? k) && (k <=? Z.of_nat (length l))) with true
    by (symmetry; apply andb_true_iff; split; apply Z.leb_le; lia).
  destruct (lookup_lt_is_Some_2 l (Z.to_nat (Z.of_nat (length l) - k))) as [x Hx];
    [lia|]. eauto.
Qed.

(** On a history of validated snapshots the body of the computation does
    not raise. *)
Lemma optimize_body_succeeds (c : config) (st : plr) (env : probe) :
  history_valid c st -> exists v, optimize_body c st env = Some v.
Proof.
  intros Hv. unfold optimize_body, last_two.
  destruct (2 <=? length (state_history st))%nat eqn:Elen.
  - apply Nat.leb_le in Elen.
    destruct (index_from_end_is_Some (state_history st) 2 ltac:(lia)) as [l0 H0].
    destruct (index_from_end_is_Some (state_history st) 1 ltac:(lia)) as [l1 H1].
    rewrite H0, H1.
    destruct (Hv l0 (index_from_end_In _ _ _ H0)) as (s0 & Hs0 & V0).
    destruct (Hv l1 (index_from_end_In _ _ _ H1)) as (s1 & Hs1 & V1).
    rewrite Hs0, Hs1. simpl.
    destruct (valid_has_motion_fields c s0 V0)
      as (p0 & x0 & y0 & z0 & t0 & P0 & X0 & Y0 & Z0 & T0).
    destruct (valid_has_motion_fields c s1 V1)
      as (p1 & x1 & y1 & z1 & t1 & P1 & X1 & Y1 & Z1 & T1).
    unfold axis_delta, temp_delta.
    rewrite P0, P1. simpl. rewrite X0, X1, Y0, Y1, Z0, Z1. simpl.
    rewrite T0, T1. simpl. eauto.
  - simpl. eauto.
Qed.


(** When the body of the computation completes, the result respects the
    floor. *)
Lemma completed_interval_floor (c : config) (st : plr) (env : probe) (v : Q) :
  optimize_body c st env = Some v ->
  (3 <= _optimize_background_interval c st env)%Q /\
  ((5 <= monotonic env - _last_extruder_change_time st)%Q ->
   (5 <= _optimize_background_interval c st env)%Q).
Proof.
  intros E. unfold _optimize_background_interval. rewrite E.
  unfold optimize_body in E.
  destruct (last_two st) as [recent|]; [|discriminate]. simpl in E.
  match type of E with
  | (?m ≫= _) = _ => destruct m as [interval|]; [|discriminate]
  end.
  simpl in E. injection E as <-.
  destruct (Qltb (monotonic env - _last_extruder_change_time st) 5) eqn:E5.
  - split.
    + apply py_max_lower.
    + intros H5. apply Qltb_lt in E5. exfalso. exact (Qlt_not_le _ _ E5 H5).
  - split.
    + eapply Qle_trans; [|apply py_max_lower]. discriminate.
    + intros _. apply py_max_lower.
Qed.

(** ** Scheduler: what a save attempt may change *)

Ltac save_cases :=
  unfold _save_current_state;
  repeat match goal with
         | |- context [if ?b then _ else _] => destruct b
         | |- context [match ?o with Some _ => _ | None => _ end] => destruct o
         | |- context [match ?v with PDict _ => _ | _ => _ end] => destruct v
         end.

Lemma save_keeps_flags (c : config) (st : plr) (env : probe) :
  power_loss_recovery_enabled (_save_current_state c st env)
    = power_loss_recovery_enabled st /\
  is_active (_save_current_state c st env) = is_active st /\
  _last_save_attempt (_save_current_state c st env) = _last_save_attempt st /\
  state_history (_save_current_state c st env) = state_history st.
Proof. save_cases; auto. Qed.

Lemma save_when_disabled (c : config) (st : plr) (env : probe) :
  power_loss_recovery_enabled st = false -> _save_current_state c st env = st.
Proof.
  intros H. unfold _save_current_state. rewrite H. simpl.
  destruct (negb (is_active st)); [reflexivity|].
  destruct (resuming_print st); reflexivity.
Qed.

Lemma tick_activation_frame (st st1 : plr) (cf0 : Z) (env : probe) :
  tick_activation st env = (st1, cf0) ->
  resume_meta_info st1 = resume_meta_info st /\
  _last_save_attempt st1 = _last_save_attempt st /\
  last_save_time st1 = last_save_time st /\
  heap st1 = heap st /\
  power_loss_recovery_enabled st1 = power_loss_recovery_enabled st.
Proof.
  unfold tick_activation.
  destruct (negb _); [destruct (String.eqb _ _)|]; intros [= <- <-]; auto.
Qed.

Lemma tick_collect_frame (c : config) (st1 st2 : plr) (cf0 f : Z) (env : probe) :
  tick_collect c st1 cf0 env = (st2, f) ->
  resume_meta_info st2 = resume_meta_info st1 /\
  _last_save_attempt st2 = _last_save_attempt st1 /\
  last_save_time st2 = last_save_time st1 /\
  power_loss_recovery_enabled st2 = power_loss_recovery_enabled st1 /\
  is_active st2 = is_active st1.
Proof.
  unfold tick_collect.
  destruct (_collect_current_state c st1 env) as [s|];
    [destruct (is_valid c s)|]; intros [= <- <-]; auto.
Qed.

(** C9. In a tick whose collection leaves [f >= 1] consecutive invalid
    snapshots on the counter, the save decision is withdrawn whenever
    less than [min(30, 2^f)] seconds have passed since the last save
    attempt: the tick then neither records a new attempt nor writes the
    persisted checkpoint. *)
Theorem backoff_suppresses_save (c : config) (st st1 st2 : plr)
    (cf0 f : Z) (env : probe) :
  tick_activation st env = (st1, cf0) ->
  tick_collect c st1 cf0 env = (st2, f) ->
  1 <= f ->
  (eventtime env - _last_save_attempt st < inject_Z (Z.min 30 (2 ^ f)))%Q ->
  tick_should_save c st2 f (_last_save_attempt st) env = false /\
  resume_meta_info (fst (_background_task c st env)) = resume_meta_info st /\
  _last_save_attempt (fst (_background_task c st env)) = _last_save_attempt st /\
  last_save_time (fst (_background_task c st env)) = last_save_time st.
Proof.
  intros Ha Hc Hf Hlt.
  assert (Hdec : tick_should_save c st2 f (_last_save_attempt st) env = false).
  { unfold tick_should_save, backoff.
    replace (f >? 0) with true by (symmetry; apply Z.gtb_lt; lia).
    apply Qltb_lt in Hlt. rewrite Hlt. reflexivity. }
  split; [exact Hdec|].
  destruct (tick_activation_frame _ _ _ _ Ha) as (R1 & A1 & T1 & _ & _).
  destruct (tick_collect_frame _ _ _ _ _ _ Hc) as (R2 & A2 & T2 & _ & _).
  unfold _background_task. rewrite Ha.
  destruct (is_active st1 && negb (power_loss_recovery_enabled st1)); [auto|].
  destruct (is_active st1).
  - rewrite Hc, Hdec.
    destruct (negb (time_based_enabled c) || negb _); simpl;
      rewrite ?R2, ?A2, ?T2; auto.
  - destruct (negb (time_based_enabled c) || negb _); simpl; auto.
Qed.

Lemma backoff_suppresses_save_witness :
  tick_should_save sample_config sample_state_attempted 1
    (_last_save_attempt sample_state_attempted) (sample_probe 41 2 1 0) = false /\
  resume_meta_info
    (fst (_background_task sample_config sample_state_attempted
            (sample_probe 41 2 1 0)))
  = resume_meta_info sample_state_attempted /\
  _last_save_attempt
    (fst (_background_task sample_config sample_state_attempted
            (sample_probe 41 2 1 0)))
  = _last_save_attempt sample_state_attempted /\
  last_save_time
    (fst (_background_task sample_config sample_state_attempted
            (sample_probe 41 2 1 0)))
  = last_save_time sample_state_attempted.
Proof.
  apply (backoff_suppresses_save sample_config sample_state_attempted
           sample_state_attempted sample_state_attempted 0 1
           (sample_probe 41 2 1 0)).
  - vm_compute. reflexivity.
  - vm_compute. reflexivity.
  - lia.
  - vm_compute. reflexivity.
Defined.

(** ** The enabled flag *)

Lemma tick_keeps_enabled (c : config) (st : plr) (env : probe) :
  power_loss_recovery_enabled (fst (_background_task c st env))
    = power_loss_recovery_enabled st.
Proof.
  unfold _background_task.
  destruct (tick_activation st env) as [st1 cf0] eqn:Ha.
  destruct (tick_activation_frame _ _ _ _ Ha) as (_ & _ & _ & _ & E1).
  destruct (is_active st1 && negb (power_loss_recovery_enabled st1)); [exact E1|].
  destruct (is_active st1).
  - destruct (tick_collect c st1 cf0 env) as [st2 f] eqn:Hc.
    destruct (tick_collect_frame _ _ _ _ _ _ Hc) as (_ & _ & _ & E2 & _).
    destruct (tick_should_save c st2 f (_last_save_attempt st) env).
    + destruct (negb (time_based_enabled c) || negb _); simpl;
        rewrite (proj1 (save_keeps_flags c _ env)); simpl; congruence.
    + destruct (negb (time_based_enabled c) || negb _); simpl; congruence.
  - destruct (negb (time_based_enabled c) || negb _); simpl; exact E1.
Qed.

Lemma tick_when_disabled (c : config) (st : plr) (env : probe) :
  power_loss_recovery_enabled st = false ->
  resume_meta_info (fst (_background_task c st env)) = resume_meta_info st.
Proof.
  intros Hoff. unfold _background_task.
  destruct (tick_activation st env) as [st1 cf0] eqn:Ha.
  destruct (tick_activation_frame _ _ _ _ Ha) as (R1 & _ & _ & _ & E1).
  rewrite E1, Hoff. simpl. rewrite andb_true_r.
  destruct (is_active st1); [exact R1|].
  destruct (negb (time_based_enabled c) || negb _); simpl; exact R1.
Qed.

(** C10. The instance is constructed with recovery checkpointing off.
    While it is off, [_save_current_state] returns without any effect, so
    that none of the save paths (the tick, the layer-change and
    extruder-activation handlers, the manual save command) writes the
    persisted checkpoint; and the flag is on after an operation only if it
    was on before or the operation is the enable command. *)
Theorem disabled_blocks_saving :
  power_loss_recovery_enabled init_plr = false /\
  (forall c st env,
     power_loss_recovery_enabled st = false ->
     _save_current_state c st env = st) /\
  (forall c st op,
     power_loss_recovery_enabled st = false ->
     is_save_path op = true ->
     resume_meta_info (step c st op) = resume_meta_info st) /\
  (forall c st op,
     power_loss_recovery_enabled (step c st op) = true ->
     power_loss_recovery_enabled st = true \/ op = CmdEnable).
Proof.
  split; [reflexivity|]. split; [exact save_when_disabled|]. split.
  - intros c st op Hoff Hp. destruct op; try discriminate; simpl.
    + apply tick_when_disabled. exact Hoff.
    + unfold _handle_layer_change.
      destruct (negb (save_on_layer c) || negb (is_active st)); [reflexivity|].
      rewrite save_when_disabled; [destruct layer_height; reflexivity|].
      destruct layer_height; exact Hoff.
    + unfold _handle_activate_extruder.
      destruct (negb (is_active st)); [reflexivity|].
      rewrite save_when_disabled; [reflexivity|exact Hoff].
    + unfold cmd_PLR_SAVE_PRINT_STATE.
      rewrite save_when_disabled; [reflexivity|exact Hoff].
  - intros c st op Hon. destruct op; simpl in Hon; auto.
    + left. rewrite <- Hon. symmetry. apply tick_keeps_enabled.
    + left. rewrite <- Hon. unfold _handle_layer_change.
      destruct (negb (save_on_layer c) || negb (is_active st)); [reflexivity|].
      rewrite (proj1 (save_keeps_flags c _ env)).
      destruct layer_height; reflexivity.
    + left. rewrite <- Hon. unfold _handle_activate_extruder.
      destruct (negb (is_active st)); [reflexivity|].
      rewrite (proj1 (save_keeps_flags c _ env)). reflexivity.
    + left. rewrite <- Hon. unfold cmd_PLR_SAVE_PRINT_STATE.
      rewrite (proj1 (save_keeps_flags c _ env)). reflexivity.
    + discriminate.
    + left. rewrite <- Hon. unfold cmd_PLR_RESET_PRINT_DATA, _reset_state.
      destruct (negb (save_variables st)); [reflexivity|].
      destruct (negb (store_accepts env)); reflexivity.
Qed.

Lemma disabled_blocks_saving_witness :
  is_active (cmd_PLR_DISABLE sample_state) = true /\
  length (state_history (cmd_PLR_DISABLE sample_state)) = 5%nat /\
  resume_meta_info
    (step sample_config sample_state (CmdSave (sample_probe 40 7 100 0)))
  <> resume_meta_info sample_state /\
  resume_meta_info
    (step sample_config (cmd_PLR_DISABLE sample_state)
       (CmdSave (sample_probe 40 7 100 0)))
  = resume_meta_info (cmd_PLR_DISABLE sample_state).
Proof.
  split; [vm_compute; reflexivity|]. split; [vm_compute; reflexivity|].
  split; [vm_compute; discriminate|].
  apply (proj1 (proj2 (proj2 disabled_blocks_saving))); reflexivity.
Defined.

(** ** Snapshots in the store *)

Lemma dict_get_set_ne (k k' : string) (v : pyval) (d : pydict) :
  k <> k' -> dict_get k (dict_set k' v d) = dict_get k d.
Proof.
  intros Hne. induction d as [|[k0 v0] rest IH]; simpl.
  - destruct (String.eqb k k') eqn:E; [|reflexivity].
    apply String.eqb_eq in E. contradiction.
  - destruct (String.eqb k' k0) eqn:E1; simpl.
    + apply String.eqb_eq in E1. subst k0.
      destruct (String.eqb k k') eqn:E2; [|reflexivity].
      apply String.eqb_eq in E2. contradiction.
    + destruct (String.eqb k k0); [reflexivity|exact IH].
Qed.

Lemma dict_get_set_eq (k : string) (v : pyval) (d : pydict) :
  dict_get k (dict_set k v d) = Some v.
Proof.
  induction d as [|[k0 v0] rest IH]; simpl.
  - rewrite String.eqb_refl. reflexivity.
  - destruct (String.eqb k k0) eqn:E; simpl; rewrite E; [reflexivity|exact IH].
Qed.

(** The effect of a save attempt on the store and on the persisted
    checkpoint: either none, or the dictionary selected at index
    [save_delay] from the newest receives the key ['mcu_status'], and that
    same dictionary is what may then be persisted. *)
Lemma save_effect (c : config) (st : plr) (env : probe) :
  (heap (_save_current_state c st env) = heap st /\
   resume_meta_info (_save_current_state c st env) = resume_meta_info st)
  \/
  exists l d,
    index_from_end (state_history st) (save_delay c + 1) = Some l /\
    heap st !! l = Some (PDict d) /\
    heap (_save_current_state c st env)
      = <[l := with_mcu_status env d]> (heap st) /\
    (resume_meta_info (_save_current_state c st env) = resume_meta_info st \/
     resume_meta_info (_save_current_state c st env)
       = Some (with_mcu_status env d)).
Proof.
  unfold _save_current_state, with_mcu_status.
  destruct (negb (is_active st)); [left; auto|].
  destruct (resuming_print st); [left; auto|].
  destruct (negb (power_loss_recovery_enabled st)); [left; auto|].
  destruct (negb (save_variables st)); [left; auto|].
  destruct (_ >? _); [|left; auto].
  destruct (index_from_end _ _) as [l|]; [|left; auto].
  destruct (heap st !! l) as [[| | | | |d]|] eqn:El; try (left; auto; fail).
  right. exists l, d. split; [reflexivity|]. split; [exact El|].
  destruct (negb (is_valid c _)); [simpl; auto|].
  destruct (negb (store_accepts env)); simpl; auto.
Qed.

Lemma agree_refl (v : pyval) : agree_but_mcu_status v v.
Proof. intros k _. reflexivity. Qed.

Lemma heap_preserved_refl (h : gmap loc pyval) : heap_preserved h h.
Proof. intros l v H. exists v. split; [exact H|apply agree_refl]. Qed.

Lemma heap_preserved_trans (h1 h2 h3 : gmap loc pyval) :
  heap_preserved h1 h2 -> heap_preserved h2 h3 -> heap_preserved h1 h3.
Proof.
  intros H12 H23 l v Hl.
  destruct (H12 l v Hl) as (v2 & Hl2 & A2).
  destruct (H23 l v2 Hl2) as (v3 & Hl3 & A3).
  exists v3. split; [exact Hl3|].
  intros k Hk. rewrite (A3 k Hk). apply A2. exact Hk.
Qed.

Lemma save_preserves_heap (c : config) (st : plr) (env : probe) :
  heap_preserved (heap st) (heap (_save_current_state c st env)).
Proof.
  destruct (save_effect c st env) as [[-> _]|(l0 & d & _ & Hl0 & -> & _)];
    [apply heap_preserved_refl|].
  intros l v Hl. destruct (decide (l0 = l)) as [->|Hne].
  - rewrite lookup_insert_eq. eexists. split; [reflexivity|].
    rewrite Hl0 in Hl. injection Hl as <-.
    intros k Hk. unfold with_mcu_status. simpl. apply dict_get_set_ne. exact Hk.
  - rewrite lookup_insert_ne by exact Hne. exists v. split; [exact Hl|apply agree_refl].
Qed.

Lemma tick_collect_preserves_heap (c : config) (st1 st2 : plr) (cf0 f : Z)
    (env : probe) :
  tick_collect c st1 cf0 env = (st2, f) ->
  heap_preserved (heap st1) (heap st2).
Proof.
  unfold tick_collect.
  destruct (_collect_current_state c st1 env) as [s|];
    [destruct (is_valid c s)|]; intros [= <- <-]; try apply heap_preserved_refl.
  simpl. intros l v Hl. exists v. split; [|apply agree_refl].
  rewrite lookup_insert_ne; [exact Hl|].
  intros <-. pose proof (is_fresh (dom (heap st1))) as Hf.
  apply Hf. apply elem_of_dom. eauto.
Qed.

Lemma tick_preserves_heap (c : config) (st : plr) (env : probe) :
  heap_preserved (heap st) (heap (fst (_background_task c st env))).
Proof.
  unfold _background_task.
  destruct (tick_activation st env) as [st1 cf0] eqn:Ha.
  destruct (tick_activation_frame _ _ _ _ Ha) as (_ & _ & _ & H1 & _).
  rewrite <- H1.
  destruct (is_active st1 && negb (power_loss_recovery_enabled st1));
    [apply heap_preserved_refl|].
  destruct (is_active st1).
  - destruct (tick_collect c st1 cf0 env) as [st2 f] eqn:Hc.
    pose proof (tick_collect_preserves_heap _ _ _ _ _ _ Hc) as H2.
    destruct (tick_should_save c st2 f (_last_save_attempt st) env).
    + destruct (negb (time_based_enabled c) || negb _); simpl;
        (eapply heap_preserved_trans; [exact H2|]);
        apply (save_preserves_heap c (set_last_save_attempt (eventtime env) st2)).
    + destruct (negb (time_based_enabled c) || negb _); simpl; exact H2.
  - destruct (negb (time_based_enabled c) || negb _); simpl;
      apply heap_preserved_refl.
Qed.


(** C5 (as amended). No operation removes a stored snapshot or changes the
    value of any of its keys other than ['mcu_status']; a save attempt
    keeps the history sequence, leaves every entry other than the one at
    index [save_delay] from the newest as it was, and either leaves that
    entry as it was too or sets its ['mcu_status'] key to the status
    summary [_get_move_buffer_status] returns, changing nothing else of
    it. *)
Theorem snapshots_change_only_in_mcu_status (c : config) (st : plr) :
  (forall op, heap_preserved (heap st) (heap (step c st op))) /\
  (forall env,
     state_history (_save_current_state c st env) = state_history st /\
     (forall l,
        index_from_end (state_history st) (save_delay c + 1) <> Some l ->
        heap (_save_current_state c st env) !! l = heap st !! l) /\
     (forall l v,
        index_from_end (state_history st) (save_delay c + 1) = Some l ->
        heap st !! l = Some v ->
        heap (_save_current_state c st env) !! l = Some v \/
        exists d,
          v = PDict d /\
          heap (_save_current_state c st env) !! l
          = Some (PDict (dict_set "mcu_status" (_get_move_buffer_status env) d)))).
Proof.
  split.
  - intros op. destruct op; simpl; try apply heap_preserved_refl.
    + apply tick_preserves_heap.
    + unfold _handle_layer_change.
      destruct (negb (save_on_layer c) || negb (is_active st));
        [apply heap_preserved_refl|].
      eapply heap_preserved_trans; [|apply save_preserves_heap].
      destruct layer_height; apply heap_preserved_refl.
    + unfold _handle_activate_extruder.
      destruct (negb (is_active st)); [apply heap_preserved_refl|].
      eapply heap_preserved_trans; [|apply save_preserves_heap].
      apply heap_preserved_refl.
    + apply save_preserves_heap.
    + unfold cmd_PLR_RESET_PRINT_DATA, _reset_state.
      destruct (negb (save_variables st)); [apply heap_preserved_refl|].
      destruct (negb (store_accepts env)); apply heap_preserved_refl.
  - intros env. split; [apply save_keeps_flags|]. split.
    + intros l Hl.
      destruct (save_effect c st env) as [[-> _]|(l0 & d & Hi & _ & -> & _)];
        [reflexivity|].
      apply lookup_insert_ne. intros ->. contradiction.
    + intros l v Hi Hl.
      destruct (save_effect c st env) as [[-> _]|(l0 & d & Hi0 & Hl0 & -> & _)];
        [left; exact Hl|].
      rewrite Hi in Hi0. injection Hi0 as <-.
      rewrite Hl in Hl0. injection Hl0 as ->.
      right. exists d. split; [reflexivity|]. apply lookup_insert_eq.
Qed.

Lemma snapshots_change_only_in_mcu_status_witness :
  heap (_save_current_state sample_config sample_state
          (sample_probe 40 7 100 0)) !! 4%nat
  = heap sample_state !! 4%nat /\
  (heap (_save_current_state sample_config sample_state
           (sample_probe 40 7 100 0)) !! 3%nat
   = Some (default PNone (heap sample_state !! 3%nat)) \/
   exists d,
     default PNone (heap sample_state !! 3%nat) = PDict d /\
     heap (_save_current_state sample_config sample_state
             (sample_probe 40 7 100 0)) !! 3%nat
     = Some (PDict (dict_set "mcu_status"
                      (_get_move_buffer_status (sample_probe 40 7 100 0)) d))).
Proof.
  split.
  - refine (proj1 (proj2 (proj2 (snapshots_change_only_in_mcu_status
                                   sample_config sample_state)
                            (sample_probe 40 7 100 0))) 4%nat _).
    vm_compute. discriminate.
  - refine (proj2 (proj2 (proj2 (snapshots_change_only_in_mcu_status
                                   sample_config sample_state)
                            (sample_probe 40 7 100 0))) 3%nat
              (default PNone (heap sample_state !! 3%nat)) _ _).
    + vm_compute. reflexivity.
    + vm_compute. reflexivity.
Defined.

(** C5 (as stated) fails: the save attempt on the sample history writes
    the key ['mcu_status'] into the stored entry it selects. *)
Lemma save_mutates_history_entry :
  ~ (forall c st env l,
       In l (state_history st) ->
       heap (_save_current_state c st env) !! l = heap st !! l).
Proof.
  intros H.
  assert (Hne : heap (_save_current_state sample_config sample_state
                        (sample_probe 40 7 100 0)) !! (3%nat : loc)
                <> heap sample_state !! (3%nat : loc))
    by (vm_compute; discriminate).
  apply Hne, H. vm_compute. auto.
Qed.

(** ** Which snapshot a save persists *)

(** Whenever a save attempt writes the persisted checkpoint, what it
    writes is the entry at index [save_delay] from the newest, with the
    key ['mcu_status'] set. *)
Lemma save_persists_configured_index (c : config) (st : plr) (env : probe) :
  resume_meta_info (_save_current_state c st env) <> resume_meta_info st ->
  exists d,
    peek_from_end st (save_delay c) = Some (PDict d) /\
    resume_meta_info (_save_current_state c st env)
      = Some (with_mcu_status env d).
Proof.
  intros Hne.
  destruct (save_effect c st env) as [[_ E]|(l & d & Hi & Hl & _ & [E|E])];
    try contradiction.
  exists d. split; [|exact E].
  unfold peek_from_end. rewrite Hi. simpl. exact Hl.
Qed.

(** C1, evaluated. With the configured [save_delay = 2], a measured lag of
    0 seconds gives the computed delay 1; on the sample history of five
    snapshots the save persists the entry at index 2 from the newest, not
    the entry at the computed index 1. On a history of two snapshots the
    same save passes the length test against the computed delay and then
    indexes past the start of the list: nothing is persisted. *)
Theorem save_indexes_by_configured_delay :
  _calculate_optimal_delay sample_config
    (lag_probe (sample_probe 40 7 100 0)) = 1 /\
  length (state_history sample_state) = 5%nat /\
  (exists d1 d2,
     peek_from_end sample_state 1 = Some (PDict d1) /\
     peek_from_end sample_state 2 = Some (PDict d2) /\
     resume_meta_info
       (_save_current_state sample_config sample_state
          (sample_probe 40 7 100 0))
       = Some (with_mcu_status (sample_probe 40 7 100 0) d2) /\
     with_mcu_status (sample_probe 40 7 100 0) d2
       <> with_mcu_status (sample_probe 40 7 100 0) d1) /\
  (let short :=
     run sample_config (cmd_PLR_ENABLE init_plr)
       [Tick (sample_probe 1 1 100 0); Tick (sample_probe 2 2 100 0)] in
   length (state_history short) = 2%nat /\
   resume_meta_info
     (_save_current_state sample_config short (sample_probe 40 7 100 0))
     = None).
Proof.
  split; [vm_compute; reflexivity|]. split; [vm_compute; reflexivity|]. split.
  - eexists. eexists. split; [vm_compute; reflexivity|].
    split; [vm_compute; reflexivity|].
    split; [vm_compute; reflexivity|].
    vm_compute. discriminate.
  - split; vm_compute; reflexivity.
Qed.

(** ** File-progress percentage *)

Lemma round_half_even_le (x : Q) (k : Z) :
  (x <= inject_Z k)%Q -> round_half_even x <= k.
Proof.
  destruct x as [n d]. unfold Qle, round_half_even. simpl. intros H.
  pose proof (Z.div_mod n (Zpos d) ltac:(lia)) as Hdm.
  pose proof (Z.mod_pos_bound n (Zpos d) ltac:(lia)) as Hr.
  revert Hdm Hr. generalize (n / Zpos d) (n mod Zpos d). intros fl r Hdm Hr.
  assert (Hfl : fl <= k) by nia.
  assert (Hfl1 : 0 < r -> fl + 1 <= k) by (intros; nia).
  destruct (2 * r <? Zpos d) eqn:E1; [exact Hfl|].
  apply Z.ltb_ge in E1.
  destruct (Zpos d <? 2 * r); [apply Hfl1; lia|].
  destruct (Z.even fl); [exact Hfl|apply Hfl1; lia].
Qed.

Lemma round_half_even_ge (x : Q) (k : Z) :
  (inject_Z k <= x)%Q -> k <= round_half_even x.
Proof.
  destruct x as [n d]. unfold Qle, round_half_even. simpl. intros H.
  pose proof (Z.div_mod n (Zpos d) ltac:(lia)) as Hdm.
  pose proof (Z.mod_pos_bound n (Zpos d) ltac:(lia)) as Hr.
  revert Hdm Hr. generalize (n / Zpos d) (n mod Zpos d). intros fl r Hdm Hr.
  assert (Hfl : k <= fl) by nia.
  destruct (2 * r <? Zpos d); [exact Hfl|].
  destruct (Zpos d <? 2 * r); [lia|].
  destruct (Z.even fl); lia.
Qed.

(** Rounding to two decimals keeps a value inside [0, 100]. *)
Lemma py_round_2_range (x : Q) :
  (0 <= x)%Q -> (x <= 100)%Q ->
  (0 <= py_round x 2)%Q /\ (py_round x 2 <= 100)%Q.
Proof.
  intros H0 H100. unfold py_round.
  change (Pos.pow 10 (Pos.of_nat 2)) with 100%positive.
  rewrite !Qred_correct.
  assert (Hlo : 0 <= round_half_even (x * inject_Z 100)).
  { apply round_half_even_ge. change (inject_Z 0) with 0%Q.
    apply Qmult_le_0_compat; [exact H0|discriminate]. }
  assert (Hhi : round_half_even (x * inject_Z 100) <= 10000).
  { apply round_half_even_le. change (inject_Z 10000) with (100 * inject_Z 100)%Q.
    apply Qmult_le_compat_r; [exact H100|discriminate]. }
  unfold Qle. simpl. lia.
Qed.

Lemma ratio_range (file_position file_size : Z) :
  0 <= file_position <= file_size -> 0 < file_size ->
  (0 <= inject_Z file_position / inject_Z file_size * 100)%Q /\
  (inject_Z file_position / inject_Z file_size * 100 <= 100)%Q.
Proof.
  intros Hp Hs.
  assert (Hs' : (0 < inject_Z file_size)%Q)
    by (change 0%Q with (inject_Z 0); rewrite <- Zlt_Qlt; exact Hs).
  assert (H0 : (0 <= inject_Z file_position / inject_Z file_size)%Q).
  { apply Qle_shift_div_l; [exact Hs'|]. rewrite Qmult_0_l.
    change 0%Q with (inject_Z 0). rewrite <- Zle_Qle. lia. }
  assert (H1 : (inject_Z file_position / inject_Z file_size <= 1)%Q).
  { apply Qle_shift_div_r; [exact Hs'|]. rewrite Qmult_1_l.
    rewrite <- Zle_Qle. lia. }
  split.
  - apply Qmult_le_0_compat; [exact H0|discriminate].
  - apply Qle_trans with (1 * 100)%Q; [|discriminate].
    apply Qmult_le_compat_r; [exact H1|discriminate].
Qed.

(** The rounded integer is within one half of the value. *)
Lemma round_half_even_near (x : Q) :
  (inject_Z (round_half_even x) - (1 # 2) <= x)%Q /\
  (x <= inject_Z (round_half_even x) + (1 # 2))%Q.
Proof.
  destruct x as [n d]. unfold round_half_even. cbn [Qnum Qden].
  pose proof (Z.div_mod n (Zpos d) ltac:(lia)) as Hdm.
  pose proof (Z.mod_pos_bound n (Zpos d) ltac:(lia)) as Hr.
  revert Hdm Hr. generalize (n / Zpos d) (n mod Zpos d). intros fl r Hdm Hr.
  destruct (2 * r <? Zpos d) eqn:E1;
    [apply Z.ltb_lt in E1|apply Z.ltb_ge in E1;
      destruct (Zpos d <? 2 * r) eqn:E2;
        [apply Z.ltb_lt in E2|apply Z.ltb_ge in E2; destruct (Z.even fl)]];
    unfold Qle, Qminus, Qplus, Qopp, inject_Z; simpl; subst n;
    rewrite ?Pos2Z.inj_mul; split; lia.
Qed.

(** A value more than one half above [k - 1] rounds to at least [k],
    however a tie is resolved. *)
Lemma round_half_even_above (x : Q) (k : Z) :
  (inject_Z k - (1 # 2) < x)%Q -> k <= round_half_even x.
Proof.
  destruct x as [n d]. intros H. unfold round_half_even. cbn [Qnum Qden].
  unfold Qlt, Qminus, Qplus, Qopp, inject_Z in H. simpl in H.
  pose proof (Z.div_mod n (Zpos d) ltac:(lia)) as Hdm.
  pose proof (Z.mod_pos_bound n (Zpos d) ltac:(lia)) as Hr.
  revert Hdm Hr. generalize (n / Zpos d) (n mod Zpos d). intros fl r Hdm Hr.
  destruct (2 * r <? Zpos d) eqn:E1;
    [apply Z.ltb_lt in E1|apply Z.ltb_ge in E1;
      destruct (Zpos d <? 2 * r) eqn:E2;
        [apply Z.ltb_lt in E2|apply Z.ltb_ge in E2; destruct (Z.even fl)]];
    subst n; apply Z.nlt_ge; intros Hc.
  - assert (0 <= Z.pos d * (k - fl - 1)) by (apply Z.mul_nonneg_nonneg; lia). lia.
  - assert (0 <= Z.pos d * (k - fl - 2)) by (apply Z.mul_nonneg_nonneg; lia). lia.
  - assert (0 <= Z.pos d * (k - fl - 1)) by (apply Z.mul_nonneg_nonneg; lia). lia.
  - assert (0 <= Z.pos d * (k - fl - 2)) by (apply Z.mul_nonneg_nonneg; lia). lia.
Qed.

(** Rounding to two decimals gives a number of hundredths at most half a
    hundredth away from the value. *)
Lemma py_round_2_near (x : Q) :
  (exists k : Z, (py_round x 2 == k # 100)%Q) /\
  (py_round x 2 - (1 # 200) <= x)%Q /\ (x <= py_round x 2 + (1 # 200))%Q.
Proof.
  unfold py_round. change (Pos.pow 10 (Pos.of_nat 2)) with 100%positive.
  destruct (round_half_even_near (x * inject_Z 100)) as [H1 H2].
  revert H1 H2. generalize (round_half_even (x * inject_Z 100)). intros k H1 H2.
  split; [exists k; apply Qred_correct|].
  rewrite !Qred_correct. rewrite (Qmake_Qdiv k 100).
  unfold Qdiv. change (/ inject_Z 100)%Q with (1 # 100)%Q.
  change (inject_Z 100) with 100%Q in *.
  revert H1 H2. generalize (inject_Z k). intros q H1 H2.
  split; lra.
Qed.

(** The collector's snapshot carries [progress_pct_of] of the two readings. *)
Lemma collected_progress (c : config) (st : plr) (env : probe) (snapshot : pyval) :
  _collect_current_state c st env = Some snapshot ->
  exists r, sensors env = Some r /\
    snapshot_progress_pct snapshot
      = as_num (progress_pct_of (r_file_position r) (r_file_size r)).
Proof.
  unfold _collect_current_state.
  destruct (sensors env) as [r|]; [|discriminate].
  destruct (r_toolhead_position r) as [[cx cy] cz]. intros [= <-].
  exists r. split; reflexivity.
Qed.

(** The validator rejects a percentage outside [0, 100]. *)
Lemma valid_progress_in_range (c : config) (snapshot : pyval) :
  is_valid c snapshot = true ->
  exists p, snapshot_progress_pct snapshot = Some p /\ (0 <= p)%Q /\ (p <= 100)%Q.
Proof.
  unfold is_valid, _verify_state.
  destruct snapshot as [| | | | |d]; try (simpl; discriminate).
  destruct (check_fields d required_fields); [discriminate|].
  destruct (match num_field d "file_progress" "total_size" with
            | Some n => Qltb n 0 | None => true end); [discriminate|].
  simpl. destruct (num_field d "file_progress" "progress_pct") as [p|];
    [|simpl; discriminate].
  destruct (Qleb 0 p && Qleb p 100) eqn:E; [|simpl; discriminate].
  intros _. apply andb_true_iff in E as [E0 E1].
  apply Qleb_le in E0, E1. eauto.
Qed.


(** C6 (as stated) fails: with the file position past the file size the
    collected percentage is 200, where the clamped value is 100. *)
Lemma collected_progress_not_clamped :
  snapshot_progress_pct
    (default PNone (_collect_current_state sample_config init_plr
                      (sample_probe 1 2 1 0))) = Some 200%Q /\
  clamped_progress 2 1 = 100%Q /\
  ~ (200 <= 100)%Q.
Proof.
  split; [vm_compute; reflexivity|]. split; [vm_compute; reflexivity|].
  vm_compute. intros H. apply H. reflexivity.
Qed.

(** ** Text *)

Lemma str_app_nil (b : string) : "" +:+ b = b.
Proof. reflexivity. Qed.

Lemma str_app_cons (ch : ascii) (a b : string) :
  String ch a +:+ b = String ch (a +:+ b).
Proof. reflexivity. Qed.

Ltac str_simpl := rewrite ?str_app_cons, ?str_app_nil.

Lemma str_app_assoc (a b c : string) : (a +:+ b) +:+ c = a +:+ (b +:+ c).
Proof.
  induction a as [|ch a IH]; str_simpl; [reflexivity|]. rewrite IH. reflexivity.
Qed.

Lemma str_app_empty_r (a : string) : a +:+ "" = a.
Proof.
  induction a as [|ch a IH]; str_simpl; [reflexivity|]. rewrite IH. reflexivity.
Qed.

Lemma str_length_app (a b : string) :
  String.length (a +:+ b) = (String.length a + String.length b)%nat.
Proof.
  induction a as [|ch a IH]; str_simpl; simpl; [reflexivity|].
  rewrite IH. reflexivity.
Qed.

Lemma join_app (l1 l2 : list string) : join (l1 ++ l2) = join l1 +:+ join l2.
Proof.
  induction l1 as [|x l1 IH]; simpl; [reflexivity|].
  rewrite IH, str_app_assoc. reflexivity.
Qed.

(** Iterating a text delivers all of it. *)
Lemma join_py_lines (s : string) : join (py_lines s) = s.
Proof.
  induction s as [|ch rest IH]; simpl; [reflexivity|].
  destruct (Ascii.eqb ch "010"); simpl.
  - rewrite IH. reflexivity.
  - destruct (py_lines rest) as [|l ls]; simpl in *.
    + rewrite <- IH. reflexivity.
    + rewrite str_app_cons, IH. reflexivity.
Qed.

Lemma drop_chars_app (a b : string) : drop_chars (String.length a) (a +:+ b) = b.
Proof.
  induction a as [|ch a IH]; str_simpl; simpl; [destruct b; reflexivity|exact IH].
Qed.

Lemma drop_chars_all (a : string) : drop_chars (String.length a) a = "".
Proof. induction a as [|ch a IH]; simpl; [reflexivity|exact IH]. Qed.

Lemma drop_chars_add (n m : nat) (s : string) :
  drop_chars (n + m) s = drop_chars m (drop_chars n s).
Proof.
  revert s. induction n as [|n IH]; intros s; simpl; [reflexivity|].
  destruct s; [destruct m; reflexivity|apply IH].
Qed.

Lemma backup_of_ne (input_file : string) : backup_of input_file <> input_file.
Proof.
  intros H. apply (f_equal String.length) in H.
  unfold backup_of in H. rewrite str_length_app in H. simpl in H. lia.
Qed.

(** ** The copy loop, characterised *)

(** What the loop keeps is the text from the last boundary below the
    resume offset. *)
Lemma copied_lines_from_boundary (lines : list string) (cp o : Z) :
  join (copied_lines lines cp o)
  = drop_chars (Z.to_nat (last_before o (line_ends lines cp) cp - cp)) (join lines).
Proof.
  revert cp. induction lines as [|line rest IH]; intros cp; simpl.
  - rewrite Z.sub_diag. reflexivity.
  - destruct (cp + len line <? o) eqn:E.
    + rewrite IH.
      assert (Hge : cp + len line <= last_before o (line_ends rest (cp + len line)) (cp + len line)).
      { clear. generalize (cp + len line). induction rest as [|l r IHr]; intros b; simpl; [lia|].
        destruct (b + len l <? o); [|lia].
        specialize (IHr (b + len l)). unfold len in *. lia. }
      replace (Z.to_nat (last_before o (line_ends rest (cp + len line)) (cp + len line) - cp))
        with (String.length line +
              Z.to_nat (last_before o (line_ends rest (cp + len line)) (cp + len line)
                        - (cp + len line)))%nat
        by (unfold len in *; lia).
      rewrite drop_chars_add, drop_chars_app. reflexivity.
    + rewrite Z.sub_diag. simpl.
      f_equal. clear IH.
      assert (Hmono : forall r b, o <= b -> copied_lines r b o = r).
      { induction r as [|l r IHr]; intros b Hb; simpl; [reflexivity|].
        destruct (b + len l <? o) eqn:E'.
        - apply Z.ltb_lt in E'. unfold len in E'. lia.
        - rewrite IHr; [reflexivity|unfold len; lia]. }
      apply Z.ltb_ge in E. rewrite Hmono; [reflexivity|exact E].
Qed.

Lemma copied_body (content : string) (o : Z) :
  join (copied_lines (py_lines content) 0 o)
  = drop_chars (Z.to_nat (last_boundary_before o content)) content.
Proof.
  rewrite copied_lines_from_boundary, Z.sub_0_r, join_py_lines. reflexivity.
Qed.

(** [last_boundary_before] is a line boundary, and no boundary lies
    strictly between it and a positive offset [o]. *)
Lemma last_before_spec (o : Z) (lines : list string) (start : Z) :
  Forall (fun l => 0 < len l) lines ->
  let b := last_before o (line_ends lines start) start in
  In b (start :: line_ends lines start) /\
  (start < o -> b < o) /\
  (forall b', In b' (start :: line_ends lines start) -> b' < o -> b' <= b).
Proof.
  intros Hpos. revert start. induction Hpos as [|line rest Hl Hrest IH]; intros start; simpl.
  - split; [auto|]. split; [auto|]. intros b' [<-|[]] _. lia.
  - destruct (start + len line <? o) eqn:E.
    + destruct (IH (start + len line)) as (Hin & Hlt & Hmax).
      apply Z.ltb_lt in E.
      split; [right; exact Hin|]. split; [intros _; apply Hlt; exact E|].
      intros b' [<-|Hb'] Hb'o.
      * specialize (Hmax (start + len line) (or_introl eq_refl) E). lia.
      * apply Hmax; assumption.
    + apply Z.ltb_ge in E. split; [auto|]. split; [auto|].
      intros b' [<-|[<-|Hb']] Hb'o; [lia|lia|].
      exfalso. clear IH. revert Hb'. generalize (start + len line) E.
      clear E. induction Hrest as [|l r Hl' Hr IHr]; intros s Hs; simpl; [auto|].
      intros [<-|Hin]; [lia|]. apply (IHr (s + len l)); [lia|exact Hin].
Qed.

Lemma py_lines_nonempty (s : string) : Forall (fun l => 0 < len l) (py_lines s).
Proof.
  induction s as [|ch rest IH]; simpl; [constructor|].
  destruct (Ascii.eqb ch "010").
  - constructor; [unfold len; simpl; lia|exact IH].
  - destruct (py_lines rest) as [|l ls].
    + constructor; [unfold len; simpl; lia|constructor].
    + inversion IH; subst. constructor; [unfold len in *; simpl; lia|assumption].
Qed.

(** ** Running the rewriter *)

Lemma join_one (x : string) : join [x] = x.
Proof. unfold join. simpl. apply str_app_empty_r. Qed.

Lemma bind_ok {A B : Type} (m : io A) (f : A -> io B)
    (fs fs' : gmap string string) (a : A) :
  m fs = (Ok a, fs') -> (m ≫= f) fs = f a fs'.
Proof. intros H. unfold mbind, io_bind. rewrite H. reflexivity. Qed.

Lemma bind_raise {A B : Type} (m : io A) (f : A -> io B)
    (fs fs' : gmap string string) :
  m fs = (Raise, fs') -> (m ≫= f) fs = (Raise, fs').
Proof. intros H. unfold mbind, io_bind. rewrite H. reflexivity. Qed.

Lemma write_all_no_fault (path : string) (chunks : list string) (i : nat)
    (fs : gmap string string) (content0 : string) :
  fs !! path = Some content0 ->
  write_all no_fault path i chunks fs
  = (Ok tt, <[path := content0 +:+ join chunks]> fs).
Proof.
  revert i fs content0. induction chunks as [|chunk rest IH]; intros i fs content0 H.
  - simpl. rewrite str_app_empty_r, insert_id by exact H. reflexivity.
  - cbn [write_all].
    erewrite bind_ok; [|unfold file_write, no_fault; rewrite H; reflexivity].
    rewrite (IH _ _ (content0 +:+ chunk)) by apply lookup_insert_eq.
    rewrite insert_insert_eq. simpl. rewrite str_app_assoc. reflexivity.
Qed.

Lemma copy_lines_no_fault (path : string) (lines : list string) (i : nat)
    (cp o : Z) (fs : gmap string string) (content0 : string) :
  fs !! path = Some content0 ->
  copy_lines no_fault path lines i cp o fs
  = (Ok tt, <[path := content0 +:+ join (copied_lines lines cp o)]> fs).
Proof.
  revert i cp fs content0.
  induction lines as [|line rest IH]; intros i cp fs content0 H.
  - simpl. rewrite str_app_empty_r, insert_id by exact H. reflexivity.
  - cbn [copy_lines copied_lines]. unfold no_fault at 1.
    destruct (cp + len line <? o).
    + apply IH. exact H.
    + erewrite bind_ok; [|unfold file_write, no_fault; rewrite H; reflexivity].
      rewrite (IH _ _ _ (content0 +:+ line)) by apply lookup_insert_eq.
      rewrite insert_insert_eq. simpl. rewrite str_app_assoc. reflexivity.
Qed.

(** The block, when nothing raises, leaves in the new file the guarded
    chunks, the sentinel line and the text from the last boundary below
    the resume offset. *)
Lemma rewrite_body_no_fault (c : config) (active_extruder chamber_temp saved_z : pyval)
    (input_file backup_file : string) (o : Z) (fs : gmap string string)
    (content : string) (chunks : list string) :
  fs !! backup_file = Some content ->
  restart_block c active_extruder chamber_temp saved_z = Some chunks ->
  rewrite_body no_fault c active_extruder chamber_temp saved_z
    input_file backup_file o fs
  = (Ok tt,
     <[input_file := join chunks +:+ sentinel_line +:+
                     drop_chars (Z.to_nat (last_boundary_before o content)) content]> fs).
Proof.
  intros Hb Hc. unfold rewrite_body.
  erewrite bind_ok; [|unfold open_read, no_fault; rewrite Hb; reflexivity].
  erewrite bind_ok; [|unfold open_write, no_fault; reflexivity].
  rewrite Hc.
  erewrite bind_ok; [|apply (write_all_no_fault _ _ _ _ ""), lookup_insert_eq].
  rewrite insert_insert_eq, str_app_nil.
  erewrite bind_ok;
    [|unfold file_write, no_fault; rewrite lookup_insert_eq; reflexivity].
  rewrite insert_insert_eq.
  rewrite (copy_lines_no_fault _ _ _ _ _ _ (join chunks +:+ PLACEHOLDER +:+ LF))
    by apply lookup_insert_eq.
  rewrite insert_insert_eq, copied_body, !str_app_assoc. reflexivity.
Qed.

(** The fields the rewriter reads from a checkpoint that passed the
    validator. *)
Lemma saved_state_fields (c : config) (stored : option pyval) (saved_state : pyval) :
  _get_saved_state c stored = Some saved_state ->
  exists saved_z z ext chamber_temp t,
    subscript saved_state "position" ≫= (fun p => subscript p "z") = Some saved_z /\
    as_num saved_z = Some z /\
    subscript saved_state "active_extruder" = Some (PStr ext) /\
    subscript saved_state "chamber_temp" = Some chamber_temp /\
    as_num chamber_temp = Some t.
Proof.
  unfold _get_saved_state. destruct stored as [sd|]; [|discriminate].
  destruct (negb (truthy sd)); [discriminate|].
  destruct (is_valid c sd) eqn:Hv; [|discriminate]. intros [= <-].
  destruct (is_valid_inv c sd Hv) as (d & -> & Hc).
  destruct (check_fields_inv d _ Hc "position" TDict
              [("x", TNumber); ("y", TNumber); ("z", TNumber)])
    as (p & Hp & _ & Hsub); [unfold required_fields; simpl; auto|].
  destruct (check_subfields_inv _ _ _ Hsub "z" TNumber) as (vz & Ez & Tz);
    [simpl; auto|].
  destruct (check_fields_inv d _ Hc "chamber_temp" TNumber [])
    as (vt & Et & Tt & _); [unfold required_fields; simpl; auto 12|].
  destruct (check_fields_inv d _ Hc "active_extruder" TStr [])
    as (ve & Ee & Te & _); [unfold required_fields; simpl; auto 12|].
  destruct (number_as_num _ Tz) as [z Hz]. destruct (number_as_num _ Tt) as [t Ht].
  destruct ve as [| | | |ext|]; try discriminate.
  exists vz, z, ext, vt, t. cbn [subscript]. rewrite Hp, Et, Ee. simpl.
  rewrite Ez. auto.
Qed.

(** The complete result of a rewrite in which no call raises. *)
Lemma modify_no_fault (c : config) (stored : option pyval) (saved_state : pyval)
    (input_file : string) (o : Z) (fs : gmap string string) (content : string) :
  _get_saved_state c stored = Some saved_state ->
  fs !! input_file = Some content ->
  exists pre,
    preamble_as_claimed c saved_state = Some pre /\
    _modify_gcode_file no_fault c stored input_file o fs
    = (Some input_file,
       <[input_file :=
           (match restart_gcode_lines c with
            | [] => sentinel_line
            | _ :: _ => pre
            end) +:+
           drop_chars (Z.to_nat (last_boundary_before o content)) content]>
         (<[backup_of input_file := content]> (delete input_file fs))).
Proof.
  intros Hs Hin.
  destruct (saved_state_fields c stored saved_state Hs)
    as (saved_z & z & ext & chamber_temp & t & Hz & Hzn & Hext & Hct & Htn).
  unfold preamble_as_claimed. rewrite Hz. cbn [mbind option_bind].
  rewrite Hzn, Hext, Hct. cbn [mbind option_bind]. rewrite Htn.
  cbn [mbind option_bind]. eexists. split; [reflexivity|].
  unfold _modify_gcode_file. rewrite Hs, Hz, Hext, Hct. cbn [default]. unfold id.
  unfold os_rename at 1. unfold no_fault at 1. rewrite Hin.
  assert (Hbk : <[backup_of input_file := content]> (delete input_file fs)
                !! backup_of input_file = Some content) by apply lookup_insert_eq.
  destruct (restart_gcode_lines c) as [|g gs] eqn:Hg.
  - rewrite (rewrite_body_no_fault _ _ _ _ _ _ _ _ content [] Hbk)
      by (unfold restart_block; rewrite Hg; reflexivity).
    simpl. rewrite str_app_nil. reflexivity.
  - erewrite (rewrite_body_no_fault _ _ _ _ _ _ _ _ content _ Hbk)
      by (unfold restart_block; rewrite Hg, Htn; cbn [mbind option_bind];
          rewrite Hzn; cbn [mbind option_bind]; reflexivity).
    f_equal. f_equal. rewrite !join_app, !join_one.
    destruct (Qltb 0 t && negb (String.eqb (chamber_heater_name c) ""));
      rewrite ?join_one; change (join []) with "";
      rewrite ?str_app_nil, ?str_app_assoc; reflexivity.
Qed.

Lemma preamble_ends_with_sentinel (c : config) (saved_state : pyval) (pre : string) :
  preamble_as_claimed c saved_state = Some pre ->
  exists head, pre = head +:+ sentinel_line.
Proof.
  unfold preamble_as_claimed.
  destruct (subscript saved_state "position" ≫= _) as [saved_z|]; [|discriminate].
  cbn [mbind option_bind].
  destruct (as_num saved_z) as [z|]; [|discriminate]. cbn [mbind option_bind].
  destruct (subscript saved_state "active_extruder") as [ae|]; [|discriminate].
  cbn [mbind option_bind].
  destruct (subscript saved_state "chamber_temp") as [ct|]; [|discriminate].
  cbn [mbind option_bind].
  destruct (as_num ct) as [t|]; [|discriminate]. cbn [mbind option_bind].
  intros [= <-]. eexists. rewrite <- !str_app_assoc. reflexivity.
Qed.

(** ** Preamble *)

(** C4 (as amended). For a saved state that passed the validator, a
    rewrite in which nothing raises writes, before any copied content: when
    at least one on-restart line is configured, the tool activation, the
    chamber temperature (heater configured and saved temperature
    positive), the move to the saved Z, the on-restart lines and the
    sentinel line, in this order; when none is configured, the sentinel
    line alone. *)
Theorem preamble_written (c : config) (stored : option pyval) (saved_state : pyval)
    (input_file : string) (o : Z) (fs : gmap string string) (content : string) :
  _get_saved_state c stored = Some saved_state ->
  fs !! input_file = Some content ->
  exists pre,
    preamble_as_claimed c saved_state = Some pre /\
    fst (_modify_gcode_file no_fault c stored input_file o fs) = Some input_file /\
    snd (_modify_gcode_file no_fault c stored input_file o fs) !! input_file
    = Some ((match restart_gcode_lines c with
             | [] => sentinel_line
             | _ :: _ => pre
             end) +:+
            join (copied_lines (py_lines content) 0 o)).
Proof.
  intros Hs Hin.
  destruct (modify_no_fault c stored saved_state input_file o fs content Hs Hin)
    as (pre & Hpre & ->).
  exists pre. split; [exact Hpre|]. split; [reflexivity|].
  cbn [snd]. rewrite lookup_insert_eq, copied_body. reflexivity.
Qed.

Lemma preamble_written_witness :
  exists pre,
    preamble_as_claimed sample_config (default PNone sample_stored) = Some pre /\
    fst (_modify_gcode_file no_fault sample_config sample_stored "a.gcode" 4
           sample_fs) = Some "a.gcode" /\
    snd (_modify_gcode_file no_fault sample_config sample_stored "a.gcode" 4
           sample_fs) !! "a.gcode"
    = Some (pre +:+ join (copied_lines (py_lines sample_gcode) 0 4)).
Proof.
  apply (preamble_written sample_config sample_stored
           (default PNone sample_stored) "a.gcode" 4 sample_fs sample_gcode).
  - vm_compute. reflexivity.
  - vm_compute. reflexivity.
Defined.

(** C4 (as stated) fails: with no on-restart line configured the new file
    begins with the sentinel line; neither the tool activation, nor the
    chamber temperature, nor the move to the saved Z is written. *)
Lemma preamble_skipped_without_restart_lines :
  preamble_as_claimed sample_config_bare (default PNone sample_stored)
  = Some ("ACTIVATE_EXTRUDER EXTRUDER=extruder" +:+ LF +:+
          "SET_HEATER_TEMPERATURE HEATER=chamber TARGET=45.0" +:+ LF +:+
          "G1 Z0.200 F3000 ; Restore Z height" +:+ LF +:+ sentinel_line) /\
  snd (_modify_gcode_file no_fault sample_config_bare sample_stored "a.gcode" 4
         sample_fs) !! "a.gcode"
  = Some (sentinel_line +:+ "cd" +:+ LF +:+ "ef" +:+ LF) /\
  sentinel_line +:+ "cd" +:+ LF +:+ "ef" +:+ LF
  <> ("ACTIVATE_EXTRUDER EXTRUDER=extruder" +:+ LF +:+
      "SET_HEATER_TEMPERATURE HEATER=chamber TARGET=45.0" +:+ LF +:+
      "G1 Z0.200 F3000 ; Restore Z height" +:+ LF +:+ sentinel_line)
     +:+ "cd" +:+ LF +:+ "ef" +:+ LF.
Proof.
  split; [vm_compute; reflexivity|]. split; [vm_compute; reflexivity|].
  vm_compute. discriminate.
Qed.

(** ** Splice *)

(** C2 (as amended). For a resume offset [o] that is not itself a line
    boundary of the backup, the text copied after the sentinel line is the
    backup's text from the greatest line boundary at or below [o] (the
    start of the line that contains offset [o], which is copied whole) to
    the end;
    it is the whole backup when [o < 0] and empty when [o] lies beyond the
    end. *)
Theorem splice_from_line_start (c : config) (stored : option pyval)
    (saved_state : pyval) (input_file : string) (o : Z)
    (fs : gmap string string) (content : string) :
  _get_saved_state c stored = Some saved_state ->
  fs !! input_file = Some content ->
  ~ In o (line_boundaries content) ->
  let b := last_boundary_before o content in
  (exists head,
     snd (_modify_gcode_file no_fault c stored input_file o fs) !! input_file
     = Some (head +:+ sentinel_line +:+ drop_chars (Z.to_nat b) content)) /\
  In b (line_boundaries content) /\
  (0 <= o -> b <= o) /\
  (forall b', In b' (line_boundaries content) -> b' <= o -> b' <= b) /\
  (o < 0 -> drop_chars (Z.to_nat b) content = content) /\
  (len content < o -> drop_chars (Z.to_nat b) content = "").
Proof.
  intros Hs Hin Hnb b.
  destruct (last_before_spec o (py_lines content) 0 (py_lines_nonempty content))
    as (Hb & Hlt & Hmax).
  fold (line_boundaries content) in Hb, Hmax.
  fold (last_boundary_before o content) in Hb, Hlt, Hmax. fold b in Hb, Hlt, Hmax.
  assert (Hne : forall b', In b' (line_boundaries content) -> b' <> o)
    by (intros b' Hb' ->; contradiction).
  split; [|split; [exact Hb|split; [|split; [|split]]]].
  - destruct (modify_no_fault c stored saved_state input_file o fs content Hs Hin)
      as (pre & Hpre & ->).
    cbn [snd]. rewrite lookup_insert_eq.
    destruct (restart_gcode_lines c).
    + exists "". rewrite str_app_nil. reflexivity.
    + destruct (preamble_ends_with_sentinel _ _ _ Hpre) as [head ->].
      exists head. rewrite str_app_assoc. reflexivity.
  - intros Ho. pose proof (Hne 0 (or_introl eq_refl)). apply Z.lt_le_incl, Hlt. lia.
  - intros b' Hb' Hle. pose proof (Hne b' Hb'). apply Hmax; [exact Hb'|lia].
  - intros Ho. assert (b = 0); [|subst b; replace (last_boundary_before o content) with 0; reflexivity].
    unfold b, last_boundary_before.
    destruct (py_lines_nonempty content) as [|l ls Hl _]; simpl; [reflexivity|].
    replace (0 + len l <? o) with false; [reflexivity|].
    symmetry. apply Z.ltb_ge. lia.
  - intros Ho.
    assert (Hend : b = len content).
    { unfold b, last_boundary_before.
      rewrite <- (join_py_lines content) at 2.
      assert (Hgen : forall lines start,
                 start + len (join lines) < o ->
                 last_before o (line_ends lines start) start
                 = start + len (join lines)).
      { induction lines as [|l ls IHl]; intros start Hst; simpl.
        - unfold len. simpl. lia.
        - simpl in Hst. unfold len in Hst |- *.
          rewrite str_length_app in Hst |- *.
          replace (start + Z.of_nat (String.length l) <? o) with true
            by (symmetry; apply Z.ltb_lt; lia).
          unfold len in IHl. rewrite IHl; lia. }
      rewrite Hgen; [lia|]. rewrite join_py_lines. lia. }
    rewrite Hend. unfold len. rewrite Nat2Z.id. apply drop_chars_all.
Qed.

Lemma splice_from_line_start_witness :
  exists head,
    snd (_modify_gcode_file no_fault sample_config sample_stored "a.gcode" 4
           sample_fs) !! "a.gcode"
    = Some (head +:+ sentinel_line +:+
            drop_chars (Z.to_nat (last_boundary_before 4 sample_gcode))
              sample_gcode).
Proof.
  refine (proj1 (splice_from_line_start sample_config sample_stored
                   (default PNone sample_stored) "a.gcode" 4 sample_fs
                   sample_gcode _ _ _)).
  - vm_compute. reflexivity.
  - vm_compute. reflexivity.
  - vm_compute. intros [H|[H|[H|[H|[]]]]]; discriminate H.
Defined.

(** C2 (as stated) fails: with the resume offset 4 inside the second line
    of the backup, the copy starts with that line (offset 3), not at the
    first line boundary at or after offset 4 (offset 6). *)
Lemma splice_keeps_straddling_line :
  snd (_modify_gcode_file no_fault sample_config_bare sample_stored "a.gcode" 4
         sample_fs) !! "a.gcode"
  = Some (sentinel_line +:+ "cd" +:+ LF +:+ "ef" +:+ LF) /\
  body_as_claimed sample_gcode 4 = "ef" +:+ LF /\
  "cd" +:+ LF +:+ "ef" +:+ LF <> "ef" +:+ LF.
Proof.
  split; [vm_compute; reflexivity|]. split; [vm_compute; reflexivity|].
  vm_compute. discriminate.
Qed.

(** ** Rollback *)

Lemma ret_touches {A : Type} (path : string) (a : A) : touches_only path (mret a).
Proof. intros fs p _. reflexivity. Qed.

Lemma raise_touches {A : Type} (path : string) : touches_only path (@raise A).
Proof. intros fs p _. reflexivity. Qed.

Lemma bind_touches {A B : Type} (path : string) (m : io A) (f : A -> io B) :
  touches_only path m -> (forall a, touches_only path (f a)) ->
  touches_only path (m ≫= f).
Proof.
  intros Hm Hf fs p Hp. unfold mbind, io_bind.
  specialize (Hm fs p Hp). destruct (m fs) as [[a|] fs1]; simpl in *.
  - rewrite (Hf a fs1 p Hp). exact Hm.
  - exact Hm.
Qed.

Lemma file_write_touches (fails : site -> bool) (s : site) (path data : string) :
  touches_only path (file_write fails s path data).
Proof.
  intros fs p Hp. unfold file_write.
  destruct (fails s); [reflexivity|].
  destruct (fs !! path); [|reflexivity].
  simpl. apply lookup_insert_ne. congruence.
Qed.

Lemma open_write_touches (fails : site -> bool) (s : site) (path : string) :
  touches_only path (open_write fails s path).
Proof.
  intros fs p Hp. unfold open_write.
  destruct (fails s); [reflexivity|]. simpl. apply lookup_insert_ne. congruence.
Qed.

Lemma open_read_touches (fails : site -> bool) (s : site) (path path' : string) :
  touches_only path (open_read fails s path').
Proof.
  intros fs p _. unfold open_read.
  destruct (fails s); [reflexivity|]. destruct (fs !! path'); reflexivity.
Qed.

Lemma write_all_touches (fails : site -> bool) (path : string)
    (chunks : list string) (i : nat) :
  touches_only path (write_all fails path i chunks).
Proof.
  revert i. induction chunks as [|chunk rest IH]; intros i; cbn [write_all].
  - apply ret_touches.
  - apply bind_touches; [apply file_write_touches|intros _; apply IH].
Qed.

Lemma copy_lines_touches (fails : site -> bool) (path : string)
    (lines : list string) (i : nat) (cp o : Z) :
  touches_only path (copy_lines fails path lines i cp o).
Proof.
  revert i cp. induction lines as [|line rest IH]; intros i cp; cbn [copy_lines].
  - apply ret_touches.
  - destruct (fails (ReadLine i)); [apply raise_touches|].
    destruct (cp + len line <? o); [apply IH|].
    apply bind_touches; [apply file_write_touches|intros _; apply IH].
Qed.

(** Whatever raises, the block changes no file but the one it writes. *)
Lemma rewrite_body_touches (fails : site -> bool) (c : config)
    (active_extruder chamber_temp saved_z : pyval)
    (input_file backup_file : string) (o : Z) :
  touches_only input_file
    (rewrite_body fails c active_extruder chamber_temp saved_z
       input_file backup_file o).
Proof.
  unfold rewrite_body.
  apply bind_touches; [apply open_read_touches|intros content].
  apply bind_touches; [apply open_write_touches|intros _].
  apply bind_touches.
  - destruct (restart_block _ _ _ _); [apply write_all_touches|apply raise_touches].
  - intros _. apply bind_touches; [apply file_write_touches|intros _].
    apply copy_lines_touches.
Qed.

(** A computation that completes under [fails] is the fault-free one. *)
Lemma write_all_ok (fails : site -> bool) (path : string) (chunks : list string)
    (i : nat) (fs fs' : gmap string string) :
  write_all fails path i chunks fs = (Ok tt, fs') ->
  write_all no_fault path i chunks fs = (Ok tt, fs').
Proof.
  revert i fs. induction chunks as [|chunk rest IH]; intros i fs; cbn [write_all];
    [auto|].
  unfold mbind, io_bind, file_write, no_fault.
  destruct (fails (WritePreamble i)); [discriminate|].
  destruct (fs !! path); [|discriminate]. apply IH.
Qed.

Lemma copy_lines_ok (fails : site -> bool) (path : string) (lines : list string)
    (i : nat) (cp o : Z) (fs fs' : gmap string string) :
  copy_lines fails path lines i cp o fs = (Ok tt, fs') ->
  copy_lines no_fault path lines i cp o fs = (Ok tt, fs').
Proof.
  revert i cp fs. induction lines as [|line rest IH]; intros i cp fs;
    cbn [copy_lines]; [auto|].
  unfold no_fault at 1.
  destruct (fails (ReadLine i)); [discriminate|].
  destruct (cp + len line <? o); [apply IH|].
  unfold mbind, io_bind, file_write, no_fault.
  destruct (fails (WriteLine i)); [discriminate|].
  destruct (fs !! path); [|discriminate]. apply IH.
Qed.

Lemma rewrite_body_ok (fails : site -> bool) (c : config)
    (active_extruder chamber_temp saved_z : pyval)
    (input_file backup_file : string) (o : Z) (fs fs' : gmap string string) :
  rewrite_body fails c active_extruder chamber_temp saved_z
    input_file backup_file o fs = (Ok tt, fs') ->
  rewrite_body no_fault c active_extruder chamber_temp saved_z
    input_file backup_file o fs = (Ok tt, fs').
Proof.
  unfold rewrite_body, mbind, io_bind, open_read, open_write.
  unfold no_fault at 1 2.
  destruct (fails OpenBackup); [discriminate|].
  destruct (fs !! backup_file) as [content|]; [|discriminate].
  destruct (fails OpenOutput); [discriminate|].
  destruct (restart_block c active_extruder chamber_temp saved_z) as [chunks|];
    [|discriminate].
  destruct (write_all fails input_file 0 chunks (<[input_file:=""]> fs))
    as [[[]|] fs1] eqn:Ew; [|discriminate].
  rewrite (write_all_ok _ _ _ _ _ _ Ew).
  unfold file_write. unfold no_fault at 1.
  destruct (fails WriteSentinel); [discriminate|].
  destruct (fs1 !! input_file); [|discriminate].
  apply copy_lines_ok.
Qed.

Lemma rollback_restores_files (fails : site -> bool)
    (input_file backup_file : string) (fs2 : gmap string string) (content : string) :
  fails RemoveOutput = false -> fails RenameBack = false ->
  input_file <> backup_file ->
  fs2 !! backup_file = Some content ->
  rollback fails input_file backup_file fs2
  = <[input_file := content]> (delete backup_file (delete input_file fs2)).
Proof.
  intros Hrm Hrn Hne Hb. unfold rollback, os_path_exists, os_remove, os_rename.
  rewrite Hrm, Hrn.
  destruct (fs2 !! input_file) eqn:Ei; simpl; rewrite ?Ei; simpl.
  - rewrite !lookup_delete_ne by exact Hne. rewrite Hb. reflexivity.
  - rewrite Hb. simpl.
    rewrite (delete_id fs2 input_file) by exact Ei. reflexivity.
Qed.

(** The rewrite from the point where the rename has been done. *)
Lemma modify_after_rename (fails : site -> bool) (c : config)
    (stored : option pyval) (saved_state saved_z : pyval) (input_file : string)
    (o : Z) (fs : gmap string string) (content : string) :
  _get_saved_state c stored = Some saved_state ->
  subscript saved_state "position" ≫= (fun p => subscript p "z") = Some saved_z ->
  fs !! input_file = Some content ->
  fails RenameToBackup = false ->
  _modify_gcode_file fails c stored input_file o fs
  = match rewrite_body fails c
            (default (PStr "extruder") (subscript saved_state "active_extruder"))
            (default (PInt 0) (subscript saved_state "chamber_temp"))
            saved_z input_file (backup_of input_file) o
            (<[backup_of input_file := content]> (delete input_file fs)) with
    | (Ok _, fs2) => (Some input_file, fs2)
    | (Raise, fs2) =>
        (None, rollback fails input_file (backup_of input_file) fs2)
    end.
Proof.
  intros Hs Hz Hin Hren. unfold _modify_gcode_file, os_rename.
  rewrite Hs, Hz, Hren, Hin. reflexivity.
Qed.

(** C3 (as amended). Once the original has been renamed to its backup
    name, the rewrite either reports failure or has run exactly as the
    fault-free rewrite does. When it reports failure and the clean-up's
    own removal and rename do not raise, the original name holds the
    original content again, no backup file remains and no other file has
    changed: the file system is the one before the call when no backup
    file existed then. *)
Theorem failed_rewrite_rolls_back (fails : site -> bool) (c : config)
    (stored : option pyval) (saved_state : pyval) (input_file : string)
    (o : Z) (fs : gmap string string) (content : string) :
  _get_saved_state c stored = Some saved_state ->
  fs !! input_file = Some content ->
  fails RenameToBackup = false ->
  let r := _modify_gcode_file fails c stored input_file o fs in
  (fst r = None \/ r = _modify_gcode_file no_fault c stored input_file o fs) /\
  (fst r = None ->
   fails RemoveOutput = false -> fails RenameBack = false ->
   snd r !! input_file = Some content /\
   snd r !! backup_of input_file = None /\
   (forall p, p <> input_file -> p <> backup_of input_file ->
              snd r !! p = fs !! p) /\
   (fs !! backup_of input_file = None -> snd r = fs)).
Proof.
  intros Hs Hin Hren r. subst r.
  destruct (saved_state_fields c stored saved_state Hs)
    as (saved_z & z & ext & chamber_temp & t & Hz & _ & Hext & Hct & _).
  rewrite (modify_after_rename fails c stored saved_state saved_z input_file o
             fs content Hs Hz Hin Hren).
  rewrite (modify_after_rename no_fault c stored saved_state saved_z input_file o
             fs content Hs Hz Hin eq_refl).
  set (fs1 := <[backup_of input_file := content]> (delete input_file fs)).
  pose proof (backup_of_ne input_file) as Hne.
  destruct (rewrite_body fails c _ _ saved_z input_file (backup_of input_file) o fs1)
    as [[[]|] fs2] eqn:Eb.
  - split; [right|intros [=]].
    rewrite (rewrite_body_ok _ _ _ _ _ _ _ _ _ _ Eb). reflexivity.
  - split; [left; reflexivity|]. intros _ Hrm Hrn. cbn [snd].
    assert (Hframe : forall p, p <> input_file -> fs2 !! p = fs1 !! p).
    { intros p Hp.
      pose proof (rewrite_body_touches fails c
                    (default (PStr "extruder") (subscript saved_state "active_extruder"))
                    (default (PInt 0) (subscript saved_state "chamber_temp"))
                    saved_z input_file (backup_of input_file) o fs1 p Hp) as Hf.
      rewrite Eb in Hf. exact Hf. }
    assert (Hb2 : fs2 !! backup_of input_file = Some content).
    { rewrite Hframe by exact Hne. apply lookup_insert_eq. }
    rewrite (rollback_restores_files fails _ _ fs2 content Hrm Hrn
               (fun H => Hne (eq_sym H)) Hb2).
    assert (Hothers : forall p, p <> input_file -> p <> backup_of input_file ->
              <[input_file := content]>
                (delete (backup_of input_file) (delete input_file fs2)) !! p
              = fs !! p).
    { intros p Hp1 Hp2.
      rewrite lookup_insert_ne, !lookup_delete_ne by congruence.
      rewrite Hframe by exact Hp1. unfold fs1.
      rewrite lookup_insert_ne, lookup_delete_ne by congruence. reflexivity. }
    split; [apply lookup_insert_eq|]. split.
    { rewrite lookup_insert_ne by (intros H; apply Hne; symmetry; exact H).
      apply lookup_delete_eq. }
    split; [exact Hothers|].
    intros Hnb. apply map_eq. intros p.
    destruct (decide (p = input_file)) as [->|Hp1];
      [rewrite lookup_insert_eq; symmetry; exact Hin|].
    destruct (decide (p = backup_of input_file)) as [->|Hp2];
      [|apply Hothers; assumption].
    rewrite lookup_insert_ne by (intros H; apply Hne; symmetry; exact H).
    rewrite lookup_delete_eq. symmetry. exact Hnb.
Qed.

Lemma failed_rewrite_rolls_back_witness :
  fst (_modify_gcode_file sample_fault sample_config sample_stored "a.gcode" 4
         sample_fs) = None /\
  snd (_modify_gcode_file sample_fault sample_config sample_stored "a.gcode" 4
         sample_fs) = sample_fs.
Proof.
  pose proof (failed_rewrite_rolls_back sample_fault sample_config sample_stored
                (default PNone sample_stored) "a.gcode" 4 sample_fs sample_gcode
                ltac:(vm_compute; reflexivity) ltac:(vm_compute; reflexivity)
                eq_refl) as [_ H].
  assert (Hnone : fst (_modify_gcode_file sample_fault sample_config
                         sample_stored "a.gcode" 4 sample_fs) = None)
    by (vm_compute; reflexivity).
  split; [exact Hnone|].
  apply (H Hnone eq_refl eq_refl). vm_compute. reflexivity.
Defined.

(** C3 (as stated) fails: when the write of the sentinel raises and the
    removal of the partial file raises too, the handler gives up; failure
    is reported, but the original name holds the partial new file and the
    backup remains. *)
Lemma rollback_can_fail :
  sample_fs !! "a.gcode" = Some sample_gcode /\
  sample_fs !! "a.gcode.plr" = None /\
  fst (_modify_gcode_file sample_faults sample_config_bare sample_stored
         "a.gcode" 4 sample_fs) = None /\
  snd (_modify_gcode_file sample_faults sample_config_bare sample_stored
         "a.gcode" 4 sample_fs) !! "a.gcode" = Some "" /\
  snd (_modify_gcode_file sample_faults sample_config_bare sample_stored
         "a.gcode" 4 sample_fs) !! "a.gcode.plr" = Some sample_gcode /\
  snd (_modify_gcode_file sample_faults sample_config_bare sample_stored
         "a.gcode" 4 sample_fs) <> sample_fs.
Proof.
  repeat split; try (vm_compute; reflexivity).
  intros H. apply (f_equal (fun m => m !! "a.gcode.plr")) in H.
  revert H. vm_compute. discriminate.
Qed.

(** * Further properties *)

(** ** Validator *)

Lemma str_in_In (s : string) (l : list string) : str_in s l = true <-> In s l.
Proof.
  unfold str_in. rewrite existsb_exists. split.
  - intros (x & Hx & E). apply String.eqb_eq in E. subst. exact Hx.
  - intros H. exists s. split; [exact H|apply String.eqb_refl].
Qed.

Lemma in_range_inv (lo hi : Q) (v : option pyval) :
  in_range lo hi v = true ->
  exists q, v ≫= as_num = Some q /\ (lo <= q)%Q /\ (q <= hi)%Q.
Proof.
  unfold in_range. destruct (v ≫= as_num) as [q|]; [|discriminate].
  intros H. apply andb_true_iff in H as [H1 H2].
  apply Qleb_le in H1, H2. eauto.
Qed.

(** X1. A state the validator accepts is a dictionary with a non-negative
    total size, a percentage in [0, 100], a non-negative layer, the three
    temperatures inside their ranges and an active extruder from the
    configured list. *)
Theorem verify_state_sound (c : config) (state : pyval) :
  _verify_state c state = None ->
  exists d size pct layer hotend bed chamber ext,
    state = PDict d /\
    num_field d "file_progress" "total_size" = Some size /\ (0 <= size)%Q /\
    num_field d "file_progress" "progress_pct" = Some pct /\
    (0 <= pct)%Q /\ (pct <= 100)%Q /\
    dict_get "layer" d ≫= as_num = Some layer /\ (0 <= layer)%Q /\
    dict_get "hotend_temp" d ≫= as_num = Some hotend /\
    (-27315 # 100 <= hotend)%Q /\ (hotend <= 500)%Q /\
    dict_get "bed_temp" d ≫= as_num = Some bed /\
    (-27315 # 100 <= bed)%Q /\ (bed <= 200)%Q /\
    dict_get "chamber_temp" d ≫= as_num = Some chamber /\
    (-27315 # 100 <= chamber)%Q /\ (chamber <= 100)%Q /\
    dict_get "active_extruder" d = Some (PStr ext) /\ In ext (extruders c).
Proof.
  unfold _verify_state. destruct state as [| | | | |d]; try discriminate.
  destruct (check_fields d required_fields); [discriminate|].
  destruct (num_field d "file_progress" "total_size") as [size|] eqn:Hsize;
    [|discriminate].
  destruct (Qltb size 0) eqn:Es; [discriminate|]. apply Qltb_ge in Es.
  destruct (num_field d "file_progress" "progress_pct") as [pct|] eqn:Hpct;
    [|simpl; discriminate].
  destruct (Qleb 0 pct && Qleb pct 100) eqn:Ep; [|simpl; discriminate].
  apply andb_true_iff in Ep as [Ep0 Ep1]. apply Qleb_le in Ep0, Ep1.
  cbn [negb].
  destruct (dict_get "layer" d ≫= as_num) as [layer|] eqn:Hlayer; [|discriminate].
  destruct (Qltb layer 0) eqn:El; [discriminate|]. apply Qltb_ge in El.
  destruct (in_range _ 500 _) eqn:Eh; [|simpl; discriminate].
  destruct (in_range _ 200 _) eqn:Eb; [|simpl; discriminate].
  destruct (in_range _ 100 _) eqn:Ec; [|simpl; discriminate].
  cbn [negb].
  apply in_range_inv in Eh as (hotend & Hh & Hh1 & Hh2).
  apply in_range_inv in Eb as (bed & Hb & Hb1 & Hb2).
  apply in_range_inv in Ec as (chamber & Hc & Hc1 & Hc2).
  destruct (dict_get "active_extruder" d) as [[| | | |ext|]|] eqn:Hext;
    try discriminate.
  destruct (str_in ext (extruders c)) eqn:Ee; [|discriminate].
  apply str_in_In in Ee. intros _.
  exists d, size, pct, layer, hotend, bed, chamber, ext.
  repeat split; (assumption || reflexivity).
Qed.

Lemma verify_state_sound_witness :
  exists d size pct layer hotend bed chamber ext,
    default PNone sample_stored = PDict d /\
    num_field d "file_progress" "total_size" = Some size /\ (0 <= size)%Q /\
    num_field d "file_progress" "progress_pct" = Some pct /\
    (0 <= pct)%Q /\ (pct <= 100)%Q /\
    dict_get "layer" d ≫= as_num = Some layer /\ (0 <= layer)%Q /\
    dict_get "hotend_temp" d ≫= as_num = Some hotend /\
    (-27315 # 100 <= hotend)%Q /\ (hotend <= 500)%Q /\
    dict_get "bed_temp" d ≫= as_num = Some bed /\
    (-27315 # 100 <= bed)%Q /\ (bed <= 200)%Q /\
    dict_get "chamber_temp" d ≫= as_num = Some chamber /\
    (-27315 # 100 <= chamber)%Q /\ (chamber <= 100)%Q /\
    dict_get "active_extruder" d = Some (PStr ext) /\
    In ext (extruders sample_config).
Proof.
  apply (verify_state_sound sample_config (default PNone sample_stored)).
  vm_compute. reflexivity.
Defined.

Lemma check_fields_set_other (k : string) (v : pyval) (d : pydict)
    (fields : list (string * (pytype * list (string * pytype)))) :
  ~ In k (map fst fields) ->
  check_fields (dict_set k v d) fields = check_fields d fields.
Proof.
  induction fields as [|[f [t subs]] rest IH]; intros Hk; [reflexivity|].
  cbn [check_fields].
  rewrite dict_get_set_ne by (intros ->; apply Hk; left; reflexivity).
  rewrite IH by (intros H; apply Hk; right; exact H). reflexivity.
Qed.

Lemma verify_state_set_other_key (c : config) (k : string) (v : pyval)
    (d : pydict) :
  ~ In k required_names ->
  _verify_state c (PDict (dict_set k v d)) = _verify_state c (PDict d).
Proof.
  intros Hk. unfold _verify_state, num_field, in_range.
  rewrite (check_fields_set_other k v d required_fields Hk).
  assert (Hget : forall f, In f required_names ->
            dict_get f (dict_set k v d) = dict_get f d).
  { intros f Hf. apply dict_get_set_ne. intros ->. exact (Hk Hf). }
  rewrite !Hget by (unfold required_names, required_fields; simpl; auto 12).
  reflexivity.
Qed.

(** X2. Writing a key the validator does not read (such as
    ['mcu_status']) into a state does not change the validator's verdict. *)
Theorem verify_state_ignores_other_keys (c : config) (k : string) (v : pyval)
    (d : pydict) :
  ~ In k required_names ->
  _verify_state c (PDict (dict_set k v d)) = _verify_state c (PDict d).
Proof. exact (verify_state_set_other_key c k v d). Qed.

Lemma verify_state_ignores_other_keys_witness :
  _verify_state sample_config
    (PDict (dict_set "mcu_status" PNone [("position", PNone)]))
  = _verify_state sample_config (PDict [("position", PNone)]).
Proof.
  apply (verify_state_ignores_other_keys sample_config "mcu_status" PNone
           [("position", PNone)]).
  vm_compute. intros H.
  repeat (destruct H as [H|H]; [discriminate H|]). exact H.
Defined.

Lemma temperature_ok_rounded (hi : Z) (t : Q) :
  temperature_ok (inject_Z hi) t ->
  in_range (-27315 # 100) (inject_Z hi) (Some (PFloat (py_round t 1))) = true.
Proof.
  intros [Hlo Hhi]. unfold in_range. simpl.
  assert (H1 : (-2731 # 10 <= py_round t 1)%Q).
  { unfold py_round. change (Pos.pow 10 (Pos.of_nat 1)) with 10%positive.
    rewrite Qred_correct.
    assert (H : -2731 <= round_half_even (t * inject_Z 10)).
    { apply round_half_even_above.
      apply Qle_lt_trans with ((-27315 # 100) * inject_Z 10)%Q; [discriminate|].
      apply Qmult_lt_compat_r; [reflexivity|exact Hlo]. }
    unfold Qle. simpl. lia. }
  assert (H2 : (py_round t 1 <= Qmake (hi * 10) 10)%Q).
  { unfold py_round. change (Pos.pow 10 (Pos.of_nat 1)) with 10%positive.
    rewrite Qred_correct.
    assert (H : round_half_even (t * inject_Z 10) <= hi * 10).
    { apply round_half_even_le.
      apply Qle_trans with (inject_Z hi * inject_Z 10)%Q.
      - apply Qmult_le_compat_r; [exact Hhi|discriminate].
      - unfold Qle, Qmult, inject_Z. simpl. lia. }
    unfold Qle. simpl. lia. }
  apply andb_true_iff. split; apply Qleb_le.
  - eapply Qle_trans; [|exact H1]. discriminate.
  - eapply Qle_trans; [exact H2|]. unfold Qle, inject_Z. simpl. lia.
Qed.

Lemma progress_pct_in_range (file_position file_size : Z) :
  0 <= file_size ->
  (0 < file_size -> 0 <= file_position <= file_size) ->
  exists p, as_num (progress_pct_of file_position file_size) = Some p /\
            Qleb 0 p && Qleb p 100 = true.
Proof.
  intros Hs Hp. unfold progress_pct_of. destruct (file_size >? 0) eqn:E.
  - rewrite Z.gtb_ltb in E. apply Z.ltb_lt in E.
    destruct (ratio_range _ _ (Hp E) E) as [H0 H1].
    destruct (py_round_2_range _ H0 H1) as [R0 R1].
    eexists. split; [reflexivity|].
    apply andb_true_iff. split; apply Qleb_le; assumption.
  - exists 0%Q. split; reflexivity.
Qed.

(** X3. When every status query answers with a non-negative file size, a
    file position within the file, temperatures above -273.15 and at most
    500 (hotend), 200 (bed) and 100 (chamber) degrees and a configured
    extruder, and the current layer is a non-negative integer, the
    collector returns a snapshot and the validator accepts it. *)
Theorem collected_in_range_is_valid (c : config) (st : plr) (env : probe)
    (r : readings) (n : Z) :
  sensors env = Some r ->
  readings_in_range c r ->
  last_layer st = Some n -> 0 <= n ->
  exists snapshot,
    _collect_current_state c st env = Some snapshot /\
    _verify_state c snapshot = None.
Proof.
  intros Hr (Hsz & Hpos & Hhot & Hbed & Hch & Hext) Hl Hn.
  unfold _collect_current_state. rewrite Hr, Hl.
  destruct (r_toolhead_position r) as [[cx cy] cz].
  eexists. split; [reflexivity|].
  destruct (progress_pct_in_range _ _ Hsz Hpos) as (p & Hp & Hprange).
  pose proof (temperature_ok_rounded 500 _ Hhot) as Hh.
  pose proof (temperature_ok_rounded 200 _ Hbed) as Hb.
  pose proof (temperature_ok_rounded 100 _ Hch) as Hc.
  apply str_in_In in Hext.
  assert (Hpt : isinstance (progress_pct_of (r_file_position r) (r_file_size r))
                  TNumber = true)
    by (unfold progress_pct_of; destruct (_ >? _); reflexivity).
  revert Hp Hpt Hh Hb Hc.
  generalize (progress_pct_of (r_file_position r) (r_file_size r)).
  generalize (py_round (r_hotend_temp r) 1)
             (py_round (default 0%Q (r_bed_temp r)) 1)
             (py_round (default 0%Q (r_chamber_temp r)) 1).
  generalize (py_round cx 3) (py_round cy 3) (py_round cz 3)
             (xyz_offsets_of r) (fan_speeds_of r (part_cooling_fans c))
             (py_round (current_z_height st) 3) (monotonic env) (r_filename r).
  intros px py pz xyz fans lh t file hot bed ch pv Hp Hpt Hh Hb Hc.
  unfold _verify_state, num_field, required_fields.
  simpl. simpl in Hpt. rewrite Hpt, Hp, Hprange.
  change (inject_Z 500) with 500%Q in Hh. change (inject_Z 200) with 200%Q in Hb.
  change (inject_Z 100) with 100%Q in Hc. rewrite Hh, Hb, Hc, Hext.
  replace (Qltb (inject_Z (r_file_size r)) 0) with false
    by (symmetry; apply Qltb_ge; change 0%Q with (inject_Z 0);
        rewrite <- Zle_Qle; exact Hsz).
  replace (Qltb (inject_Z n) 0) with false
    by (symmetry; apply Qltb_ge; change 0%Q with (inject_Z 0);
        rewrite <- Zle_Qle; exact Hn).
  reflexivity.
Qed.

Lemma collected_in_range_is_valid_witness :
  exists snapshot,
    _collect_current_state sample_config init_plr (sample_probe 1 4 10 0)
      = Some snapshot /\
    _verify_state sample_config snapshot = None.
Proof.
  apply (collected_in_range_is_valid sample_config init_plr
           (sample_probe 1 4 10 0) (sample_readings 4 10) 0).
  - reflexivity.
  - unfold readings_in_range, temperature_ok. simpl.
    repeat split; try lia; try discriminate. left. reflexivity.
  - reflexivity.
  - lia.
Defined.

Lemma save_keeps_layer (c : config) (st : plr) (env : probe) :
  last_layer (_save_current_state c st env) = last_layer st /\
  current_z_height (_save_current_state c st env) = current_z_height st /\
  resuming_print (_save_current_state c st env) = resuming_print st /\
  save_variables (_save_current_state c st env) = save_variables st.
Proof.
  unfold _save_current_state.
  repeat match goal with
         | |- context [if ?b then _ else _] => destruct b eqn:?
         | |- context [match ?o with Some _ => _ | None => _ end] => destruct o eqn:?
         | |- context [match ?v with PDict _ => _ | _ => _ end] => destruct v eqn:?
         end; repeat split; simpl; congruence.
Qed.

(** X4. A layer-change command without a LAYER parameter stores [None] as
    the current layer; from then on every snapshot the collector returns
    is rejected by the validator with "Field layer has wrong type". *)
Theorem layer_change_without_layer_blocks_snapshots (c : config) (st : plr)
    (layer_height : option Q) (env env' : probe) (snapshot : pyval) :
  save_on_layer c = true -> is_active st = true ->
  _collect_current_state c
    (_handle_layer_change c st None layer_height env) env' = Some snapshot ->
  _verify_state c snapshot = Some "Field layer has wrong type".
Proof.
  intros Hs Ha. unfold _handle_layer_change. rewrite Hs, Ha. simpl.
  unfold _collect_current_state.
  rewrite (proj1 (save_keeps_layer c _ env)).
  replace (last_layer (match layer_height with
                       | Some h => _ | None => _ end)) with (@None Z)
    by (destruct layer_height; reflexivity).
  destruct (sensors env') as [r|]; [|discriminate].
  destruct (r_toolhead_position r) as [[cx cy] cz]. intros [= <-].
  reflexivity.
Qed.

Lemma layer_change_without_layer_blocks_snapshots_witness :
  _verify_state sample_config
    (default PNone
       (_collect_current_state sample_config
          (_handle_layer_change sample_config sample_state None None
             (sample_probe 40 7 100 0))
          (sample_probe 41 8 100 0)))
  = Some "Field layer has wrong type".
Proof.
  apply (layer_change_without_layer_blocks_snapshots sample_config sample_state
           None (sample_probe 40 7 100 0) (sample_probe 41 8 100 0)).
  - reflexivity.
  - vm_compute. reflexivity.
  - vm_compute. reflexivity.
Defined.

(** ** Scheduler invariants *)

Lemma mcu_status_not_required : ~ In "mcu_status" required_names.
Proof.
  unfold required_names, required_fields. simpl. intros H.
  repeat (destruct H as [H|H]; [discriminate H|]). exact H.
Qed.

Lemma with_mcu_status_valid (c : config) (env : probe) (d : pydict) :
  is_valid c (with_mcu_status env d) = is_valid c (PDict d).
Proof.
  unfold is_valid, with_mcu_status.
  rewrite (verify_state_set_other_key c _ _ d mcu_status_not_required).
  reflexivity.
Qed.

(** The three ways a save attempt can end. *)
Lemma save_outcome (c : config) (st : plr) (env : probe) :
  _save_current_state c st env = st \/
  exists l d,
    index_from_end (state_history st) (save_delay c + 1) = Some l /\
    heap st !! l = Some (PDict d) /\
    ((_save_current_state c st env
        = set_heap (<[l := with_mcu_status env d]> (heap st)) st /\
      (is_valid c (PDict d) = false \/ store_accepts env = false)) \/
     (_save_current_state c st env
        = set_consecutive_failures 0
            (set_last_save_time (monotonic env)
               (set_resume_meta_info (Some (with_mcu_status env d))
                  (set_heap (<[l := with_mcu_status env d]> (heap st)) st))) /\
      is_valid c (PDict d) = true /\ store_accepts env = true)).
Proof.
  unfold _save_current_state.
  destruct (negb (is_active st)); [left; reflexivity|].
  destruct (resuming_print st); [left; reflexivity|].
  destruct (negb (power_loss_recovery_enabled st)); [left; reflexivity|].
  destruct (negb (save_variables st)); [left; reflexivity|].
  destruct (_ >? _); [|left; reflexivity].
  destruct (index_from_end _ _) as [l|]; [|left; reflexivity].
  destruct (heap st !! l) as [[| | | | |d]|] eqn:El; try (left; reflexivity).
  right. exists l, d. split; [reflexivity|]. split; [exact El|].
  fold (with_mcu_status env d). rewrite with_mcu_status_valid.
  destruct (is_valid c (PDict d)); cbn [negb]; [|left; auto].
  destruct (store_accepts env); cbn [negb]; [right; auto|left; auto].
Qed.

Lemma save_keeps_inv (c : config) (st : plr) (env : probe) :
  history_valid c st -> persisted_ok c st ->
  history_valid c (_save_current_state c st env) /\
  persisted_ok c (_save_current_state c st env).
Proof.
  intros Hv Hp.
  assert (Hheap : forall l d,
            heap st !! l = Some (PDict d) -> In l (state_history st) ->
            history_valid c
              (set_heap (<[l := with_mcu_status env d]> (heap st)) st)).
  { intros l d Hl Hin l' Hin'. simpl in Hin' |- *.
    destruct (decide (l = l')) as [<-|Hne].
    - rewrite lookup_insert_eq. eexists. split; [reflexivity|].
      rewrite with_mcu_status_valid.
      destruct (Hv l Hin) as (s & Hs & Vs). congruence.
    - rewrite lookup_insert_ne by exact Hne. apply Hv. exact Hin'. }
  destruct (save_outcome c st env)
    as [->|(l & d & Hi & Hl & [[-> _]|(-> & Hvalid & _)])].
  - auto.
  - split; [apply Hheap; [exact Hl|eapply index_from_end_In; exact Hi]|exact Hp].
  - split.
    + intros l' Hin'.
      apply (Hheap l d Hl (index_from_end_In _ _ _ Hi) l' Hin').
    + unfold persisted_ok. simpl. right.
      rewrite with_mcu_status_valid. exact Hvalid.
Qed.

Lemma deque_append_length (n : Z) (h : list loc) (x : loc) :
  1 <= n -> Z.of_nat (length h) <= n ->
  Z.of_nat (length (deque_append n h x)) <= n.
Proof.
  intros Hn Hh. unfold deque_append.
  destruct (Z.of_nat (length (h ++ [x])) >? n) eqn:E.
  - rewrite length_app in E. simpl in E.
    destruct h as [|y h]; simpl in *; [lia|].
    rewrite length_app. simpl. lia.
  - rewrite Z.gtb_ltb in E. apply Z.ltb_ge in E. exact E.
Qed.

Lemma deque_append_In (n : Z) (h : list loc) (x y : loc) :
  In y (deque_append n h x) -> In y h \/ y = x.
Proof.
  unfold deque_append. intros H.
  assert (H' : In y (h ++ [x])).
  { destruct (_ >? _); [|exact H].
    destruct (h ++ [x]); [destruct H|right; exact H]. }
  apply in_app_or in H' as [H'|[<-|[]]]; auto.
Qed.

Lemma tick_collect_keeps_inv (c : config) (st1 st2 : plr) (cf0 f : Z)
    (env : probe) :
  1 <= history_size c ->
  tick_collect c st1 cf0 env = (st2, f) ->
  history_valid c st1 -> history_bounded c st1 ->
  history_valid c st2 /\ history_bounded c st2.
Proof.
  intros Hn. unfold tick_collect.
  destruct (_collect_current_state c st1 env) as [s|];
    [destruct (is_valid c s) eqn:Vs|]; intros [= <- <-] Hv Hb; auto.
  split.
  - intros l Hin. simpl in Hin |- *.
    apply deque_append_In in Hin as [Hin| ->].
    + destruct (Hv l Hin) as (s' & Hs' & Vs').
      exists s'. split; [|exact Vs'].
      rewrite lookup_insert_ne; [exact Hs'|].
      intros <-. apply (is_fresh (dom (heap st1))). apply elem_of_dom. eauto.
    + rewrite lookup_insert_eq. eauto.
  - unfold history_bounded. simpl. apply deque_append_length; assumption.
Qed.

Lemma tick_activation_keeps_inv (c : config) (st st1 : plr) (cf0 : Z) (env : probe) :
  tick_activation st env = (st1, cf0) ->
  history_valid c st -> history_bounded c st ->
  0 <= history_size c ->
  history_valid c st1 /\ history_bounded c st1.
Proof.
  unfold tick_activation.
  destruct (negb _); [destruct (String.eqb _ _)|]; intros [= <- <-] Hv Hb Hn;
    auto.
  split; [intros l []|unfold history_bounded; simpl; lia].
Qed.

(** The three invariants are kept by every operation. *)
Lemma step_keeps_inv (c : config) (st : plr) (op : operation) :
  1 <= history_size c ->
  history_valid c st /\ history_bounded c st /\ persisted_ok c st ->
  history_valid c (step c st op) /\ history_bounded c (step c st op) /\
  persisted_ok c (step c st op).
Proof.
  intros Hn (Hv & Hb & Hp).
  assert (Hsave : forall st' env,
            history_valid c st' -> history_bounded c st' -> persisted_ok c st' ->
            history_valid c (_save_current_state c st' env) /\
            history_bounded c (_save_current_state c st' env) /\
            persisted_ok c (_save_current_state c st' env)).
  { intros st' env Hv' Hb' Hp'.
    destruct (save_keeps_inv c st' env Hv' Hp') as [H1 H2].
    split; [exact H1|]. split; [|exact H2].
    unfold history_bounded.
    rewrite (proj2 (proj2 (proj2 (save_keeps_flags c st' env)))). exact Hb'. }
  destruct op; simpl.
  - unfold _background_task.
    destruct (tick_activation st env) as [st1 cf0] eqn:Ha.
    destruct (tick_activation_keeps_inv c _ _ _ _ Ha Hv Hb ltac:(lia)) as [Hv1 Hb1].
    assert (Hp1 : persisted_ok c st1).
    { unfold persisted_ok.
      rewrite (proj1 (tick_activation_frame _ _ _ _ Ha)). exact Hp. }
    destruct (is_active st1 && negb (power_loss_recovery_enabled st1)); [auto|].
    destruct (is_active st1).
    + destruct (tick_collect c st1 cf0 env) as [st2 f] eqn:Hc.
      destruct (tick_collect_keeps_inv c _ _ _ _ _ Hn Hc Hv1 Hb1) as [Hv2 Hb2].
      assert (Hp2 : persisted_ok c st2).
      { unfold persisted_ok.
        rewrite (proj1 (tick_collect_frame _ _ _ _ _ _ Hc)). exact Hp1. }
      destruct (tick_should_save c st2 f (_last_save_attempt st) env).
      * destruct (Hsave (set_last_save_attempt (eventtime env) st2) env
                    Hv2 Hb2 Hp2) as (H1 & H2 & H3).
        destruct (negb (time_based_enabled c) || negb _); simpl; auto.
      * destruct (negb (time_based_enabled c) || negb _); simpl; auto.
    + destruct (negb (time_based_enabled c) || negb _); simpl; auto.
  - unfold _handle_layer_change.
    destruct (negb (save_on_layer c) || negb (is_active st)); [auto|].
    apply Hsave; destruct layer_height; assumption.
  - unfold _handle_activate_extruder.
    destruct (negb (is_active st)); [auto|]. apply Hsave; assumption.
  - apply Hsave; assumption.
  - auto.
  - auto.
  - unfold cmd_PLR_RESET_PRINT_DATA, _reset_state.
    destruct (negb (save_variables st)); [auto|].
    destruct (negb (store_accepts env)); [auto|].
    split; [exact Hv|]. split; [exact Hb|].
    unfold persisted_ok. simpl. left. reflexivity.
  - auto.
Qed.

Lemma run_keeps_inv (c : config) (ops : list operation) (st : plr) :
  1 <= history_size c ->
  history_valid c st /\ history_bounded c st /\ persisted_ok c st ->
  history_valid c (run c st ops) /\ history_bounded c (run c st ops) /\
  persisted_ok c (run c st ops).
Proof.
  intros Hn. revert st. unfold run.
  induction ops as [|op ops IH]; intros st Hinv; simpl; [exact Hinv|].
  apply IH. apply step_keeps_inv; assumption.
Qed.

Lemma init_inv (c : config) :
  0 <= history_size c ->
  history_valid c init_plr /\ history_bounded c init_plr /\ persisted_ok c init_plr.
Proof.
  intros Hn. split; [intros l []|].
  split; [unfold history_bounded; simpl; lia|exact I].
Qed.

(** ** The adaptive interval and the percentage on reachable states *)

(** C7. In every state whose history holds validated snapshots, and so in
    every state reached from construction, the computation completes and
    the interval is at least 3 seconds, and at least 5 seconds when the
    last extruder change is 5 seconds old or older, also for a configured
    base interval below the floor; whenever the computation raises, the
    configured base interval is returned as it is. *)
Theorem interval_floor (c : config) :
  (forall st env,
     history_valid c st ->
     (3 <= _optimize_background_interval c st env)%Q /\
     ((5 <= monotonic env - _last_extruder_change_time st)%Q ->
      (5 <= _optimize_background_interval c st env)%Q)) /\
  (forall ops env,
     1 <= history_size c ->
     (3 <= _optimize_background_interval c (run c init_plr ops) env)%Q /\
     ((5 <= monotonic env
            - _last_extruder_change_time (run c init_plr ops))%Q ->
      (5 <= _optimize_background_interval c (run c init_plr ops) env)%Q)) /\
  (forall st env,
     optimize_body c st env = None ->
     _optimize_background_interval c st env = save_interval c).
Proof.
  assert (Hfloor : forall st env,
            history_valid c st ->
            (3 <= _optimize_background_interval c st env)%Q /\
            ((5 <= monotonic env - _last_extruder_change_time st)%Q ->
             (5 <= _optimize_background_interval c st env)%Q)).
  { intros st env Hv.
    destruct (optimize_body_succeeds c st env Hv) as [v E].
    exact (completed_interval_floor c st env v E). }
  split; [exact Hfloor|]. split.
  - intros ops env Hn. apply Hfloor.
    exact (proj1 (run_keeps_inv c ops init_plr Hn (init_inv c ltac:(lia)))).
  - intros st env E. unfold _optimize_background_interval. rewrite E.
    reflexivity.
Qed.

Lemma interval_floor_witness :
  (save_interval sample_config_quick < 3)%Q /\
  (_optimize_background_interval sample_config_quick
     (run sample_config_quick init_plr
        [CmdEnable; Tick (sample_probe 1 1 100 0);
         Tick (sample_probe 2 2 100 0)])
     (sample_probe 100 3 100 0) == 5)%Q /\
  ((3 <= _optimize_background_interval sample_config_quick
           (run sample_config_quick init_plr
              [CmdEnable; Tick (sample_probe 1 1 100 0);
               Tick (sample_probe 2 2 100 0)])
           (sample_probe 100 3 100 0))%Q /\
   (5 <= _optimize_background_interval sample_config_quick
           (run sample_config_quick init_plr
              [CmdEnable; Tick (sample_probe 1 1 100 0);
               Tick (sample_probe 2 2 100 0)])
           (sample_probe 100 3 100 0))%Q) /\
  (_optimize_background_interval sample_config_quick
     (run sample_config_quick init_plr
        [CmdEnable; Tick (sample_probe 1 1 100 0);
         ActivateExtruder (sample_probe 2 2 100 0)])
     (sample_probe 3 3 100 0) == 3)%Q /\
  (3 <= _optimize_background_interval sample_config_quick
          (run sample_config_quick init_plr
             [CmdEnable; Tick (sample_probe 1 1 100 0);
              ActivateExtruder (sample_probe 2 2 100 0)])
          (sample_probe 3 3 100 0))%Q.
Proof.
  split; [reflexivity|]. split; [vm_compute; reflexivity|].
  split; [|split; [vm_compute; reflexivity|]].
  - pose proof (proj1 (proj2 (interval_floor sample_config_quick))
                  [CmdEnable; Tick (sample_probe 1 1 100 0);
                   Tick (sample_probe 2 2 100 0)]
                  (sample_probe 100 3 100 0)) as H.
    destruct H as [H3 H5]; [vm_compute; discriminate|].
    split; [exact H3|]. apply H5. vm_compute. discriminate.
  - refine (proj1 (proj1 (proj2 (interval_floor sample_config_quick))
                     [CmdEnable; Tick (sample_probe 1 1 100 0);
                      ActivateExtruder (sample_probe 2 2 100 0)]
                     (sample_probe 3 3 100 0) _)).
    vm_compute. discriminate.
Defined.

(** C6 (as amended). The percentage of a collected snapshot is
    [position / total_size * 100] rounded to two decimals when
    [total_size > 0] (a number of hundredths at most half a hundredth
    away from it), and 0 otherwise. It is not clamped: it lies in
    [0, 100] when [0 <= position <= total_size], and a snapshot whose
    percentage lies outside [0, 100] is rejected by the validator and
    never enters the history: the tick that collected it leaves the
    instance as it is and counts a failure, and in every state reached
    from construction every entry of the history has its percentage in
    [0, 100]. *)
Theorem collected_progress_pct (c : config) :
  (forall st env snapshot,
     _collect_current_state c st env = Some snapshot ->
     exists r p,
       sensors env = Some r /\
       snapshot_progress_pct snapshot = Some p /\
       (0 < r_file_size r ->
        (exists k : Z, (p == k # 100)%Q) /\
        (p - (1 # 200)
         <= inject_Z (r_file_position r) / inject_Z (r_file_size r) * 100)%Q /\
        (inject_Z (r_file_position r) / inject_Z (r_file_size r) * 100
         <= p + (1 # 200))%Q) /\
       (r_file_size r <= 0 -> p = 0%Q) /\
       (0 <= r_file_position r <= r_file_size r ->
        (0 <= p)%Q /\ (p <= 100)%Q) /\
       (~ ((0 <= p)%Q /\ (p <= 100)%Q) ->
        is_valid c snapshot = false /\
        forall consecutive_failures,
          tick_collect c st consecutive_failures env
          = (st, consecutive_failures + 1))) /\
  (forall ops l s,
     1 <= history_size c ->
     In l (state_history (run c init_plr ops)) ->
     heap (run c init_plr ops) !! l = Some s ->
     exists p,
       snapshot_progress_pct s = Some p /\ (0 <= p)%Q /\ (p <= 100)%Q).
Proof.
  split.
  - intros st env snapshot Hc.
    destruct (collected_progress c st env snapshot Hc) as (r & Hr & Hp).
    assert (Hrej : forall p, snapshot_progress_pct snapshot = Some p ->
              ~ ((0 <= p)%Q /\ (p <= 100)%Q) ->
              is_valid c snapshot = false /\
              forall cf, tick_collect c st cf env = (st, cf + 1)).
    { intros p Hp' Hout.
      assert (Hv : is_valid c snapshot = false).
      { destruct (is_valid c snapshot) eqn:Ev; [|reflexivity].
        destruct (valid_progress_in_range c snapshot Ev) as (q & Hq & H).
        rewrite Hp' in Hq. injection Hq as <-. contradiction. }
      split; [exact Hv|]. intros cf. unfold tick_collect. rewrite Hc, Hv.
      reflexivity. }
    unfold progress_pct_of in Hp.
    destruct (r_file_size r >? 0) eqn:Es.
    + apply Z.gtb_lt in Es. simpl in Hp.
      eexists r, _. split; [exact Hr|]. split; [exact Hp|].
      split; [intros _; apply py_round_2_near|]. split; [lia|]. split.
      * intros Hpos. destruct (ratio_range _ _ Hpos Es) as [H0 H1].
        apply py_round_2_range; assumption.
      * apply Hrej. exact Hp.
    + assert (Es' : r_file_size r <= 0)
        by (rewrite Z.gtb_ltb in Es; apply Z.ltb_ge in Es; exact Es).
      simpl in Hp.
      eexists r, _. split; [exact Hr|]. split; [exact Hp|].
      split; [lia|]. split; [reflexivity|].
      split; [intros _; split; discriminate|].
      apply Hrej. exact Hp.
  - intros ops l s Hn Hin Hs.
    destruct (proj1 (run_keeps_inv c ops init_plr Hn (init_inv c ltac:(lia)))
                l Hin) as (s' & Hs' & Hv).
    rewrite Hs in Hs'. injection Hs' as <-.
    exact (valid_progress_in_range c s Hv).
Qed.

Lemma collected_progress_pct_witness :
  (exists r p,
     sensors (sample_probe 1 107 4000 0) = Some r /\
     snapshot_progress_pct
       (default PNone (_collect_current_state sample_config init_plr
                         (sample_probe 1 107 4000 0))) = Some p /\
     ((exists k : Z, (p == k # 100)%Q) /\
      (p - (1 # 200)
       <= inject_Z (r_file_position r) / inject_Z (r_file_size r) * 100)%Q /\
      (inject_Z (r_file_position r) / inject_Z (r_file_size r) * 100
       <= p + (1 # 200))%Q) /\
     (0 <= p)%Q /\ (p <= 100)%Q) /\
  (is_valid sample_config
     (default PNone (_collect_current_state sample_config init_plr
                       (sample_probe 1 2 1 0))) = false /\
   forall consecutive_failures,
     tick_collect sample_config init_plr consecutive_failures
       (sample_probe 1 2 1 0)
     = (init_plr, consecutive_failures + 1)).
Proof.
  split.
  - destruct (proj1 (collected_progress_pct sample_config) init_plr
                (sample_probe 1 107 4000 0)
                (default PNone (_collect_current_state sample_config init_plr
                                  (sample_probe 1 107 4000 0))) eq_refl)
      as (r & p & Hr & Hp & Hnear & _ & Hrange & _).
    exists r, p. split; [exact Hr|]. split; [exact Hp|].
    injection Hr as <-. split.
    + apply Hnear. simpl. lia.
    + apply Hrange. simpl. lia.
  - destruct (proj1 (collected_progress_pct sample_config) init_plr
                (sample_probe 1 2 1 0)
                (default PNone (_collect_current_state sample_config init_plr
                                  (sample_probe 1 2 1 0))) eq_refl)
      as (r & p & _ & Hp & _ & _ & _ & Hrej).
    apply Hrej.
    assert (E : snapshot_progress_pct
                  (default PNone (_collect_current_state sample_config init_plr
                                    (sample_probe 1 2 1 0))) = Some 200%Q)
      by (vm_compute; reflexivity).
    rewrite E in Hp. injection Hp as <-.
    intros [_ H]. apply H. reflexivity.
Defined.

(** X5. From construction on, whatever operations run, the history never
    holds more than [history_size] entries. *)
Theorem history_never_exceeds_capacity (c : config) (ops : list operation) :
  1 <= history_size c ->
  Z.of_nat (length (state_history (run c init_plr ops))) <= history_size c.
Proof.
  intros Hn.
  exact (proj1 (proj2 (run_keeps_inv c ops init_plr Hn
                         (init_inv c ltac:(lia))))).
Qed.

Lemma history_never_exceeds_capacity_witness :
  Z.of_nat
    (length (state_history
               (run sample_config init_plr
                  [CmdEnable; Tick (sample_probe 40 7 100 0)])))
  <= history_size sample_config.
Proof.
  apply (history_never_exceeds_capacity sample_config
           [CmdEnable; Tick (sample_probe 40 7 100 0)]).
  vm_compute. discriminate.
Defined.

(** X6. From construction on, every entry of the history refers to a
    stored snapshot that the validator accepts as it now is, also after
    save attempts have written ['mcu_status'] into it. *)
Theorem history_entries_stay_valid (c : config) (ops : list operation) (l : loc) :
  1 <= history_size c ->
  In l (state_history (run c init_plr ops)) ->
  exists s, heap (run c init_plr ops) !! l = Some s /\ _verify_state c s = None.
Proof.
  intros Hn Hin.
  destruct (proj1 (run_keeps_inv c ops init_plr Hn (init_inv c ltac:(lia))) l Hin)
    as (s & Hs & Vs).
  exists s. split; [exact Hs|].
  unfold is_valid in Vs. destruct (_verify_state c s); [discriminate|reflexivity].
Qed.

Lemma history_entries_stay_valid_witness :
  exists s,
    heap (run sample_config init_plr
            [CmdEnable; Tick (sample_probe 40 7 100 0)]) !! 0%nat = Some s /\
    _verify_state sample_config s = None.
Proof.
  apply (history_entries_stay_valid sample_config
           [CmdEnable; Tick (sample_probe 40 7 100 0)] 0%nat).
  - vm_compute. discriminate.
  - vm_compute. auto.
Defined.

Lemma valid_is_truthy (c : config) (v : pyval) :
  is_valid c v = true -> truthy v = true.
Proof.
  intros Hv. destruct (is_valid_inv c v Hv) as (d & -> & Hc).
  destruct d; [discriminate Hc|reflexivity].
Qed.

(** X7. From construction on, the persisted checkpoint is absent, or the
    empty dictionary written by a reset, or a state that
    [_get_saved_state] hands back unchanged: every checkpoint a save wrote
    passes the validation done when it is read for a resume. *)
Theorem persisted_checkpoint_loads (c : config) (ops : list operation) :
  1 <= history_size c ->
  match resume_meta_info (run c init_plr ops) with
  | None => True
  | Some v =>
      (v = PDict [] /\ _get_saved_state c (Some v) = None) \/
      _get_saved_state c (Some v) = Some v
  end.
Proof.
  intros Hn.
  pose proof (proj2 (proj2 (run_keeps_inv c ops init_plr Hn
                              (init_inv c ltac:(lia))))) as Hp.
  unfold persisted_ok in Hp.
  destruct (resume_meta_info (run c init_plr ops)) as [v|]; [|exact I].
  destruct Hp as [->|Hv].
  - left. split; reflexivity.
  - right. unfold _get_saved_state.
    rewrite (valid_is_truthy c v Hv), Hv. reflexivity.
Qed.

Lemma persisted_checkpoint_loads_witness :
  match resume_meta_info
          (run sample_config init_plr
             [CmdEnable; Tick (sample_probe 40 7 100 0);
              Tick (sample_probe 80 8 100 0);
              Tick (sample_probe 120 9 100 0)]) with
  | None => True
  | Some v =>
      (v = PDict [] /\ _get_saved_state sample_config (Some v) = None) \/
      _get_saved_state sample_config (Some v) = Some v
  end.
Proof.
  apply (persisted_checkpoint_loads sample_config
           [CmdEnable; Tick (sample_probe 40 7 100 0);
            Tick (sample_probe 80 8 100 0);
            Tick (sample_probe 120 9 100 0)]).
  vm_compute. discriminate.
Defined.

(** ** Save attempts *)

(** X8. In an active, enabled state with no resume in progress, on a
    history of validated snapshots holding more entries than both the
    computed and the configured delay, a save attempt whose store write
    succeeds persists the entry at index [save_delay] from the newest
    (with ['mcu_status'] set), records the time of the save and clears
    the failure counter. *)
Theorem save_persists_on_valid_history (c : config) (st : plr) (env : probe) :
  history_valid c st ->
  is_active st = true -> resuming_print st = false ->
  power_loss_recovery_enabled st = true -> save_variables st = true ->
  _calculate_optimal_delay c (lag_probe env) < Z.of_nat (length (state_history st)) ->
  0 <= save_delay c < Z.of_nat (length (state_history st)) ->
  store_accepts env = true ->
  exists d,
    peek_from_end st (save_delay c) = Some (PDict d) /\
    resume_meta_info (_save_current_state c st env)
      = Some (with_mcu_status env d) /\
    last_save_time (_save_current_state c st env) = monotonic env /\
    _consecutive_failures (_save_current_state c st env) = 0.
Proof.
  intros Hv Ha Hr He Hs Hopt Hd Hstore.
  destruct (index_from_end_is_Some (state_history st) (save_delay c + 1)
              ltac:(lia)) as [l Hl].
  destruct (Hv l (index_from_end_In _ _ _ Hl)) as (s & Hs' & Vs).
  destruct (is_valid_inv c s Vs) as (d & -> & _).
  exists d. split; [unfold peek_from_end; rewrite Hl; exact Hs'|].
  unfold _save_current_state. rewrite Ha, Hr, He, Hs. cbn [negb].
  replace (Z.of_nat (length (state_history st)) >?
           _calculate_optimal_delay c (lag_probe env)) with true
    by (symmetry; apply Z.gtb_lt; exact Hopt).
  rewrite Hl, Hs'. fold (with_mcu_status env d).
  rewrite with_mcu_status_valid, Vs, Hstore. cbn [negb]. auto.
Qed.

Lemma save_persists_on_valid_history_witness :
  exists d,
    peek_from_end
      (run sample_config init_plr
         [CmdEnable; Tick (sample_probe 1 1 100 0); Tick (sample_probe 2 2 100 0);
          Tick (sample_probe 3 3 100 0)])
      (save_delay sample_config) = Some (PDict d) /\
    resume_meta_info
      (_save_current_state sample_config
         (run sample_config init_plr
            [CmdEnable; Tick (sample_probe 1 1 100 0);
             Tick (sample_probe 2 2 100 0); Tick (sample_probe 3 3 100 0)])
         (sample_probe 4 4 100 0))
      = Some (with_mcu_status (sample_probe 4 4 100 0) d) /\
    last_save_time
      (_save_current_state sample_config
         (run sample_config init_plr
            [CmdEnable; Tick (sample_probe 1 1 100 0);
             Tick (sample_probe 2 2 100 0); Tick (sample_probe 3 3 100 0)])
         (sample_probe 4 4 100 0))
      = monotonic (sample_probe 4 4 100 0) /\
    _consecutive_failures
      (_save_current_state sample_config
         (run sample_config init_plr
            [CmdEnable; Tick (sample_probe 1 1 100 0);
             Tick (sample_probe 2 2 100 0); Tick (sample_probe 3 3 100 0)])
         (sample_probe 4 4 100 0)) = 0.
Proof.
  apply (save_persists_on_valid_history sample_config
           (run sample_config init_plr
              [CmdEnable; Tick (sample_probe 1 1 100 0);
               Tick (sample_probe 2 2 100 0); Tick (sample_probe 3 3 100 0)])
           (sample_probe 4 4 100 0)).
  - apply (run_keeps_inv sample_config _ init_plr);
      [vm_compute; discriminate|apply init_inv; vm_compute; discriminate].
  - vm_compute. reflexivity.
  - vm_compute. reflexivity.
  - vm_compute. reflexivity.
  - vm_compute. reflexivity.
  - vm_compute. reflexivity.
  - split; vm_compute; [discriminate|reflexivity].
  - reflexivity.
Defined.

(** X9. When the store write raises during an operation, the operation
    leaves the persisted checkpoint and the time of the last successful
    save as they were. *)
Theorem store_failure_keeps_checkpoint (c : config) (st : plr) (op : operation)
    (env : probe) :
  op_probe op = Some env -> store_accepts env = false ->
  resume_meta_info (step c st op) = resume_meta_info st /\
  last_save_time (step c st op) = last_save_time st.
Proof.
  intros Hop Hstore.
  assert (Hsave : forall st',
            resume_meta_info (_save_current_state c st' env) = resume_meta_info st' /\
            last_save_time (_save_current_state c st' env) = last_save_time st').
  { intros st'.
    destruct (save_outcome c st' env)
      as [->|(l & d & _ & _ & [[-> _]|(_ & _ & Hacc)])]; [auto|auto|congruence]. }
  destruct op; simpl in Hop; try discriminate; injection Hop as ->; simpl.
  - unfold _background_task.
    destruct (tick_activation st env) as [st1 cf0] eqn:Ha.
    destruct (tick_activation_frame _ _ _ _ Ha) as (R1 & _ & T1 & _ & _).
    destruct (is_active st1 && negb (power_loss_recovery_enabled st1)); [auto|].
    destruct (is_active st1).
    + destruct (tick_collect c st1 cf0 env) as [st2 f] eqn:Hc.
      destruct (tick_collect_frame _ _ _ _ _ _ Hc) as (R2 & _ & T2 & _ & _).
      destruct (tick_should_save c st2 f (_last_save_attempt st) env).
      * destruct (Hsave (set_last_save_attempt (eventtime env) st2)) as [H1 H2].
        destruct (negb (time_based_enabled c) || negb _); simpl;
          rewrite ?H1, ?H2; simpl; split; congruence.
      * destruct (negb (time_based_enabled c) || negb _); simpl; split; congruence.
    + destruct (negb (time_based_enabled c) || negb _); simpl; auto.
  - unfold _handle_layer_change.
    destruct (negb (save_on_layer c) || negb (is_active st)); [auto|].
    destruct (Hsave (match layer_height with
                     | Some h => set_current_z_height h
                                   (set_last_layer_change_time (monotonic env)
                                      (set_last_layer layer st))
                     | None => set_last_layer_change_time (monotonic env)
                                 (set_last_layer layer st)
                     end)) as [H1 H2].
    rewrite H1, H2. destruct layer_height; auto.
  - unfold _handle_activate_extruder.
    destruct (negb (is_active st)); [auto|].
    destruct (Hsave (set_last_extruder_change_time (monotonic env) st)) as [H1 H2].
    rewrite H1, H2. auto.
  - apply Hsave.
  - unfold cmd_PLR_RESET_PRINT_DATA, _reset_state. rewrite Hstore.
    destruct (negb (save_variables st)); auto.
Qed.

Lemma store_failure_keeps_checkpoint_witness :
  resume_meta_info
    (step sample_config sample_state
       (Tick (mkProbe 40 40 "printing" (Some (sample_readings 7 100))
                (Some (0, 0)%Q) None false)))
  = resume_meta_info sample_state /\
  last_save_time
    (step sample_config sample_state
       (Tick (mkProbe 40 40 "printing" (Some (sample_readings 7 100))
                (Some (0, 0)%Q) None false)))
  = last_save_time sample_state.
Proof.
  apply (store_failure_keeps_checkpoint sample_config sample_state
           (Tick (mkProbe 40 40 "printing" (Some (sample_readings 7 100))
                    (Some (0, 0)%Q) None false))
           (mkProbe 40 40 "printing" (Some (sample_readings 7 100))
              (Some (0, 0)%Q) None false)); reflexivity.
Defined.

(** X10. While a resume is in progress ([resuming_print] set by
    PLR_RESUME_PRINT), none of the tick, the event handlers and the save,
    enable, disable, reset and resume commands clears the flag, and none
    of the save paths writes the persisted checkpoint. *)
Theorem resuming_blocks_saving (c : config) (st : plr) (op : operation) :
  resuming_print st = true ->
  resuming_print (step c st op) = true /\
  (is_save_path op = true ->
   resume_meta_info (step c st op) = resume_meta_info st).
Proof.
  intros Hr.
  assert (Hsave : forall st' env,
            resuming_print st' = true -> _save_current_state c st' env = st').
  { intros st' env H. unfold _save_current_state. rewrite H.
    destruct (negb (is_active st')); reflexivity. }
  destruct op; simpl.
  - unfold _background_task.
    destruct (tick_activation st env) as [st1 cf0] eqn:Ha.
    assert (Hr1 : resuming_print st1 = true).
    { revert Ha. unfold tick_activation.
      destruct (negb _); [destruct (String.eqb _ _)|]; intros [= <- _]; exact Hr. }
    destruct (tick_activation_frame _ _ _ _ Ha) as (R1 & _).
    destruct (is_active st1 && negb (power_loss_recovery_enabled st1)); [auto|].
    destruct (is_active st1).
    + destruct (tick_collect c st1 cf0 env) as [st2 f] eqn:Hc.
      assert (Hr2 : resuming_print st2 = true).
      { revert Hc. unfold tick_collect.
        destruct (_collect_current_state c st1 env) as [s|];
          [destruct (is_valid c s)|]; intros [= <- _]; exact Hr1. }
      destruct (tick_collect_frame _ _ _ _ _ _ Hc) as (R2 & _).
      destruct (tick_should_save c st2 f (_last_save_attempt st) env).
      * rewrite Hsave by exact Hr2.
        destruct (negb (time_based_enabled c) || negb _); simpl;
          (split; [exact Hr2|intros _; congruence]).
      * destruct (negb (time_based_enabled c) || negb _); simpl;
          (split; [exact Hr2|intros _; congruence]).
    + destruct (negb (time_based_enabled c) || negb _); simpl; auto.
  - unfold _handle_layer_change.
    destruct (negb (save_on_layer c) || negb (is_active st)); [auto|].
    rewrite Hsave by (destruct layer_height; exact Hr).
    destruct layer_height; auto.
  - unfold _handle_activate_extruder.
    destruct (negb (is_active st)); [auto|]. rewrite Hsave by exact Hr. auto.
  - unfold cmd_PLR_SAVE_PRINT_STATE. rewrite Hsave by exact Hr. auto.
  - split; [exact Hr|discriminate].
  - split; [exact Hr|discriminate].
  - unfold cmd_PLR_RESET_PRINT_DATA, _reset_state. split; [|discriminate].
    destruct (negb (save_variables st)); [exact Hr|].
    destruct (negb (store_accepts env)); exact Hr.
  - split; [reflexivity|discriminate].
Qed.

Lemma resuming_blocks_saving_witness :
  resuming_print
    (step sample_config (step sample_config sample_state CmdResume)
       (CmdSave (sample_probe 40 7 100 0))) = true /\
  (is_save_path (CmdSave (sample_probe 40 7 100 0)) = true ->
   resume_meta_info
     (step sample_config (step sample_config sample_state CmdResume)
        (CmdSave (sample_probe 40 7 100 0)))
   = resume_meta_info (step sample_config sample_state CmdResume)).
Proof.
  apply (resuming_blocks_saving sample_config
           (step sample_config sample_state CmdResume)
           (CmdSave (sample_probe 40 7 100 0))).
  reflexivity.
Defined.

(** ** The tick *)

Lemma optimize_lower_bound (c : config) (st : plr) (env : probe) (v : Q) :
  optimize_body c st env = Some v -> (3 <= v)%Q.
Proof.
  unfold optimize_body.
  destruct (last_two st) as [recent|]; [|discriminate]. simpl.
  match goal with
  | |- (?m ≫= _) = _ -> _ => destruct m as [interval|]; [|discriminate]
  end.
  simpl. intros [= <-].
  destruct (Qltb (monotonic env - _last_extruder_change_time st) 5).
  - apply py_max_lower.
  - eapply Qle_trans; [|apply py_max_lower]. discriminate.
Qed.

(** X11. The tick always asks to be woken strictly later than the time it
    ran at: one second later when nothing is printing, when time-based
    saving is off or when recovery is disabled during a print, and
    otherwise after the adaptive interval, which is positive. *)
Theorem tick_reschedules_later (c : config) (st : plr) (env : probe) :
  (eventtime env < snd (_background_task c st env))%Q /\
  (print_stats_state env <> "printing" \/ time_based_enabled c = false ->
   snd (_background_task c st env) = (eventtime env + 1)%Q).
Proof.
  assert (H1 : (eventtime env < eventtime env + 1)%Q).
  { rewrite <- (Qplus_0_r (eventtime env)) at 1.
    apply Qplus_lt_r. reflexivity. }
  unfold _background_task.
  destruct (tick_activation st env) as [st1 cf0].
  destruct (is_active st1 && negb (power_loss_recovery_enabled st1)) eqn:Eearly.
  - simpl. split; [exact H1|reflexivity].
  - match goal with
    | |- context [let '(st, consecutive_failures) := ?X in _] =>
        destruct X as [st3 cf]
    end.
    destruct (time_based_enabled c) eqn:Et; simpl.
    + destruct (String.eqb (print_stats_state env) "printing") eqn:Ep; simpl.
      * split.
        -- rewrite <- (Qplus_0_r (eventtime env)) at 1. apply Qplus_lt_r.
           unfold _optimize_background_interval.
           destruct (optimize_body c _ env) as [v|] eqn:Eb.
           ++ apply Qlt_le_trans with 3%Q; [reflexivity|].
              eapply optimize_lower_bound. exact Eb.
           ++ apply Qltb_lt. exact Et.
        -- intros [Hne|Hf]; [|discriminate].
           apply String.eqb_eq in Ep. contradiction.
      * split; [exact H1|reflexivity].
    + split; [exact H1|reflexivity].
Qed.

Lemma tick_reschedules_later_witness :
  snd (_background_task sample_config init_plr
         (mkProbe 7 7 "standby" None None None true)) = (7 + 1)%Q.
Proof.
  apply (proj2 (tick_reschedules_later sample_config init_plr
                  (mkProbe 7 7 "standby" None None None true))).
  left. discriminate.
Defined.

(** X12. When a print starts (the job state becomes "printing" while the
    instance was inactive), the tick activates the instance and discards
    the stale history: afterwards the history holds at most the one
    snapshot collected in this tick, which is not any of the earlier
    stored objects. *)
Theorem print_start_clears_history (c : config) (st : plr) (env : probe) :
  is_active st = false ->
  print_stats_state env = "printing" ->
  is_active (fst (_background_task c st env)) = true /\
  (length (state_history (fst (_background_task c st env))) <= 1)%nat /\
  (forall l, In l (state_history (fst (_background_task c st env))) ->
             heap st !! l = None).
Proof.
  intros Ha Hp. unfold _background_task, tick_activation.
  rewrite Hp, Ha. simpl.
  destruct (power_loss_recovery_enabled st) eqn:He; simpl.
  - unfold tick_collect.
    destruct (_collect_current_state c _ env) as [s|]; [destruct (is_valid c s)|].
    + set (st2 := set_state_history _ _).
      assert (Hh : state_history st2 = deque_append (history_size c) [] (fresh (dom (heap st))))
        by reflexivity.
      assert (Hfresh : forall l, In l (state_history st2) -> heap st !! l = None).
      { intros l Hin. rewrite Hh in Hin.
        apply deque_append_In in Hin as [[]| ->].
        apply not_elem_of_dom. apply is_fresh. }
      assert (Hlen : (length (state_history st2) <= 1)%nat).
      { rewrite Hh. unfold deque_append. destruct (_ >? _); simpl; lia. }
      assert (Hact : is_active st2 = true) by reflexivity.
      destruct (tick_should_save c st2 0 (_last_save_attempt st) env).
      * destruct (save_keeps_flags c (set_last_save_attempt (eventtime env) st2) env)
          as (_ & A & _ & H).
        destruct (negb (time_based_enabled c)); simpl; rewrite ?A, ?H; simpl; auto.
      * destruct (negb (time_based_enabled c)); simpl; auto.
    + match goal with
      | |- context [tick_should_save ?a ?b ?cc ?d ?e] =>
          destruct (tick_should_save a b cc d e)
      end.
      * match goal with
        | |- context [_save_current_state c ?s env] =>
            destruct (save_keeps_flags c s env) as (_ & A & _ & H)
        end.
        destruct (negb (time_based_enabled c)); simpl; rewrite ?A, ?H; simpl;
          (split; [reflexivity|split; [lia|intros l []]]).
      * destruct (negb (time_based_enabled c)); simpl;
          (split; [reflexivity|split; [lia|intros l []]]).
    + match goal with
      | |- context [tick_should_save ?a ?b ?cc ?d ?e] =>
          destruct (tick_should_save a b cc d e)
      end.
      * match goal with
        | |- context [_save_current_state c ?s env] =>
            destruct (save_keeps_flags c s env) as (_ & A & _ & H)
        end.
        destruct (negb (time_based_enabled c)); simpl; rewrite ?A, ?H; simpl;
          (split; [reflexivity|split; [lia|intros l []]]).
      * destruct (negb (time_based_enabled c)); simpl;
          (split; [reflexivity|split; [lia|intros l []]]).
  - split; [reflexivity|]. split; [lia|intros l []].
Qed.


Lemma print_start_clears_history_witness :
  state_history sample_state_stale = [0%nat; 1%nat] /\
  (exists s, heap sample_state_stale !! 1%nat = Some s) /\
  is_active (fst (_background_task sample_config sample_state_stale
                    (sample_probe 10 1 100 0))) = true /\
  (length (state_history
             (fst (_background_task sample_config sample_state_stale
                     (sample_probe 10 1 100 0)))) <= 1)%nat /\
  (forall l,
     In l (state_history
             (fst (_background_task sample_config sample_state_stale
                     (sample_probe 10 1 100 0)))) ->
     heap sample_state_stale !! l = None).
Proof.
  split; [vm_compute; reflexivity|].
  split; [vm_compute; eexists; reflexivity|].
  apply (print_start_clears_history sample_config sample_state_stale
           (sample_probe 10 1 100 0)).
  - vm_compute. reflexivity.
  - reflexivity.
Defined.

(** ** History buffer *)

Lemma index_from_end_in_range {A : Type} (l : list A) (k : Z) :
  1 <= k <= Z.of_nat (length l) ->
  index_from_end l k = l !! Z.to_nat (Z.of_nat (length l) - k).
Proof.
  intros Hk. unfold index_from_end.
  replace ((1 <=? k) && (k <=? Z.of_nat (length l))) with true
    by (symmetry; apply andb_true_iff; split; apply Z.leb_le; lia).
  reflexivity.
Qed.

Lemma index_from_end_beyond {A : Type} (l : list A) (k : Z) :
  Z.of_nat (length l) < k -> index_from_end l k = None.
Proof.
  intros Hk. unfold index_from_end.
  replace (k <=? Z.of_nat (length l)) with false
    by (symmetry; apply Z.leb_gt; lia).
  rewrite andb_false_r. reflexivity.
Qed.

Lemma index_from_end_snoc_newest (l : list loc) (x : loc) :
  index_from_end (l ++ [x]) 1 = Some x.
Proof.
  rewrite index_from_end_in_range by (rewrite length_app; simpl; lia).
  rewrite length_app. simpl length.
  replace (Z.to_nat (Z.of_nat (length l + 1) - 1)) with (length l + 0)%nat by lia.
  rewrite lookup_app_r by lia.
  replace (length l + 0 - length l)%nat with 0%nat by lia. reflexivity.
Qed.

Lemma index_from_end_snoc_shift (l : list loc) (x : loc) (k : Z) :
  1 <= k -> index_from_end (l ++ [x]) (k + 1) = index_from_end l k.
Proof.
  intros Hk. destruct (Z_le_gt_dec k (Z.of_nat (length l))) as [Hle|Hgt].
  - rewrite !index_from_end_in_range by (rewrite ?length_app; simpl; lia).
    rewrite length_app. simpl length.
    replace (Z.to_nat (Z.of_nat (length l + 1) - (k + 1)))
      with (Z.to_nat (Z.of_nat (length l) - k)) by lia.
    apply lookup_app_l. lia.
  - rewrite !index_from_end_beyond by (rewrite ?length_app; simpl; lia).
    reflexivity.
Qed.

Lemma deque_append_newest (n : Z) (h : list loc) (x : loc) :
  1 <= n -> Z.of_nat (length h) <= n ->
  index_from_end (deque_append n h x) 1 = Some x.
Proof.
  intros Hn Hh. unfold deque_append.
  destruct (_ >? _) eqn:E; [|apply index_from_end_snoc_newest].
  destruct h as [|y h']; [|apply index_from_end_snoc_newest].
  simpl in E. apply Z.gtb_lt in E. lia.
Qed.

Lemma deque_append_shift (n : Z) (h : list loc) (x : loc) (k : Z) :
  1 <= k -> k + 1 <= n -> Z.of_nat (length h) <= n ->
  index_from_end (deque_append n h x) (k + 1) = index_from_end h k.
Proof.
  intros Hk Hkn Hh. unfold deque_append.
  destruct (_ >? _) eqn:E; [|apply index_from_end_snoc_shift; exact Hk].
  apply Z.gtb_lt in E. rewrite length_app in E. simpl length in E.
  destruct h as [|y h']; [simpl in *; lia|].
  change (tail ((y :: h') ++ [x])) with (h' ++ [x]).
  rewrite index_from_end_snoc_shift by exact Hk.
  simpl length in *.
  rewrite !index_from_end_in_range by (simpl length; lia).
  simpl length.
  replace (Z.to_nat (Z.of_nat (S (length h')) - k))
    with (S (Z.to_nat (Z.of_nat (length h') - k))) by lia.
  reflexivity.
Qed.

(** X13. A valid snapshot collected by the tick becomes the newest entry
    of the history and resets the local failure count; every entry that
    still fits moves one place back, so that the entry formerly at index
    [k] from the newest is at index [k + 1], and the oldest entry of a full
    history is the one dropped. *)
Theorem valid_snapshot_is_pushed (c : config) (st : plr) (cf : Z)
    (env : probe) (s : pyval) :
  _collect_current_state c st env = Some s ->
  is_valid c s = true ->
  1 <= history_size c ->
  history_valid c st -> history_bounded c st ->
  snd (tick_collect c st cf env) = 0 /\
  peek_from_end (fst (tick_collect c st cf env)) 0 = Some s /\
  (forall k, 0 <= k -> k + 2 <= history_size c ->
     peek_from_end (fst (tick_collect c st cf env)) (k + 1)
     = peek_from_end st k) /\
  Z.of_nat (length (state_history (fst (tick_collect c st cf env))))
  = Z.min (Z.of_nat (length (state_history st)) + 1) (history_size c).
Proof.
  intros Hc Hs Hn Hv Hb. unfold tick_collect. rewrite Hc, Hs. simpl.
  split; [reflexivity|]. unfold peek_from_end. simpl. split; [|split].
  - rewrite deque_append_newest by assumption. simpl. apply lookup_insert_eq.
  - intros k Hk Hkn.
    replace (k + 1 + 1) with ((k + 1) + 1) by lia.
    rewrite deque_append_shift by (assumption || lia).
    destruct (index_from_end (state_history st) (k + 1)) as [l|] eqn:El;
      [|reflexivity].
    simpl. apply lookup_insert_ne. intros <-.
    destruct (Hv _ (index_from_end_In _ _ _ El)) as (s' & Hs' & _).
    apply (is_fresh (dom (heap st))). apply elem_of_dom. eauto.
  - unfold history_bounded in Hb. unfold deque_append.
    destruct (_ >? _) eqn:E.
    + apply Z.gtb_lt in E. rewrite length_app in E. simpl length in E.
      destruct (state_history st) as [|y h']; [simpl length in *; lia|].
      cbn [app tail]. rewrite length_app. simpl length in *. lia.
    + rewrite Z.gtb_ltb in E. apply Z.ltb_ge in E.
      rewrite length_app in E |- *. simpl length in *. lia.
Qed.

Lemma valid_snapshot_is_pushed_witness :
  snd (tick_collect sample_config
         (run sample_config init_plr [CmdEnable; Tick (sample_probe 1 1 100 0)])
         3 (sample_probe 40 7 100 0)) = 0 /\
  peek_from_end
    (fst (tick_collect sample_config
            (run sample_config init_plr
               [CmdEnable; Tick (sample_probe 1 1 100 0)])
            3 (sample_probe 40 7 100 0))) 1
  = peek_from_end
      (run sample_config init_plr [CmdEnable; Tick (sample_probe 1 1 100 0)]) 0.
Proof.
  assert (Hn : 1 <= history_size sample_config) by (vm_compute; discriminate).
  pose proof (run_keeps_inv sample_config
                [CmdEnable; Tick (sample_probe 1 1 100 0)] init_plr Hn
                (init_inv sample_config ltac:(vm_compute; discriminate)))
    as (Hv & Hb & _).
  destruct (valid_snapshot_is_pushed sample_config
              (run sample_config init_plr
                 [CmdEnable; Tick (sample_probe 1 1 100 0)])
              3 (sample_probe 40 7 100 0)
              (default PNone
                 (_collect_current_state sample_config init_plr
                    (sample_probe 40 7 100 0)))
              ltac:(vm_compute; reflexivity) ltac:(vm_compute; reflexivity)
              Hn Hv Hb)
    as (H1 & _ & H3 & _).
  split; [exact H1|]. apply (H3 0); vm_compute; discriminate.
Defined.

(** ** Delay and interval *)

Lemma py_int_floor (x : Q) : (0 <= x)%Q -> py_int x = Qfloor x.
Proof.
  destruct x as [n d]. unfold Qle, py_int, Qfloor. simpl. intros H.
  apply Z.quot_div_nonneg; lia.
Qed.

Lemma py_int_below_one (x : Q) : (x < 1)%Q -> py_int x <= 0.
Proof.
  destruct x as [n d]. unfold Qlt, py_int. simpl. intros H.
  destruct (Z_lt_le_dec n 0) as [Hn|Hn].
  - apply Z.quot_le_upper_bound; lia.
  - rewrite Z.quot_small; lia.
Qed.

(** X14. With a measured lag and a positive save interval the selected
    delay lies between 1 and [history_size - 1]: the newest snapshot is
    never selected. It is 1 whenever the lag is below one interval, and
    for a non-negative lag it is [floor(lag / interval) + 1] capped at
    [history_size - 1]. Without a measured lag, or with a zero interval,
    it is the configured [save_delay]. *)
Theorem delay_bounds_and_fallback (c : config) (print_time est : Q) :
  2 <= history_size c ->
  ((0 < save_interval c)%Q ->
   1 <= _calculate_optimal_delay c (Some (print_time, est)) <= history_size c - 1 /\
   ((print_time - est < save_interval c)%Q ->
    _calculate_optimal_delay c (Some (print_time, est)) = 1) /\
   ((0 <= print_time - est)%Q ->
    _calculate_optimal_delay c (Some (print_time, est))
    = Z.min (Qfloor ((print_time - est) / save_interval c) + 1)
        (history_size c - 1))) /\
  ((save_interval c == 0)%Q ->
   _calculate_optimal_delay c (Some (print_time, est)) = save_delay c) /\
  _calculate_optimal_delay c None = save_delay c.
Proof.
  intros Hh. split; [|split; [|reflexivity]].
  - intros Hpos. unfold _calculate_optimal_delay, py_div.
    assert (Hnz : Qeq_bool (save_interval c) 0 = false).
    { destruct (Qeq_bool (save_interval c) 0) eqn:E; [|reflexivity].
      apply Qeq_bool_iff in E. rewrite E in Hpos. discriminate Hpos. }
    rewrite Hnz. split; [lia|]. split.
    + intros Hlt.
      assert (Hr : ((print_time - est) / save_interval c < 1)%Q)
        by (apply Qlt_shift_div_r; [exact Hpos|rewrite Qmult_1_l; exact Hlt]).
      pose proof (py_int_below_one _ Hr). lia.
    + intros Hge.
      assert (Hr : (0 <= (print_time - est) / save_interval c)%Q).
      { apply Qle_shift_div_l; [exact Hpos|rewrite Qmult_0_l; exact Hge]. }
      rewrite (py_int_floor _ Hr).
      assert (0 <= Qfloor ((print_time - est) / save_interval c)).
      { change 0 with (Qfloor 0). apply Qfloor_resp_le. exact Hr. }
      lia.
  - intros Hz. unfold _calculate_optimal_delay, py_div.
    replace (Qeq_bool (save_interval c) 0) with true
      by (symmetry; apply Qeq_bool_iff; exact Hz).
    reflexivity.
Qed.

Lemma delay_bounds_and_fallback_witness :
  1 <= _calculate_optimal_delay sample_config (Some (70, 9)%Q)
    <= history_size sample_config - 1.
Proof.
  apply (proj1 (delay_bounds_and_fallback sample_config 70 9
                  ltac:(vm_compute; discriminate))).
  reflexivity.
Defined.

Lemma py_max_upper (a b m : Q) : (a <= m)%Q -> (b <= m)%Q -> (py_max a b <= m)%Q.
Proof. intros Ha Hb. unfold py_max. destruct (Qltb a b); assumption. Qed.

Lemma py_max_left (a b : Q) : (a <= py_max a b)%Q.
Proof.
  unfold py_max. destruct (Qltb a b) eqn:E.
  - apply Qltb_lt in E. apply Qlt_le_weak. exact E.
  - apply Qle_refl.
Qed.

Lemma py_min_le_left (a b : Q) : (py_min a b <= a)%Q.
Proof.
  unfold py_min. destruct (Qltb b a) eqn:E.
  - apply Qltb_lt in E. apply Qlt_le_weak. exact E.
  - apply Qle_refl.
Qed.

Lemma three_quarters_le (x b : Q) :
  (x <= b)%Q -> (0 <= b)%Q -> (x * (3 # 4) <= b)%Q.
Proof. intros. lra. Qed.

(** X15. With a non-negative base interval, the adaptive interval never
    exceeds the larger of the base interval and 5 seconds: recent extruder
    changes, movement and temperature swings only shorten it. With at
    least 20 seconds since the last extruder change and fewer than two
    snapshots in the history it is exactly that larger value. *)
Theorem interval_at_most_base (c : config) (st : plr) (env : probe) :
  (0 <= save_interval c)%Q ->
  (_optimize_background_interval c st env <= py_max (save_interval c) 5)%Q /\
  ((20 <= monotonic env - _last_extruder_change_time st)%Q ->
   (length (state_history st) < 2)%nat ->
   _optimize_background_interval c st env = py_max (save_interval c * 1) 5).
Proof.
  intros Hb. split.
  - unfold _optimize_background_interval.
    destruct (optimize_body c st env) as [v|] eqn:E; [|apply py_max_left].
    unfold optimize_body in E.
    set (tsec := (monotonic env - _last_extruder_change_time st)%Q) in *.
    set (rf := if Qltb tsec 20 then py_min 1 ((3 # 10) + tsec / 20 * (7 # 10))
               else 1%Q) in *.
    assert (Hrf : (rf <= 1)%Q).
    { unfold rf. destruct (Qltb tsec 20); [apply py_min_le_left|apply Qle_refl]. }
    assert (Hi0 : (save_interval c * rf <= save_interval c)%Q).
    { rewrite <- (Qmult_1_r (save_interval c)) at 2.
      rewrite !(Qmult_comm (save_interval c)).
      apply Qmult_le_compat_r; assumption. }
    destruct (last_two st) as [recent|]; [|discriminate]. simpl in E.
    match type of E with
    | (?m ≫= _) = _ => destruct m as [i|] eqn:Ei; [|discriminate]
    end.
    simpl in E. injection E as <-.
    assert (Hi : (i <= save_interval c)%Q).
    { revert Ei.
      destruct recent as [[older newer]|]; [|intros [= <-]; exact Hi0].
      destruct (axis_delta newer older "x") as [dx|]; [|discriminate].
      destruct (axis_delta newer older "y") as [dy|]; [|discriminate].
      destruct (axis_delta newer older "z") as [dz|]; [|discriminate].
      destruct (temp_delta newer older) as [tc|]; [|discriminate]. simpl.
      intros [= <-].
      destruct (Qltb 5 tc); destruct (Qltb 10 (0 + dx + dy + dz));
        repeat apply three_quarters_le; assumption. }
    apply py_max_upper.
    + eapply Qle_trans; [|apply py_max_left]. exact Hi.
    + eapply Qle_trans; [|apply py_max_lower].
      destruct (Qltb tsec 5); discriminate.
  - intros H20 Hlen. unfold _optimize_background_interval, optimize_body, last_two.
    replace (2 <=? length (state_history st))%nat with false
      by (symmetry; apply Nat.leb_gt; exact Hlen).
    replace (Qltb (monotonic env - _last_extruder_change_time st) 20) with false
      by (symmetry; apply Qltb_ge; exact H20).
    replace (Qltb (monotonic env - _last_extruder_change_time st) 5) with false
      by (symmetry; apply Qltb_ge; eapply Qle_trans; [|exact H20]; discriminate).
    reflexivity.
Qed.

Lemma interval_at_most_base_witness :
  (_optimize_background_interval sample_config sample_state
     (sample_probe 40 7 100 0)
   <= py_max (save_interval sample_config) 5)%Q.
Proof.
  apply (proj1 (interval_at_most_base sample_config sample_state
                  (sample_probe 40 7 100 0) ltac:(vm_compute; discriminate))).
Defined.

(** ** The rewrite and the restoration of the original *)

(** X16. Without a valid saved checkpoint, or when the file to rewrite
    does not exist, the rewrite reports failure and leaves the file system
    as it is, whatever calls would raise. *)
Theorem rewrite_refused_leaves_files (fails : site -> bool) (c : config)
    (stored : option pyval) (input_file : string) (o : Z)
    (fs : gmap string string) :
  _get_saved_state c stored = None \/ fs !! input_file = None ->
  _modify_gcode_file fails c stored input_file o fs = (None, fs).
Proof.
  intros H. unfold _modify_gcode_file.
  destruct (_get_saved_state c stored) as [saved|] eqn:Es;
    [|reflexivity].
  destruct H as [H|H]; [discriminate|].
  destruct (subscript saved "position" ≫= _); [|reflexivity].
  unfold os_rename. rewrite H. destruct (fails RenameToBackup); reflexivity.
Qed.

Lemma rewrite_refused_leaves_files_witness :
  _modify_gcode_file sample_faults sample_config (Some (PDict []))
    "a.gcode" 4 sample_fs = (None, sample_fs).
Proof.
  apply (rewrite_refused_leaves_files sample_faults sample_config
           (Some (PDict [])) "a.gcode" 4 sample_fs).
  left. reflexivity.
Defined.

(** The state of the files after a rewrite that reported success. *)
Lemma modify_success (fails : site -> bool) (c : config)
    (stored : option pyval) (input_file : string) (o : Z)
    (fs : gmap string string) (content : string) (p : string) :
  fs !! input_file = Some content ->
  fst (_modify_gcode_file fails c stored input_file o fs) = Some p ->
  p = input_file /\
  exists new,
    snd (_modify_gcode_file fails c stored input_file o fs)
    = <[input_file := new]>
        (<[backup_of input_file := content]> (delete input_file fs)).
Proof.
  intros Hin Hok.
  destruct (_get_saved_state c stored) as [saved|] eqn:Hs;
    [|revert Hok; unfold _modify_gcode_file; rewrite Hs; discriminate].
  destruct (saved_state_fields c stored saved Hs)
    as (saved_z & z & ext & chamber_temp & t & Hz & _).
  destruct (fails RenameToBackup) eqn:Hren.
  { revert Hok. unfold _modify_gcode_file, os_rename.
    rewrite Hs, Hz, Hren. discriminate. }
  rewrite (modify_after_rename fails c stored saved saved_z input_file o fs
             content Hs Hz Hin Hren) in Hok |- *.
  destruct (rewrite_body fails c _ _ saved_z input_file (backup_of input_file) o _)
    as [[[]|] fs2] eqn:Eb; [|discriminate].
  injection Hok as <-. split; [reflexivity|].
  apply rewrite_body_ok in Eb.
  destruct (modify_no_fault c stored saved input_file o fs content Hs Hin)
    as (pre & _ & Hnf).
  rewrite (modify_after_rename no_fault c stored saved saved_z input_file o fs
             content Hs Hz Hin eq_refl), Eb in Hnf.
  injection Hnf as ->. eexists. reflexivity.
Qed.

(** X17. A rewrite that reports success returns the name it was given,
    keeps the original content under the backup name and changes no file
    other than these two. *)
Theorem rewrite_success_keeps_original (fails : site -> bool) (c : config)
    (stored : option pyval) (input_file : string) (o : Z)
    (fs : gmap string string) (content : string) (p : string) :
  fs !! input_file = Some content ->
  fst (_modify_gcode_file fails c stored input_file o fs) = Some p ->
  p = input_file /\
  snd (_modify_gcode_file fails c stored input_file o fs)
    !! backup_of input_file = Some content /\
  (forall q, q <> input_file -> q <> backup_of input_file ->
     snd (_modify_gcode_file fails c stored input_file o fs) !! q = fs !! q).
Proof.
  intros Hin Hok.
  destruct (modify_success fails c stored input_file o fs content p Hin Hok)
    as (-> & new & ->).
  pose proof (backup_of_ne input_file) as Hne.
  split; [reflexivity|]. split.
  - rewrite lookup_insert_ne by congruence. apply lookup_insert_eq.
  - intros q Hq1 Hq2.
    rewrite !lookup_insert_ne, lookup_delete_ne by congruence. reflexivity.
Qed.

Lemma rewrite_success_keeps_original_witness :
  "a.gcode" = "a.gcode" /\
  snd (_modify_gcode_file no_fault sample_config sample_stored "a.gcode" 4
         sample_fs) !! backup_of "a.gcode" = Some sample_gcode /\
  (forall q, q <> "a.gcode" -> q <> backup_of "a.gcode" ->
     snd (_modify_gcode_file no_fault sample_config sample_stored "a.gcode" 4
            sample_fs) !! q = sample_fs !! q).
Proof.
  apply (rewrite_success_keeps_original no_fault sample_config sample_stored
           "a.gcode" 4 sample_fs sample_gcode "a.gcode").
  - vm_compute. reflexivity.
  - vm_compute. reflexivity.
Defined.

(** What the restoration does when neither of its calls raises. *)
Lemma restore_no_fault (gcode_dir filename : string) (fs : gmap string string) :
  snd (splitext filename) <> ".plr" ->
  _restore_original_gcode false false gcode_dir filename fs
  = match fs !! (os_path_join gcode_dir filename +:+ ".plr") with
    | Some content =>
        <[os_path_join gcode_dir filename := content]>
          (delete (os_path_join gcode_dir filename +:+ ".plr")
             (delete (os_path_join gcode_dir filename) fs))
    | None => fs
    end.
Proof.
  intros Hext. unfold _restore_original_gcode.
  destruct (splitext filename) as [base ext]. simpl in Hext.
  replace (String.eqb ext ".plr") with false
    by (symmetry; apply String.eqb_neq; exact Hext).
  set (orig := os_path_join gcode_dir filename).
  pose proof (backup_of_ne orig) as Hne. unfold backup_of in Hne.
  unfold os_path_exists, os_remove, os_rename.
  destruct (fs !! (orig +:+ ".plr")) as [content|] eqn:Eb; [|reflexivity].
  destruct (fs !! orig) eqn:Eo; simpl; rewrite ?Eo; simpl.
  - rewrite lookup_delete_ne by congruence. rewrite Eb. reflexivity.
  - rewrite Eb. simpl. rewrite (delete_id fs orig) by exact Eo. reflexivity.
Qed.

(** X18. For a file whose name does not carry the extension [.plr] and
    that had no backup file before: after a rewrite that reported success,
    the restoration run at the end of the print, when its remove and
    rename do not raise, brings the file system back to what it was before
    the rewrite: the original name holds the original content and the
    backup is gone. *)
Theorem restore_undoes_rewrite (fails : site -> bool) (c : config)
    (stored : option pyval) (gcode_dir filename : string) (o : Z)
    (fs : gmap string string) (content p : string) :
  snd (splitext filename) <> ".plr" ->
  fs !! os_path_join gcode_dir filename = Some content ->
  fs !! backup_of (os_path_join gcode_dir filename) = None ->
  fst (_modify_gcode_file fails c stored (os_path_join gcode_dir filename) o fs)
    = Some p ->
  _restore_original_gcode false false gcode_dir filename
    (snd (_modify_gcode_file fails c stored (os_path_join gcode_dir filename) o fs))
  = fs.
Proof.
  intros Hext Hin Hnb Hok.
  destruct (modify_success fails c stored _ o fs content p Hin Hok)
    as (_ & new & ->).
  set (orig := os_path_join gcode_dir filename) in *.
  pose proof (backup_of_ne orig) as Hne.
  rewrite restore_no_fault by exact Hext. fold orig. fold (backup_of orig).
  rewrite lookup_insert_ne by congruence. rewrite lookup_insert_eq.
  apply map_eq. intros q.
  destruct (decide (q = orig)) as [->|Hq1];
    [rewrite lookup_insert_eq; symmetry; exact Hin|].
  rewrite lookup_insert_ne by congruence.
  destruct (decide (q = backup_of orig)) as [->|Hq2];
    [rewrite lookup_delete_eq; symmetry; exact Hnb|].
  rewrite !lookup_delete_ne, !lookup_insert_ne, lookup_delete_ne by congruence.
  reflexivity.
Qed.

Lemma restore_undoes_rewrite_witness :
  _restore_original_gcode false false "" "a.gcode"
    (snd (_modify_gcode_file no_fault sample_config sample_stored
            (os_path_join "" "a.gcode") 4 sample_fs))
  = sample_fs.
Proof.
  apply (restore_undoes_rewrite no_fault sample_config sample_stored ""
           "a.gcode" 4 sample_fs sample_gcode "a.gcode").
  - vm_compute. discriminate.
  - vm_compute. reflexivity.
  - vm_compute. reflexivity.
  - vm_compute. reflexivity.
Defined.

(** X19. The restoration does nothing for a name that carries the backup
    suffix or that has no backup file, it never changes a file other than
    the original and its backup, and when its calls do not raise, running
    it a second time changes nothing more. *)
Theorem restore_guards_and_idempotence (remove_raises rename_raises : bool)
    (gcode_dir filename : string) (fs : gmap string string) :
  (snd (splitext filename) = ".plr" ->
   _restore_original_gcode remove_raises rename_raises gcode_dir filename fs = fs) /\
  (fs !! (os_path_join gcode_dir filename +:+ ".plr") = None ->
   _restore_original_gcode remove_raises rename_raises gcode_dir filename fs = fs) /\
  (forall q, q <> os_path_join gcode_dir filename ->
     q <> os_path_join gcode_dir filename +:+ ".plr" ->
     _restore_original_gcode remove_raises rename_raises gcode_dir filename fs !! q
     = fs !! q) /\
  _restore_original_gcode false false gcode_dir filename
    (_restore_original_gcode false false gcode_dir filename fs)
  = _restore_original_gcode false false gcode_dir filename fs.
Proof.
  set (orig := os_path_join gcode_dir filename).
  pose proof (backup_of_ne orig) as Hne. unfold backup_of in Hne.
  split; [|split; [|split]].
  - intros Hext. unfold _restore_original_gcode.
    destruct (splitext filename) as [base ext]. simpl in Hext. subst ext.
    reflexivity.
  - intros Hnb. unfold _restore_original_gcode.
    destruct (splitext filename) as [base ext].
    destruct (String.eqb ext ".plr"); [reflexivity|].
    unfold os_path_exists. fold orig. rewrite Hnb. reflexivity.
  - intros q Hq1 Hq2. unfold _restore_original_gcode.
    destruct (splitext filename) as [base ext].
    destruct (String.eqb ext ".plr"); [reflexivity|].
    fold orig. unfold os_path_exists, os_remove, os_rename.
    destruct (fs !! (orig +:+ ".plr")) as [content|] eqn:Eb; [|reflexivity].
    destruct (fs !! orig) eqn:Eo; simpl; rewrite ?Eo; simpl.
    + destruct remove_raises; simpl; [reflexivity|].
      destruct rename_raises; simpl; [apply lookup_delete_ne; congruence|].
      rewrite lookup_delete_ne by congruence. rewrite Eb. simpl.
      rewrite lookup_insert_ne, !lookup_delete_ne by congruence. reflexivity.
    + destruct rename_raises; simpl; [reflexivity|]. rewrite Eb. simpl.
      rewrite lookup_insert_ne, lookup_delete_ne by congruence. reflexivity.
  - destruct (String.eqb (snd (splitext filename)) ".plr") eqn:Eext.
    + apply String.eqb_eq in Eext. unfold _restore_original_gcode.
      destruct (splitext filename) as [base ext]. simpl in Eext. subst ext.
      reflexivity.
    + apply String.eqb_neq in Eext.
      rewrite (restore_no_fault gcode_dir filename fs Eext). fold orig.
      destruct (fs !! (orig +:+ ".plr")) as [content|] eqn:Eb.
      * rewrite restore_no_fault by exact Eext. fold orig.
        rewrite lookup_insert_ne by congruence.
        rewrite lookup_delete_eq. reflexivity.
      * rewrite restore_no_fault by exact Eext. fold orig.
        rewrite Eb. reflexivity.
Qed.

Lemma restore_guards_and_idempotence_witness :
  _restore_original_gcode false false "/g" "a.gcode.plr"
    {[ "/g/a.gcode.plr" := "x"; "/g/a.gcode.plr.plr" := "y" ]}
  = {[ "/g/a.gcode.plr" := "x"; "/g/a.gcode.plr.plr" := "y" ]}.
Proof.
  apply (proj1 (restore_guards_and_idempotence false false "/g" "a.gcode.plr"
                  {[ "/g/a.gcode.plr" := "x"; "/g/a.gcode.plr.plr" := "y" ]})).
  vm_compute. reflexivity.
Defined.

(** ** The resume command *)

Lemma saved_position_is_int (c : config) (stored : option pyval) (saved : pyval) :
  _get_saved_state c stored = Some saved ->
  exists fp pos z,
    subscript saved "file_progress" = Some fp /\
    subscript fp "position" = Some pos /\ as_int pos = Some z.
Proof.
  unfold _get_saved_state. destruct stored as [sd|]; [|discriminate].
  destruct (negb (truthy sd)); [discriminate|].
  destruct (is_valid c sd) eqn:Hv; [|discriminate]. intros [= <-].
  destruct (is_valid_inv c sd Hv) as (d & -> & Hc).
  destruct (check_fields_inv d _ Hc "file_progress" TDict
              [("position", TInt); ("total_size", TInt); ("progress_pct", TNumber)])
    as (fp & Hfp & _ & Hsub); [unfold required_fields; simpl; auto|].
  destruct (check_subfields_inv _ _ _ Hsub "position" TInt) as (pos & Ep & Tp);
    [simpl; auto|].
  exists fp, pos. destruct pos; try discriminate; simpl; eauto.
Qed.

(** X20. The resume command always raises [resuming_print] and changes
    nothing else of the instance. It runs a script only to start the print
    of the rewritten file, after a rewrite that reported success; and
    when it answers that there is no saved state, no file name, no file
    position or no such file, it has not touched the file system. *)
Theorem resume_command_outcomes (fails : site -> bool) (start_raises : bool)
    (c : config) (gcode_dir : string) (stored : option pyval)
    (st : plr) (fs : gmap string string) :
  let r := cmd_PLR_RESUME_PRINT fails start_raises c gcode_dir stored st fs in
  rr_state r = set_resuming_print true st /\
  (rr_scripts r <> [] ->
   exists saved name pos,
     _get_saved_state c stored = Some saved /\
     subscript saved "current_file" = Some (PStr name) /\
     rr_files r
       = snd (_modify_gcode_file fails c stored (os_path_join gcode_dir name) pos fs) /\
     fst (_modify_gcode_file fails c stored (os_path_join gcode_dir name) pos fs)
       = Some (os_path_join gcode_dir name) /\
     rr_response r = Started (os_path_basename (os_path_join gcode_dir name)) /\
     rr_scripts r
       = ["SDCARD_PRINT_FILE FILENAME=" +:+ DQUOTE +:+
          os_path_basename (os_path_join gcode_dir name) +:+ DQUOTE]) /\
  (match rr_response r with
   | NoSavedState | NoFilename | NoFilePosition | FileNotFound _
   | ProcessingError => rr_files r = fs
   | _ => True
   end).
Proof.
  intros r. subst r. unfold cmd_PLR_RESUME_PRINT.
  destruct (_get_saved_state c stored) as [saved|] eqn:Hs;
    [|simpl; repeat split; congruence].
  unfold dict_get_or_none.
  destruct (subscript saved "current_file") as [cf|] eqn:Hcf;
    [|simpl; repeat split; congruence].
  cbn [default from_option id].
  destruct (truthy cf) eqn:Ht; [|simpl; repeat split; congruence].
  cbn [negb].
  destruct (saved_position_is_int c stored saved Hs)
    as (fp & pos & z & Hfp & Hpos & Hz).
  rewrite Hfp. cbn [default from_option id]. rewrite Hpos.
  cbn [default from_option id].
  destruct pos; try discriminate Hz; rewrite Hz.
  all: destruct cf as [| | | |name|]; try (simpl; repeat split; congruence).
  all: destruct (os_path_exists (os_path_join gcode_dir name) fs) eqn:Hex;
    cbn [negb]; [|simpl; repeat split; congruence].
  all: destruct (_modify_gcode_file fails c stored (os_path_join gcode_dir name) z fs)
         as [[out|] fs'] eqn:Hm; [|simpl; repeat split; congruence].
  all: destruct start_raises; [simpl; repeat split; congruence|].
  all: assert (Hout : out = os_path_join gcode_dir name).
  all: try (unfold os_path_exists in Hex;
            destruct (fs !! os_path_join gcode_dir name) as [content|] eqn:Hin;
              [|discriminate];
            apply (proj1 (modify_success fails c stored _ z fs content out Hin
                            ltac:(rewrite Hm; reflexivity)))).
  all: subst out; simpl; split; [reflexivity|]; split; [|exact I];
    intros _; exists saved, name, z; rewrite Hm; simpl; auto 10.
Qed.

Lemma resume_command_outcomes_witness :
  exists saved name pos,
    _get_saved_state sample_config sample_stored = Some saved /\
    subscript saved "current_file" = Some (PStr name) /\
    rr_files (cmd_PLR_RESUME_PRINT no_fault false sample_config "" sample_stored
                sample_state sample_fs)
      = snd (_modify_gcode_file no_fault sample_config sample_stored
               (os_path_join "" name) pos sample_fs) /\
    fst (_modify_gcode_file no_fault sample_config sample_stored
           (os_path_join "" name) pos sample_fs)
      = Some (os_path_join "" name) /\
    rr_response (cmd_PLR_RESUME_PRINT no_fault false sample_config ""
                   sample_stored sample_state sample_fs)
      = Started (os_path_basename (os_path_join "" name)) /\
    rr_scripts (cmd_PLR_RESUME_PRINT no_fault false sample_config ""
                  sample_stored sample_state sample_fs)
      = ["SDCARD_PRINT_FILE FILENAME=" +:+ DQUOTE +:+
         os_path_basename (os_path_join "" name) +:+ DQUOTE].
Proof.
  apply (proj1 (proj2 (resume_command_outcomes no_fault false sample_config ""
                         sample_stored sample_state sample_fs))).
  vm_compute. discriminate.
Defined.

(** ** Configuration text *)

Lemma split_on_nonempty (sep : ascii) (s : string) : split_on sep s <> [].
Proof.
  destruct s as [|a rest]; simpl; [discriminate|].
  destruct (Ascii.eqb a sep); [discriminate|].
  destruct (split_on sep rest); discriminate.
Qed.

Lemma split_on_no_sep (sep : ascii) (s x : string) :
  In x (split_on sep s) -> contains sep x = false.
Proof.
  revert x. induction s as [|a rest IH]; intros x; simpl.
  - intros [<-|[]]. reflexivity.
  - destruct (Ascii.eqb a sep) eqn:E.
    + intros [<-|H]; [reflexivity|apply IH; exact H].
    + destruct (split_on sep rest) as [|y ys] eqn:Es.
      * intros [<-|[]]. simpl. rewrite E. reflexivity.
      * intros [<-|H].
        -- simpl. rewrite E. apply IH. left. reflexivity.
        -- apply IH. right. exact H.
Qed.

Lemma lstrip_contains (a : ascii) (s : string) :
  contains a (lstrip s) = true -> contains a s = true.
Proof.
  induction s as [|b rest IH]; simpl; [auto|].
  destruct (is_space b); [|auto].
  intros H. rewrite (IH H). apply orb_true_r.
Qed.

Lemma rstrip_contains (a : ascii) (s : string) :
  contains a (rstrip s) = true -> contains a s = true.
Proof.
  induction s as [|b rest IH]; simpl; [auto|].
  destruct (rstrip rest) as [|c r] eqn:Er.
  - destruct (is_space b); simpl; [discriminate|].
    rewrite orb_false_r. intros ->. reflexivity.
  - simpl. intros H. apply orb_true_iff in H as [H|H].
    + rewrite H. reflexivity.
    + rewrite IH; [apply orb_true_r|]. simpl. exact H.
Qed.

Lemma rstrip_cons (b : ascii) (rest : string) :
  rstrip (String b rest)
  = match rstrip rest with
    | EmptyString => if is_space b then EmptyString else String b EmptyString
    | r => String b r
    end.
Proof. reflexivity. Qed.

Lemma rstrip_idem (s : string) : rstrip (rstrip s) = rstrip s.
Proof.
  induction s as [|b rest IH]; [reflexivity|].
  rewrite rstrip_cons.
  destruct (rstrip rest) as [|c r] eqn:Er.
  - destruct (is_space b) eqn:Eb; [reflexivity|].
    rewrite rstrip_cons. simpl. rewrite Eb. reflexivity.
  - rewrite rstrip_cons, IH. reflexivity.
Qed.

Lemma rstrip_head (a : ascii) (rest : string) :
  is_space a = false -> exists r, rstrip (String a rest) = String a r.
Proof.
  intros Ha. simpl. destruct (rstrip rest); [rewrite Ha|]; eauto.
Qed.

Lemma lstrip_head (s : string) :
  match lstrip s with
  | EmptyString => True
  | String a _ => is_space a = false
  end.
Proof.
  induction s as [|b rest IH]; simpl; [exact I|].
  destruct (is_space b) eqn:E; [exact IH|exact E].
Qed.

Lemma strip_idem (s : string) : strip (strip s) = strip s.
Proof.
  unfold strip. pose proof (lstrip_head s) as H.
  destruct (lstrip s) as [|a rest]; [reflexivity|].
  destruct (rstrip_head a rest H) as [r Hr]. rewrite Hr.
  cbn [lstrip]. rewrite H, <- Hr. apply rstrip_idem.
Qed.

Lemma split_strip_lines (sep : ascii) (s y : string) :
  In y (split_strip sep s) ->
  y <> "" /\ strip y = y /\ contains sep y = false.
Proof.
  unfold split_strip. intros H.
  apply list_elem_of_In, list_elem_of_omap in H as (x & Hx & Hy).
  apply list_elem_of_In in Hx.
  destruct (strip x) as [|a r] eqn:Ex; [discriminate|]. injection Hy as <-.
  split; [discriminate|]. split.
  - rewrite <- Ex. apply strip_idem.
  - destruct (contains sep (String a r)) eqn:Ec; [|reflexivity].
    rewrite <- Ex in Ec. unfold strip in Ec.
    apply rstrip_contains, lstrip_contains in Ec.
    rewrite (split_on_no_sep sep s x Hx) in Ec. discriminate.
Qed.

(** X21. Every line [_parse_gcode_config_option] returns is non-empty,
    has no leading or trailing white space and contains no newline; so
    each on-restart line, written with its newline, is exactly one line
    of the rewritten file. *)
Theorem parsed_gcode_lines_are_clean (raw_value line : string) :
  In line (snd (_parse_gcode_config_option raw_value)) ->
  line <> "" /\ strip line = line /\ contains "010" line = false /\
  py_lines (line +:+ LF) = [line +:+ LF].
Proof.
  intros H. destruct (split_strip_lines "010" raw_value line H) as (H1 & H2 & H3).
  split; [exact H1|]. split; [exact H2|]. split; [exact H3|].
  clear H H1 H2. induction line as [|a rest IH]; [reflexivity|].
  simpl in H3. apply orb_false_iff in H3 as [Ha Hr].
  rewrite str_app_cons. cbn [py_lines]. rewrite Ha, (IH Hr). reflexivity.
Qed.

Lemma parsed_gcode_lines_are_clean_witness :
  "G28 X" <> "" /\ strip "G28 X" = "G28 X" /\ contains "010" "G28 X" = false /\
  py_lines ("G28 X" +:+ LF) = ["G28 X" +:+ LF].
Proof.
  apply (parsed_gcode_lines_are_clean ("  G28 X " +:+ LF +:+ " M83") "G28 X").
  vm_compute. auto.
Defined.

Lemma split_on_single (sep : ascii) (x : string) :
  contains sep x = false -> split_on sep x = [x].
Proof.
  induction x as [|a rest IH]; simpl; [reflexivity|].
  intros H. apply orb_false_iff in H as [Ha Hr].
  rewrite Ha, (IH Hr). reflexivity.
Qed.

Lemma split_on_app (sep : ascii) (x rest : string) :
  contains sep x = false ->
  split_on sep (x +:+ String sep rest) = x :: split_on sep rest.
Proof.
  induction x as [|a x' IH]; intros H.
  - rewrite str_app_nil. simpl. rewrite Ascii.eqb_refl. reflexivity.
  - simpl in H. apply orb_false_iff in H as [Ha Hr].
    rewrite str_app_cons. cbn [split_on]. rewrite Ha, (IH Hr). reflexivity.
Qed.

Lemma split_strip_join (sep : ascii) (ls : list string) :
  (forall y, In y ls -> y <> "" /\ strip y = y /\ contains sep y = false) ->
  split_strip sep (join_with (String sep "") ls) = ls.
Proof.
  induction ls as [|x rest IH]; intros H; [reflexivity|].
  destruct (H x (or_introl eq_refl)) as (Hne & Hst & Hc).
  assert (Hkeep : match strip x with "" => None | y => Some y end = Some x)
    by (rewrite Hst; destruct x; [contradiction|reflexivity]).
  destruct rest as [|x' rest'].
  - simpl. unfold split_strip. rewrite split_on_single by exact Hc.
    simpl. rewrite Hkeep. reflexivity.
  - change (join_with (String sep "") (x :: x' :: rest'))
      with (x +:+ String sep "" +:+ join_with (String sep "") (x' :: rest')).
    rewrite str_app_cons, str_app_nil.
    unfold split_strip. rewrite split_on_app by exact Hc.
    cbn [omap list_omap]. rewrite Hkeep. f_equal.
    apply IH. intros y Hy. apply H. right. exact Hy.
Qed.

(** X22. Parsing is idempotent: joining the parsed lines with newlines
    and parsing the result again gives the same lines; likewise for the
    comma-separated lists of fans and extruders. *)
Theorem parsing_is_idempotent (raw_value : string) :
  snd (_parse_gcode_config_option
         (join_with LF (snd (_parse_gcode_config_option raw_value))))
  = snd (_parse_gcode_config_option raw_value) /\
  parse_name_list (join_with "," (parse_name_list raw_value))
  = parse_name_list raw_value.
Proof.
  split.
  - unfold _parse_gcode_config_option. simpl. unfold LF.
    apply split_strip_join. apply split_strip_lines.
  - unfold parse_name_list.
    destruct (String.eqb raw_value "") eqn:E; [reflexivity|].
    rewrite (split_strip_join "," (split_strip "," raw_value))
      by apply split_strip_lines.
    destruct (String.eqb (join_with "," (split_strip "," raw_value)) "") eqn:E2;
      [|reflexivity].
    apply String.eqb_eq in E2.
    pose proof (split_strip_join "," (split_strip "," raw_value)
                  (split_strip_lines "," raw_value)) as Hj.
    rewrite E2 in Hj. rewrite <- Hj. reflexivity.
Qed.

(** ** Restoring settings *)

(** X23. Whatever the saved state holds, the only script
    [_restore_active_extruder] ever runs activates an extruder from the
    configured list; and for a saved state that passed the validator it
    activates the saved extruder. *)
Theorem restore_activates_configured_extruder (c : config) (state_data : pyval) :
  (_restore_active_extruder c state_data = [] \/
   exists name, In name (extruders c) /\
     subscript state_data "active_extruder" = Some (PStr name) /\
     _restore_active_extruder c state_data
     = ["ACTIVATE_EXTRUDER EXTRUDER=" +:+ name]) /\
  (forall stored name,
     _get_saved_state c stored = Some state_data ->
     subscript state_data "active_extruder" = Some (PStr name) ->
     name <> "" ->
     _restore_active_extruder c state_data
     = ["ACTIVATE_EXTRUDER EXTRUDER=" +:+ name]).
Proof.
  split.
  - unfold _restore_active_extruder.
    destruct (negb (truthy state_data)); [left; reflexivity|].
    destruct (subscript state_data "active_extruder") as [ae|]; [|left; reflexivity].
    destruct (negb (truthy ae)); [left; reflexivity|].
    destruct ae as [| | | |name|]; try (left; reflexivity).
    destruct (str_in name (extruders c)) eqn:E; [|left; reflexivity].
    right. exists name. apply str_in_In in E. auto.
  - intros stored name Hs Hae Hne.
    assert (Hv : is_valid c state_data = true /\ truthy state_data = true).
    { revert Hs. unfold _get_saved_state. destruct stored as [sd|]; [|discriminate].
      destruct (truthy sd) eqn:Et; [|discriminate]. simpl.
      destruct (is_valid c sd) eqn:Ev; [|discriminate]. intros [= <-]. auto. }
    destruct Hv as [Hv Ht].
    assert (Hin : In name (extruders c)).
    { unfold is_valid in Hv.
      destruct (_verify_state c state_data) eqn:Evs; [discriminate|].
      unfold _verify_state in Evs.
      destruct state_data as [| | | | |d]; try discriminate.
      simpl in Hae.
      repeat match type of Evs with
             | match ?x with Some _ => _ | None => _ end = None =>
                 destruct x; [discriminate|]
             | (if ?b then _ else _) = None => destruct b; [discriminate|]
             end.
      rewrite Hae in Evs.
      destruct (str_in name (extruders c)) eqn:E; [|discriminate].
      apply str_in_In. exact E. }
    unfold _restore_active_extruder. rewrite Ht, Hae. simpl.
    replace (String.eqb name "") with false
      by (symmetry; apply String.eqb_neq; exact Hne).
    simpl. apply str_in_In in Hin. rewrite Hin. reflexivity.
Qed.

Lemma restore_activates_configured_extruder_witness :
  _restore_active_extruder sample_config (default PNone sample_stored)
  = ["ACTIVATE_EXTRUDER EXTRUDER=" +:+ "extruder"].
Proof.
  apply (proj2 (restore_activates_configured_extruder sample_config
                  (default PNone sample_stored)) sample_stored "extruder").
  - vm_compute. reflexivity.
  - vm_compute. reflexivity.
  - discriminate.
Defined.

Lemma py_int_range (x : Q) (lo hi : Z) :
  lo <= 0 -> (inject_Z lo <= x)%Q -> (x < inject_Z (hi + 1))%Q -> 0 <= hi ->
  lo <= py_int x <= hi.
Proof.
  intros Hlo Hx1 Hx2 Hhi. split.
  - apply Z.le_trans with (py_int (inject_Z lo)).
    + unfold py_int, inject_Z. simpl. rewrite Z.quot_1_r. lia.
    + apply py_int_mono. exact Hx1.
  - destruct x as [n d]. unfold Qlt, Qle, py_int, inject_Z in *. simpl in *.
    destruct (Z_lt_le_dec n 0) as [Hn|Hn].
    + assert (n ÷ Zpos d <= 0) by (apply Z.quot_le_upper_bound; lia). lia.
    + rewrite Z.quot_div_nonneg by lia.
      apply Z.lt_succ_r. apply Z.div_lt_upper_bound; lia.
Qed.

(** X24. A fan is restored only if it is configured and the saved state
    holds a speed for it; and the speed byte of an M106 command is the
    saved speed times 255 rounded to the nearest integer by truncating
    [speed * 255 + 0.5], which lies between 0 and 255 for a saved speed
    between 0 and 1. *)
Theorem restored_fan_commands (c : config) (cur : string)
    (fan_exists : string -> bool) (state_data : pyval) (cmd : fan_command) :
  In cmd (_restore_fan_speeds c (Some cur) fan_exists state_data) ->
  exists fan_speeds fan_name speed,
    subscript state_data "fan_speeds" = Some fan_speeds /\
    In fan_name (part_cooling_fans c) /\
    subscript fan_speeds fan_name = Some speed /\
    match cmd with
    | M106 speed_byte =>
        exists sp, as_num speed = Some sp /\
          speed_byte = py_int (sp * 255 + (1 # 2)) /\
          ((0 <= sp)%Q -> (sp <= 1)%Q -> 0 <= speed_byte <= 255)
    | SetFanSpeed name speed' =>
        name = fan_name /\ speed' = speed /\ fan_exists name = true
    end.
Proof.
  unfold _restore_fan_speeds.
  destruct (negb (truthy state_data)); [intros []|].
  destruct (subscript state_data "fan_speeds") as [fs|]; [|intros []].
  destruct (negb (truthy fs)); [intros []|].
  intros H. apply list_elem_of_In, list_elem_of_omap in H as (fan & Hfan & Hcmd).
  apply list_elem_of_In in Hfan.
  unfold restore_fan in Hcmd.
  destruct (subscript fs fan) as [speed|] eqn:Es; [|discriminate].
  exists fs, fan, speed. split; [reflexivity|]. split; [exact Hfan|].
  split; [exact Es|].
  destruct (String.eqb fan "fan" || String.eqb fan (cur +:+ "_fan")).
  - destruct (as_num speed) as [sp|]; [|discriminate]. injection Hcmd as <-.
    exists sp. split; [reflexivity|]. split; [reflexivity|].
    intros H0 H1. apply py_int_range; try lia.
    + change (inject_Z 0) with 0%Q.
      apply Qle_trans with (0 * 255 + (1 # 2))%Q; [discriminate|].
      apply Qplus_le_l. apply Qmult_le_compat_r; [exact H0|discriminate].
    + apply Qle_lt_trans with (1 * 255 + (1 # 2))%Q; [|reflexivity].
      apply Qplus_le_l. apply Qmult_le_compat_r; [exact H1|discriminate].
  - destruct (fan_exists fan) eqn:Ef; [|discriminate]. injection Hcmd as <-.
    auto.
Qed.

Lemma restored_fan_commands_witness :
  exists fan_speeds fan_name speed,
    subscript (PDict [("fan_speeds", PDict [("fan", PFloat (1 # 2))])])
      "fan_speeds" = Some fan_speeds /\
    In fan_name ["fan"] /\
    subscript fan_speeds fan_name = Some speed /\
    exists sp, as_num speed = Some sp /\
      128 = py_int (sp * 255 + (1 # 2)) /\
      ((0 <= sp)%Q -> (sp <= 1)%Q -> 0 <= 128 <= 255).
Proof.
  apply (restored_fan_commands
           (mkConfig 30 true ["fan"] ["extruder"] "" 5 2 []) "extruder"
           (fun _ => true)
           (PDict [("fan_speeds", PDict [("fan", PFloat (1 # 2))])])
           (M106 128)).
  vm_compute. auto.
Defined.
